(* ===== verification/_CoqProject ===== *)
-Q . S2P
Prelude.v
PyStr.v
Frame.v
Schema.v
Procesar.v
RowSpec.v
Instrucciones.v
Registro.v
Download.v
Session.v
Rerun.v
