(* ===== verification/Prelude.v ===== *)
(** * A verification library for the [.hab] deposit-file generator

    Repository: Dir-Tecno/deposito-becas-mujer.  The program is one
    Streamlit script, [src/app.py].  Its core is [procesar_archivo]
    (lines 66-146): it takes a pandas DataFrame read from an Excel sheet
    and an 8-digit date, drops the rows whose CUOTA is ["3"], builds a
    result DataFrame of twelve zero-padded columns described by the
    fixed table [datos_formato_cliente], rewrites the CUIL column with a
    one-character prefix chosen by CUIL_APODERADO, drops the result rows
    whose SOLICITUD is NaN, and joins every result row into one line of
    the [.hab] file, lines separated and terminated by CRLF.  Around it,
    [get_download_link] (lines 149-153) encodes the text in latin-1, and
    the rest of the script (lines 155-275) is a Streamlit page whose
    [st.session_state] keeps the uploaded frame, the date, the processed
    result and a [procesado] flag across reruns.

    ** How the development is laid out (one file per component)

    - [Prelude] (this file): the error type [pyerr] for the Python
      exceptions the code can raise, the result type [res] with its bind
      notation [let* x := m in k] (scope [py_scope]), boolean indexing
      [mask_filter] and the list lemmas every component shares, the hint
      databases [deposito]/[deposito_rw] and the tactics [inv_bind] and
      [lia_divmod].
    - [PyStr]: Python [str] as a list of code points ([pystr := list N])
      with the methods the code calls: [str.zfill] (sign kept in front),
      [str.isspace]/[str.strip], [sep.join], [str(x)] of a cell (NaN
      prints as ["nan"]) and truthiness.  Their own properties are
      lemmas used by the components, not claims about the program.
    - [Frame]: the subset of pandas the code calls, on a frame of
      labelled rows and named columns: [df[c]] ([getitem], KeyError),
      boolean filtering that keeps labels ([take_rows]), column
      assignment from a list ([setitem_list], ValueError on a length
      mismatch) and from a Series aligned by label ([setitem_series]),
      [iloc] by position (IndexError), [.at] by label, [iterrows];
      [frame_of_rows] is the frame [pd.read_excel] returns.
    - [Schema]: the layout table [datos_formato_cliente] (lines 68-81).
    - [Procesar]: [procesar_archivo] stage by stage, as the code writes
      it ([filtrar_cuota], [sufijo_importe], [resolver_campos],
      [regla_cuil], [filtrar_solicitud], [contenido_hab], [serializar]),
      and [lineas_emitidas], the lines it emits read off the input.
    - [RowSpec]: the per-row contract of spec 4.2-4.5 ([linea_spec],
      [archivo_spec], [cabe] for values that fit their fields) and how
      the code's output on a sheet relates to it.
    - [Registro]: the reader of the [.hab] file (split at CRLF, cut at
      the field widths), the consumer side of spec 4.5-4.6.
    - [Download]: [get_download_link] (lines 149-153): latin-1
      encoding, base64, the HTML anchor, and a base64 decoder for the
      reader of the link.
    - [Session]: the Streamlit page (lines 155-275): [st.session_state]
      and the uploader as a record [sesion], one rerun as [ejecutar]
      (callbacks, read, column check, button, results, rename, link),
      reachable states as the inductive [alcanzable].
    - [Instrucciones]: the CUIL rule the sidebar announces to the user
      (lines 54-56), compared with what the code does.
    - [Rerun]: the Streamlit runtime's reruns of the script with the
      same widget values ([reejecutar]; [st.button] is false after the
      click's run) and the fixed point they reach.

    ** What the theorems show

    - Procesar: on a sheet with the required columns the run succeeds
      and its text is [lineas_emitidas] (C1), and its table is well
      formed with the twelve layout columns in order (C10); it raises
      exactly KeyError CUOTA or KeyError SOLICITUD, so a sheet missing
      another column such as CBU is processed silently (C4); the CUIL
      loop reads rows by position (C5); the CUIL rule (C18).
    - RowSpec: refinement of the per-row contract when the CUOTA=3 rows
      come last (C2); the misalignment when one comes first (C3); rows
      without SOLICITUD are emitted (C12); every record the code writes
      on a sheet of fitting values is 103 characters wide, or 81 with a
      blank CUIL (C13).
    - Registro: the records the code writes are CRLF-terminated and
      cut back, at the layout's widths, into the padded fields of a
      source row (C14); an empty batch is one empty record (C20).
    - Instrucciones: the CUIL field follows the sidebar's rule exactly
      when the CUIL is not blank and CUIL_APODERADO is not empty (C19).
    - Download: failure exactly at the first non-latin-1 code point
      (C15); the link's payload decodes to the content (C11); the
      download name stops at a quote of the file name (C22).
    - Session: invariants over reachable states by rule induction: the
      file name ends in [.hab] (C7), a link shown is the link of the
      current file and date (C6); progress: a click on a good sheet
      shows the link (C8); a change without a click resets (C16); an
      encoding error is reported as a read error (C17); the summary's
      excluded count is the total minus the kept rows (C23), and its
      processed count falls short of total minus excluded by the
      CUOTA=3 rows among the first rows (C21).
    - Rerun: after any run, reruns without a click leave the state
      unchanged, so the page reaches a fixed point after one rerun (C9).

    ** Bounds and fuel

    No definition uses fuel: every loop of the code is a structural
    recursion on a list (the layout table, the result index, the rows,
    the bytes in groups of three).  The reruns of the page are counted
    by an explicit [n] in [Rerun.reejecutar]; the theorem holds for
    every [n].  Integers are unbounded in Python;
    code points are [N] and bytes [Byte.byte], with the 256 bound of
    latin-1 explicit.

    ** Not modelled

    [pd.read_excel] (a library reading a binary file) is a parameter of
    the page model, and its result is represented by [frame_of_rows];
    the page's rendering calls (page configuration, CSS, titles,
    previews, expander, footer: lines 9-33, 62-63, 276-279) only
    display and change no state; the sidebar's column list and its
    sentences on CUOTA, IMPORTE and latin-1 (lines 45-53, 57-59)
    restate what the code's own definitions carry; dtypes and the pandas features
    the code does not reach are left out.

    Nothing here is assumed: no axioms, every definition computes, and
    concrete runs are checked by [vm_compute]. *)

From Stdlib Require Import List NArith ZArith Lia Zify.
From stdpp Require Import base list decidable strings.
Import ListNotations.

(** ** Python exceptions raised by the modelled code *)

(** Only the exceptions the modelled lines can raise are listed:
    [KeyError] for a missing DataFrame column, [ValueError] for a
    column assignment whose length differs from the index, [IndexError]
    for [iloc] out of range, and [UnicodeEncodeError] for
    [str.encode('latin-1')] on a code point above 255 (with its
    position), and [TypeError] for [len(None)] on a session field that
    is still [None]. *)
Inductive pyerr :=
| KeyError (col : string)
| ValueError
| IndexError (pos : nat)
| UnicodeEncodeError (pos : nat)
| TypeError.

(** A computation that returns a value or raises. *)
Inductive res (A : Type) : Type :=
| Ok (a : A)
| Err (e : pyerr).
Arguments Ok {A} a.
Arguments Err {A} e.

Definition res_bind {A B} (m : res A) (k : A -> res B) : res B :=
  match m with
  | Ok a => k a
  | Err e => Err e
  end.

Declare Scope py_scope.
Delimit Scope py_scope with py.
Notation "'let*' x := m 'in' k" := (res_bind m (fun x => k))
  (at level 100, x ident, m at next level, k at level 100) : py_scope.
Open Scope py_scope.

Definition is_ok {A} (m : res A) : bool :=
  match m with Ok _ => true | Err _ => false end.

(** ** Boolean indexing: [xs[mask]] keeps the positions whose mask is true *)

Fixpoint mask_filter {A} (m : list bool) (xs : list A) : list A :=
  match m, xs with
  | b :: m', x :: xs' => if b then x :: mask_filter m' xs' else mask_filter m' xs'
  | _, _ => []
  end.

(** ** Lemmas on results and masks *)

Lemma res_bind_ok {A B} (a : A) (k : A -> res B) : res_bind (Ok a) k = k a.
Proof. reflexivity. Qed.

Lemma res_bind_err {A B} (e : pyerr) (k : A -> res B) : res_bind (Err e) k = Err e.
Proof. reflexivity. Qed.

Lemma res_bind_Ok_inv {A B} (m : res A) (k : A -> res B) (b : B) :
  res_bind m k = Ok b -> exists a, m = Ok a /\ k a = Ok b.
Proof. destruct m; simpl; [eauto | discriminate]. Qed.

Lemma mask_filter_length_le {A} (m : list bool) (xs : list A) :
  length (mask_filter m xs) <= length xs.
Proof.
  revert xs; induction m as [|b m IH]; intros [|x xs]; simpl; try lia.
  destruct b; simpl; specialize (IH xs); lia.
Qed.

(** Two lists filtered by the same mask keep equal lengths. *)
Lemma mask_filter_length_eq {A B} (m : list bool) (xs : list A) (ys : list B) :
  length xs = length ys -> length (mask_filter m xs) = length (mask_filter m ys).
Proof.
  revert xs ys; induction m as [|b m IH]; intros [|x xs] [|y ys] H; simpl in *;
    try lia; destruct b; simpl; rewrite (IH xs ys); lia.
Qed.

Lemma mask_filter_map {A B} (f : A -> B) (m : list bool) (xs : list A) :
  mask_filter m (map f xs) = map f (mask_filter m xs).
Proof.
  revert xs; induction m as [|b m IH]; intros [|x xs]; simpl; auto.
  destruct b; simpl; rewrite IH; reflexivity.
Qed.

Lemma mask_filter_all_true {A} (xs : list A) (m : list bool) :
  length m = length xs -> Forall (fun b => b = true) m -> mask_filter m xs = xs.
Proof.
  revert m; induction xs as [|x xs IH]; intros [|b m] Hl Hf; simpl in *; try lia; auto.
  inversion Hf; subst. rewrite IH; auto.
Qed.

(** A mask computed from the list itself is a [filter]. *)
Lemma mask_filter_self {A} (p : A -> bool) (xs : list A) :
  mask_filter (map p xs) xs = List.filter p xs.
Proof. induction xs as [|x xs IH]; simpl; auto. destruct (p x); simpl; congruence. Qed.

Lemma mask_filter_app {A} (m1 m2 : list bool) (xs1 xs2 : list A) :
  length m1 = length xs1 -> mask_filter (m1 ++ m2) (xs1 ++ xs2) = mask_filter m1 xs1 ++ mask_filter m2 xs2.
Proof.
  revert xs1; induction m1 as [|b m1 IH]; intros [|x xs1] Hl; simpl in *; try lia; auto.
  destruct b; simpl; rewrite IH; auto.
Qed.

Lemma mask_filter_all_false {A} (m : list bool) (xs : list A) :
  Forall (fun b => b = false) m -> mask_filter m xs = [].
Proof.
  intros Hf. revert xs. induction Hf as [|b m Hb Hf IH]; intros [|x xs]; simpl; auto. by subst.
Qed.

Lemma filter_all {A} (f : A -> bool) (l : list A) :
  (forall x, In x l -> f x = true) -> List.filter f l = l.
Proof. induction l as [|x l IH]; simpl; intros H; auto. rewrite H by auto. f_equal. auto. Qed.

Lemma filter_none {A} (f : A -> bool) (l : list A) :
  (forall x, In x l -> f x = false) -> List.filter f l = [].
Proof. induction l as [|x l IH]; simpl; intros H; auto. rewrite H by auto. auto. Qed.

(** ** Lists read by position *)

Lemma nth_map_lt {A B} (f : A -> B) (l : list A) p (da : A) (db : B) :
  p < length l -> nth p (map f l) db = f (nth p l da).
Proof. revert p; induction l as [|x l IH]; intros [|p] Hp; simpl in *; try lia; auto with arith. Qed.

Lemma map_nth_seq_length {A B} (f : A -> B) (l : list A) (d : A) :
  map (fun p => f (nth p l d)) (seq 0 (length l)) = map f l.
Proof.
  induction l as [|x l IH]; simpl; auto. f_equal.
  rewrite <- seq_shift, map_map. exact IH.
Qed.

(** ** Automation *)

Create HintDb deposito.
Create Rewrite HintDb deposito_rw.
#[export] Hint Rewrite @res_bind_ok @res_bind_err @mask_filter_map : deposito_rw.
#[export] Hint Resolve mask_filter_length_le mask_filter_length_eq : deposito.

(** Split every [res_bind] of a hypothesis [res_bind m k = Ok b]. *)
Ltac inv_bind :=
  repeat match goal with
  | H : res_bind ?m ?k = Ok _ |- _ =>
      let a := fresh "a" in let Ha := fresh "Ha" in let Hk := fresh "Hk" in
      apply res_bind_Ok_inv in H; destruct H as (a & Ha & Hk)
  end.

(** Linear arithmetic on [N] with division and remainder by constants
    (the byte and sextet arithmetic of the encoders). *)
Ltac lia_divmod := zify; Z.to_euclidean_division_equations; lia.
