(* ===== verification/PyStr.v ===== *)
(** * Python strings as the code uses them

    A Python [str] is a sequence of Unicode code points; it is modelled
    as [pystr := list N].  This file holds the string methods that
    [src/app.py] calls: [str.zfill] (lines 106, 109, 130), [str.strip]
    through [str.isspace] (line 126), [sep.join] (lines 141, 144), the
    conversion [str(x)] / [astype(str)] of a DataFrame cell, where a
    missing cell (NaN) prints as ["nan"] (lines 95, 109, 120, 141), and
    the truthiness test [if s] of a string (line 126). *)

From Stdlib Require Import List NArith Lia Ascii String.
From stdpp Require Import base list strings.
From S2P Require Import Prelude.
Import ListNotations.

Definition pystr := list N.

(** A Python string literal made of ASCII characters. *)
Definition lit (s : string) : pystr := map N_of_ascii (list_ascii_of_string s).
Arguments lit s%_string.

Definition ch_zero : N := 48.
Definition ch_plus : N := 43.
Definition ch_minus : N := 45.

(** A DataFrame cell as the code sees it: a string, or NaN ([None]).
    The Excel reader is called with [converters=str] (line 201), so
    every present value is a string; an empty cell is NaN. *)
Definition cell := option pystr.

(** [str(x)] of a cell: NaN prints as ["nan"]. *)
Definition py_str (c : cell) : pystr :=
  match c with
  | Some s => s
  | None => lit "nan"
  end.

(** Truthiness of a string: [if s] is false exactly for [""]. *)
Definition truthy (s : pystr) : bool :=
  match s with [] => false | _ => true end.

(** ** [str.zfill(width)]

    CPython ([unicode_zfill]): if [len(s) >= width] the string is
    returned unchanged; otherwise it is padded on the left with
    [width - len(s)] zeros, and a leading ['+'] or ['-'] is moved in
    front of the zeros. *)
Definition is_sign (c : N) : bool := (c =? ch_plus)%N || (c =? ch_minus)%N.

Definition zfill (s : pystr) (width : nat) : pystr :=
  if width <=? length s then s
  else
    let fill := width - length s in
    match s with
    | c :: rest =>
        if is_sign c then c :: replicate fill ch_zero ++ rest
        else replicate fill ch_zero ++ s
    | [] => replicate fill ch_zero
    end.

(** ** [str.isspace] on one code point and [str.strip()]

    The code points for which CPython's [str.isspace] holds:
    [\t \n \x0b \x0c \r], [\x1c]-[\x1f], space, [\x85], [\xa0],
    U+1680, U+2000-U+200A, U+2028, U+2029, U+202F, U+205F, U+3000. *)
Definition py_isspace (c : N) : bool :=
  ((9 <=? c) && (c <=? 13))%N || ((28 <=? c) && (c <=? 32))%N
  || (c =? 133)%N || (c =? 160)%N || (c =? 5760)%N
  || ((8192 <=? c) && (c <=? 8202))%N || (c =? 8232)%N || (c =? 8233)%N
  || (c =? 8239)%N || (c =? 8287)%N || (c =? 12288)%N.

Fixpoint lstrip (s : pystr) : pystr :=
  match s with
  | c :: rest => if py_isspace c then lstrip rest else s
  | [] => []
  end.

Definition rstrip (s : pystr) : pystr := rev (lstrip (rev s)).

Definition strip (s : pystr) : pystr := rstrip (lstrip s).

(** ** [sep.join(xs)] *)
Fixpoint join (sep : pystr) (xs : list pystr) : pystr :=
  match xs with
  | [] => []
  | [x] => x
  | x :: rest => x ++ sep ++ join sep rest
  end.

Definition crlf : pystr := [13%N; 10%N].

(** ** Lemmas *)

Lemma lit_length (s : string) : length (lit s) = String.length s.
Proof.
  unfold lit. rewrite length_map.
  induction s as [|a s IH]; simpl; congruence.
Qed.

Lemma lstrip_nil_iff (s : pystr) : lstrip s = [] <-> Forall (fun c => py_isspace c = true) s.
Proof.
  induction s as [|c s IH]; simpl; split; intros H; auto.
  - destruct (py_isspace c) eqn:E; [constructor; auto; apply IH; auto | discriminate].
  - inversion H; subst. match goal with Hc : py_isspace c = true |- _ => rewrite Hc end.
    apply IH; auto.
Qed.

Lemma strip_nil_iff (s : pystr) : strip s = [] <-> lstrip s = [].
Proof.
  unfold strip, rstrip. split; intros H.
  - destruct (lstrip s) as [|c s'] eqn:E; auto.
    exfalso. apply (f_equal (@length N)) in H. rewrite length_rev in H.
    assert (Hs : lstrip (rev (c :: s')) = [] -> False).
    { intros H0. apply lstrip_nil_iff in H0. apply Forall_rev in H0.
      rewrite rev_involutive in H0. inversion H0; subst.
      clear -E H3. revert E H3. induction s as [|d s IHs]; simpl; [discriminate|].
      destruct (py_isspace d) eqn:Ed; auto. intros [= -> ->] Hc. congruence. }
    apply Hs. destruct (lstrip (rev (c :: s'))); [reflexivity | simpl in H; lia].
  - rewrite H. reflexivity.
Qed.

#[export] Hint Rewrite lit_length @length_replicate @length_app : deposito_rw.

(** ** [str.zfill] *)

(** [s.zfill(w)] has exactly [max(w, len(s))] characters: it never
    truncates a value longer than its field. *)
Lemma zfill_length (s : pystr) (w : nat) : length (zfill s w) = Nat.max w (length s).
Proof.
  unfold zfill. destruct (Nat.leb_spec w (length s)); [lia|].
  destruct s as [|c rest]; simpl in *.
  - rewrite length_replicate. lia.
  - destruct (is_sign c); simpl; rewrite length_app, length_replicate; simpl; lia.
Qed.

Lemma zfill_unsigned (s : pystr) (w : nat) :
  (forall c, head s = Some c -> is_sign c = false) ->
  zfill s w = replicate (w - length s) ch_zero ++ s.
Proof.
  intros Hs. unfold zfill. destruct (Nat.leb_spec w (length s)).
  - replace (w - length s) with 0 by lia. done.
  - destruct s as [|c rest]; simpl; [by rewrite app_nil_r|]. by rewrite (Hs c).
Qed.

Lemma zfill_long (s : pystr) (w : nat) : w <= length s -> zfill s w = s.
Proof. intros H. unfold zfill. by destruct (Nat.leb_spec w (length s)); [|lia]. Qed.

Lemma zfill_idem (s : pystr) (w : nat) : zfill (zfill s w) w = zfill s w.
Proof. apply zfill_long. rewrite zfill_length. lia. Qed.

(** [if s and s.strip()]: false exactly for an empty or all-blank string. *)
Lemma truthy_strip (s : pystr) : truthy s && truthy (strip s) = negb (forallb py_isspace s).
Proof.
  destruct s as [|c s']; [done|].
  change (truthy (c :: s')) with true. rewrite andb_true_l.
  destruct (forallb py_isspace (c :: s')) eqn:F.
  - assert (Hl : strip (c :: s') = []).
    { apply strip_nil_iff, lstrip_nil_iff, Forall_forall. intros x Hx%list_elem_of_In.
      by apply (proj1 (forallb_forall _ _) F). }
    by rewrite Hl.
  - destruct (strip (c :: s')) eqn:E; [|done].
    apply strip_nil_iff, lstrip_nil_iff in E.
    assert (forallb py_isspace (c :: s') = true).
    { apply forallb_forall. intros x Hx. apply (proj1 (Forall_forall _ _) E). by apply list_elem_of_In. }
    congruence.
Qed.
