(* ===== verification/Frame.v ===== *)
(** * The subset of pandas that [procesar_archivo] calls

    A DataFrame is modelled column by column, as pandas stores it: an
    index of row labels ([findex]) and an ordered list of named columns
    ([fcols]), each a list of cells aligned with the index.  The labels
    matter: [procesar_archivo] filters a frame (the surviving rows keep
    their original labels, line 91) and then assigns its columns into a
    fresh frame, which aligns them by label (line 109), while its CUIL
    loop reads rows by position with [iloc] (line 116).

    Operations and the pandas calls they model:
    - [getitem df c]              [df[c]] (KeyError when [c] is absent)
    - [has_column df c]           [c in df.columns]
    - [take_rows m df]            [df[mask]] (boolean indexing)
    - [setitem_list df c vs]      [df[c] = list] (ValueError on a length
                                  mismatch; an empty frame adopts a
                                  RangeIndex first, [_ensure_valid_index])
    - [setitem_series df c s]     [df[c] = series] (reindexed by label:
                                  a label absent from [s] gives NaN)
    - [series_map f s]            [s.apply(f)], [s.astype(str) + '00']
    - [iloc df i]                 [df.iloc[i]] (IndexError out of range)
    - [row_get r c d]             [row.get(c, d)]
    - [at_set df l c v]           [df.at[l, c] = v]
    - [iterrows df]               [df.iterrows()] *)

From Stdlib Require Import List NArith Lia String.
From stdpp Require Import base list strings decidable.
From S2P Require Import Prelude PyStr.
Import ListNotations.

Record frame := mkFrame {
  findex : list nat;
  fcols : list (string * list cell)
}.

(** A Series: labelled cells. *)
Definition series := list (nat * cell).

(** A row as [iloc] and [iterrows] return it: column name to cell. *)
Definition row := list (string * cell).

(** [pd.DataFrame()] *)
Definition empty_frame : frame := mkFrame [] [].

(** [len(df)] *)
Definition nrows (df : frame) : nat := length (findex df).

Fixpoint col_lookup (cs : list (string * list cell)) (c : string) : option (list cell) :=
  match cs with
  | [] => None
  | (c', v) :: cs' => if String.eqb c c' then Some v else col_lookup cs' c
  end.

(** [c in df.columns] *)
Definition has_column (df : frame) (c : string) : bool :=
  match col_lookup (fcols df) c with Some _ => true | None => false end.

(** [df[c]] *)
Definition getitem (df : frame) (c : string) : res series :=
  match col_lookup (fcols df) c with
  | Some v => Ok (combine (findex df) v)
  | None => Err (KeyError c)
  end.

(** [s.apply(f)]: the labels are kept. *)
Definition series_map (f : cell -> cell) (s : series) : series :=
  map (fun '(l, v) => (l, f v)) s.

(** A boolean mask computed cell by cell, e.g. [s != '3'], [s.notna()]. *)
Definition series_mask (p : cell -> bool) (s : series) : list bool :=
  map (fun '(_, v) => p v) s.

(** [s.notna()] cell by cell. *)
Definition notna (c : cell) : bool := match c with Some _ => true | None => false end.

(** [df[mask]]: rows whose mask is true, labels kept. *)
Definition take_rows (m : list bool) (df : frame) : frame :=
  mkFrame (mask_filter m (findex df)) (map (fun '(c, v) => (c, mask_filter m v)) (fcols df)).

(** Replace the column named [c] in place, or append it at the end. *)
Fixpoint set_column (cs : list (string * list cell)) (c : string) (v : list cell)
  : list (string * list cell) :=
  match cs with
  | [] => [(c, v)]
  | (c', v') :: cs' => if String.eqb c c' then (c', v) :: cs' else (c', v') :: set_column cs' c v
  end.

(** [_ensure_valid_index]: a frame with an empty index that receives a
    non-empty value takes the value's index, its existing columns
    reindexed to NaN. *)
Definition ensure_index (df : frame) (labels : list nat) : frame :=
  match findex df, labels with
  | [], _ :: _ => mkFrame labels (map (fun '(c, _) => (c, replicate (length labels) None)) (fcols df))
  | _, _ => df
  end.

(** [df[c] = vs] for a Python list [vs]. *)
Definition setitem_list (df : frame) (c : string) (vs : list cell) : res frame :=
  let df' := ensure_index df (seq 0 (length vs)) in
  if length vs =? nrows df' then Ok (mkFrame (findex df') (set_column (fcols df') c vs))
  else Err ValueError.

(** The cell of label [l] in a series, NaN when the label is absent. *)
Fixpoint label_lookup (s : series) (l : nat) : cell :=
  match s with
  | [] => None
  | (l', v) :: s' => if l =? l' then v else label_lookup s' l
  end.

(** [s.reindex(idx)] *)
Definition reindex (s : series) (idx : list nat) : list cell := map (label_lookup s) idx.

(** [df[c] = s] for a Series [s]: aligned on the labels of [df]. *)
Definition setitem_series (df : frame) (c : string) (s : series) : frame :=
  let df' := ensure_index df (map fst s) in
  mkFrame (findex df') (set_column (fcols df') c (reindex s (findex df'))).

(** The row at position [p]. *)
Definition row_at (df : frame) (p : nat) : row :=
  map (fun '(c, v) => (c, nth p v None)) (fcols df).

(** [df.iloc[i]] *)
Definition iloc (df : frame) (i : nat) : res row :=
  if i <? nrows df then Ok (row_at df i) else Err (IndexError i).

(** [row.get(c, d)] *)
Fixpoint row_get (r : row) (c : string) (d : cell) : cell :=
  match r with
  | [] => d
  | (c', v) :: r' => if String.eqb c c' then v else row_get r' c d
  end.

Fixpoint pos_of (l : nat) (idx : list nat) : option nat :=
  match idx with
  | [] => None
  | l' :: idx' => if l =? l' then Some 0 else option_map S (pos_of l idx')
  end.

(** [df.at[l, c] = v].  pandas enlarges the frame when [l] or [c] is
    absent; the code writes only labels it reads from the frame's own
    index, into a column it has checked, so that branch is not taken
    and the model leaves the frame unchanged there. *)
Definition at_set (df : frame) (l : nat) (c : string) (v : cell) : frame :=
  match pos_of l (findex df), col_lookup (fcols df) c with
  | Some p, Some col => mkFrame (findex df) (set_column (fcols df) c (<[p := v]> col))
  | _, _ => df
  end.

(** [df.iterrows()]: (label, row) in position order. *)
Definition iterrows (df : frame) : list (nat * row) :=
  map (fun p => (nth p (findex df) 0, row_at df p)) (seq 0 (nrows df)).

(** ** Well-formedness: every column is as long as the index *)
Definition frame_wf (df : frame) : Prop :=
  Forall (fun cv => length (snd cv) = nrows df) (fcols df).

(** The frame [pd.read_excel] returns (line 201): a RangeIndex over
    the sheet's rows and its columns in sheet order; a row shorter
    than the header reads as NaN. *)
Definition frame_of_rows (names : list string) (rows : list (list cell)) : frame :=
  mkFrame (seq 0 (length rows)) (imap (fun j c => (c, map (fun r => nth j r None) rows)) names).

(** ** Column lookup after the column operations *)

Lemma col_lookup_set_column_eq (cs : list (string * list cell)) c v :
  col_lookup (set_column cs c v) c = Some v.
Proof.
  induction cs as [|[c' v'] cs IH]; simpl; [by rewrite String.eqb_refl |].
  destruct (String.eqb_spec c c'); simpl.
  - subst. by rewrite String.eqb_refl.
  - by apply String.eqb_neq in n as ->.
Qed.

Lemma col_lookup_set_column_ne (cs : list (string * list cell)) c c' v :
  c' <> c -> col_lookup (set_column cs c v) c' = col_lookup cs c'.
Proof.
  intros Hne. induction cs as [|[d w] cs IH]; simpl.
  - by apply String.eqb_neq in Hne as ->.
  - destruct (String.eqb_spec c d); simpl.
    + subst. by apply String.eqb_neq in Hne as ->.
    + by rewrite IH.
Qed.

Lemma set_column_absent (cs : list (string * list cell)) c v :
  col_lookup cs c = None -> set_column cs c v = cs ++ [(c, v)].
Proof.
  induction cs as [|[d w] cs IH]; simpl; auto.
  destruct (String.eqb_spec c d); [discriminate|]. intros H. by rewrite IH.
Qed.

Lemma col_lookup_app_r (cs ds : list (string * list cell)) c :
  col_lookup cs c = None -> col_lookup (cs ++ ds) c = col_lookup ds c.
Proof.
  induction cs as [|[d w] cs IH]; simpl; auto.
  destruct (String.eqb c d); [discriminate | auto].
Qed.

Lemma col_lookup_app_l (cs ds : list (string * list cell)) c v :
  col_lookup cs c = Some v -> col_lookup (cs ++ ds) c = Some v.
Proof.
  induction cs as [|[d w] cs IH]; simpl; [discriminate|].
  destruct (String.eqb c d); auto.
Qed.

Lemma col_lookup_masked (cs : list (string * list cell)) (m : list bool) c :
  col_lookup (map (fun '(c, v) => (c, mask_filter m v)) cs) c
  = option_map (mask_filter m) (col_lookup cs c).
Proof.
  induction cs as [|[d w] cs IH]; simpl; auto. destruct (String.eqb c d); auto.
Qed.

Lemma set_column_masked (cs : list (string * list cell)) (m : list bool) c v :
  map (fun '(c, v) => (c, mask_filter m v)) (set_column cs c v)
  = set_column (map (fun '(c, v) => (c, mask_filter m v)) cs) c (mask_filter m v).
Proof.
  induction cs as [|[d w] cs IH]; simpl; auto. destruct (String.eqb c d); simpl; congruence.
Qed.

Lemma ensure_index_id (df : frame) labels :
  findex df <> [] \/ labels = [] -> ensure_index df labels = df.
Proof. destruct df as [[|l idx] cs], labels; simpl; intuition congruence. Qed.

(** ** Boolean indexing selects positions *)

Lemma mask_filter_seq_S (m : list bool) a n :
  mask_filter m (seq (S a) n) = map S (mask_filter m (seq a n)).
Proof.
  revert m a; induction n as [|n IH]; intros [|b m] a; simpl; auto.
  destruct b; simpl; rewrite IH; auto.
Qed.

(** [xs[mask]] is the list of [xs[i]] for the kept positions [i]. *)
Lemma mask_filter_positions {A} (m : list bool) (xs : list A) (d : A) :
  mask_filter m xs = map (fun i => nth i xs d) (mask_filter m (seq 0 (length xs))).
Proof.
  revert m; induction xs as [|x xs IH]; intros [|b m]; simpl; auto.
  rewrite mask_filter_seq_S. destruct b; simpl; rewrite map_map, IH; auto.
Qed.

Lemma nth_mask_filter {A} (m : list bool) (xs : list A) (d : A) p :
  p < length (mask_filter m (seq 0 (length xs))) ->
  nth p (mask_filter m xs) d = nth (nth p (mask_filter m (seq 0 (length xs))) 0) xs d.
Proof.
  intros Hp. rewrite (mask_filter_positions m xs d).
  exact (nth_map_lt (fun i => nth i xs d) _ p 0 d Hp).
Qed.

Lemma mask_filter_seq_bound (m : list bool) a n i :
  In i (mask_filter m (seq a n)) -> a <= i < a + n.
Proof.
  revert m a; induction n as [|n IH]; intros [|b m] a; simpl; try tauto.
  destruct b; simpl; [intros [<-|H]; [lia|]|intros H]; apply IH in H; lia.
Qed.

Lemma mask_filter_In {A} (m : list bool) (xs : list A) x :
  In x (mask_filter m xs) -> In x xs.
Proof.
  revert m; induction xs as [|y xs IH]; intros [|b m]; simpl; try tauto.
  destruct b; simpl; [intros [->|H]|intros H]; eauto.
Qed.

Lemma mask_filter_NoDup {A} (m : list bool) (xs : list A) :
  List.NoDup xs -> List.NoDup (mask_filter m xs).
Proof.
  revert m; induction xs as [|x xs IH]; intros [|b m] Hn; simpl; try constructor.
  apply NoDup_cons_iff in Hn as [Hx Hn].
  destruct b; [constructor|]; auto.
  intros Hin. apply Hx. eapply mask_filter_In; eauto.
Qed.

Lemma In_map_S_0 (K : list nat) : ~ In 0 (map S K).
Proof. rewrite in_map_iff. intros (x & H & _). discriminate. Qed.

Lemma In_map_S (K : list nat) i : In (S i) (map S K) <-> In i K.
Proof. rewrite in_map_iff. split; [intros (x & [= ->] & H) | intros H; exists i]; auto. Qed.

(** The labels kept by a mask over a RangeIndex. *)
Lemma mask_filter_seq_In (m : list bool) n i :
  In i (mask_filter m (seq 0 n)) <-> i < n /\ nth i m false = true.
Proof.
  revert m i; induction n as [|n IH]; intros [|b m] i; simpl.
  - split; [tauto|lia].
  - split; [tauto|lia].
  - split; [tauto|]. intros [_ H]. by destruct i.
  - rewrite mask_filter_seq_S. destruct i as [|i].
    + pose proof (In_map_S_0 (mask_filter m (seq 0 n))).
      destruct b; simpl; split; try tauto; [intros _; split; [lia|done] | intros [_ ?]; discriminate].
    + rewrite <- Nat.succ_lt_mono, <- IH, <- (In_map_S (mask_filter m (seq 0 n)) i).
      destruct b; simpl; [|tauto]. split; [intros [H|H]; [discriminate|auto] | auto].
Qed.

(** ** Index alignment of a column assignment *)

Lemma label_lookup_series_map (f : cell -> cell) (s : series) l :
  label_lookup (series_map f s) l =
  if existsb (Nat.eqb l) (map fst s) then f (label_lookup s l) else None.
Proof.
  induction s as [|[l' v] s IH]; simpl; auto. by destruct (l =? l').
Qed.

Lemma label_lookup_shift (K : list nat) (M : list cell) l :
  label_lookup (combine (map S K) M) (S l) = label_lookup (combine K M) l
  /\ label_lookup (combine (map S K) M) 0 = None.
Proof.
  revert M; induction K as [|k K IH]; intros [|x M]; simpl; auto.
  destruct (IH M) as [IH1 IH2]. by rewrite IH1, IH2.
Qed.


(** The cell that label [l] finds in a column of a filtered RangeIndex
    frame: the original cell when row [l] survived, NaN otherwise. *)
Lemma label_lookup_masked (m : list bool) n (v : list cell) l :
  length v = n ->
  label_lookup (combine (mask_filter m (seq 0 n)) (mask_filter m v)) l =
  if (l <? n) && nth l m false then nth l v None else None.
Proof.
  revert m v l; induction n as [|n IH]; intros [|b m] [|x v] l Hl; simpl in *; try lia;
    try reflexivity; try (by destruct (l <? _), l).
  rewrite mask_filter_seq_S.
  destruct l as [|l]; destruct b; simpl; try reflexivity;
    try (by apply label_lookup_shift);
    rewrite (proj1 (label_lookup_shift _ _ _)); apply IH; lia.
Qed.


(** ** Rows of a filtered frame *)

Lemma row_at_take_rows (m : list bool) (df : frame) p :
  frame_wf df -> findex df = seq 0 (nrows df) ->
  p < nrows (take_rows m df) ->
  row_at (take_rows m df) p = row_at df (nth p (findex (take_rows m df)) 0).
Proof.
  intros Hwf Hidx Hp. unfold row_at, nrows in *; simpl in *. rewrite Hidx in *.
  induction Hwf as [|[c v] cs Hv Hcs IH]; simpl; auto. f_equal; auto. f_equal.
  simpl in Hv. unfold nrows in Hv. rewrite <- Hv in Hp |- *. by apply nth_mask_filter.
Qed.

(** [df[mask]] keeps exactly the rows whose mask is true, in order. *)
Lemma rows_take_rows (m : list bool) (df : frame) :
  frame_wf df -> findex df = seq 0 (nrows df) ->
  map (row_at (take_rows m df)) (seq 0 (nrows (take_rows m df)))
  = mask_filter m (map (row_at df) (seq 0 (nrows df))).
Proof.
  intros Hwf Hidx. rewrite mask_filter_map.
  rewrite <- (map_nth_seq_length (row_at df) (mask_filter m (seq 0 (nrows df))) 0).
  assert (Hn : nrows (take_rows m df) = length (mask_filter m (seq 0 (nrows df))))
    by (unfold nrows at 1; simpl; by rewrite Hidx at 1).
  rewrite Hn. apply map_ext_in. intros p Hp%in_seq.
  rewrite row_at_take_rows; auto; [|lia]. simpl. by rewrite Hidx at 1.
Qed.

Lemma take_rows_wf (m : list bool) (df : frame) : frame_wf df -> frame_wf (take_rows m df).
Proof.
  unfold frame_wf, nrows; simpl. intros Hwf.
  induction Hwf as [|[c v] cs Hv Hcs IH]; simpl; constructor; auto.
  simpl in *. by apply mask_filter_length_eq.
Qed.

Lemma contenido_rows (f : row -> list N) (df : frame) :
  map (fun '(_, r) => f r) (iterrows df) = map (fun p => f (row_at df p)) (seq 0 (nrows df)).
Proof. unfold iterrows. by rewrite map_map. Qed.

(** ** Writing one cell with [at] on a RangeIndex frame *)

Lemma pos_of_seq a k i :
  pos_of i (seq a k) = if (a <=? i) && (i <? a + k) then Some (i - a) else None.
Proof.
  revert a; induction k as [|k IH]; intros a; simpl.
  - by destruct (Nat.leb_spec a i), (Nat.ltb_spec i (a + 0)); try lia.
  - rewrite IH. destruct (Nat.eqb_spec i a) as [->|Hne].
    + rewrite Nat.leb_refl, Nat.sub_diag. destruct (Nat.ltb_spec a (a + S k)); [done|lia].
    + destruct (Nat.leb_spec (S a) i), (Nat.leb_spec a i); try lia; simpl; [|done].
      destruct (Nat.ltb_spec i (S (a + k))), (Nat.ltb_spec i (a + S k)); simpl; try lia; auto.
      f_equal. lia.
Qed.

Lemma at_set_seq k cs i c col v :
  i < k -> col_lookup cs c = Some col ->
  at_set (mkFrame (seq 0 k) cs) i c v = mkFrame (seq 0 k) (set_column cs c (<[i := v]> col)).
Proof.
  intros Hi Hc. unfold at_set; simpl. rewrite pos_of_seq, Hc.
  destruct (Nat.ltb_spec i (0 + k)); [|lia]. by rewrite Nat.sub_0_r.
Qed.

Lemma set_column_set_column (cs : list (string * list cell)) c v w :
  set_column (set_column cs c v) c w = set_column cs c w.
Proof.
  induction cs as [|[d u] cs IH]; simpl; [by rewrite String.eqb_refl|].
  destruct (String.eqb_spec c d); simpl; [subst; by rewrite String.eqb_refl|].
  apply String.eqb_neq in n as ->. by rewrite IH.
Qed.

(** Writing cells [a], [a+1], ... in turn, as a loop does. *)
Lemma lookup_foldl_insert_seq (g : nat -> cell) (col : list cell) a n j :
  foldl (fun acc i => <[i := g i]> acc) col (seq a n) !! j
  = if (a <=? j) && (j <? a + n) && (j <? length col) then Some (g j) else col !! j.
Proof.
  revert a col; induction n as [|n IH]; intros a col; simpl.
  - by destruct (Nat.leb_spec a j), (Nat.ltb_spec j (a + 0)); try lia.
  - rewrite IH, length_insert, list_lookup_insert.
    destruct (Nat.eqb_spec j a) as [->|Hne].
    + rewrite Nat.leb_refl. destruct (Nat.leb_spec (S a) a); [lia|]. simpl.
      destruct (Nat.ltb_spec a (a + S n)); [|lia].
      destruct (Nat.ltb_spec a (length col)); simpl; case_decide; done || lia.
    + rewrite decide_False by lia.
      destruct (Nat.leb_spec (S a) j), (Nat.leb_spec a j); try lia; simpl; auto.
      by destruct (Nat.ltb_spec j (S (a + n))), (Nat.ltb_spec j (a + S n)); try lia.
Qed.

(** A loop that writes every position of a column with [g]. *)
Lemma foldl_insert_all (g : nat -> cell) (col : list cell) :
  foldl (fun acc i => <[i := g i]> acc) col (seq 0 (length col)) = map g (seq 0 (length col)).
Proof.
  apply list_eq. intros j. rewrite lookup_foldl_insert_seq, list_lookup_fmap. simpl.
  destruct (Nat.ltb_spec j (length col)) as [Hj|Hj]; simpl.
  - by rewrite lookup_seq_lt by done.
  - rewrite lookup_seq_ge by lia. by apply lookup_ge_None.
Qed.

(** ** A column assigned from a filtered frame onto itself *)

Lemma map_fst_combine {A B} (xs : list A) (ys : list B) :
  length xs = length ys -> map fst (combine xs ys) = xs.
Proof. revert ys; induction xs as [|x xs IH]; intros [|y ys] H; simpl in *; f_equal; auto; lia. Qed.

Lemma reindex_self (f : cell -> cell) (K : list nat) (M : list cell) :
  List.NoDup K -> length K = length M ->
  reindex (series_map f (combine K M)) K = map f M.
Proof.
  unfold reindex. revert M; induction K as [|k K IH]; intros [|x M] Hn Hl; simpl in *; try lia; auto.
  apply List.NoDup_cons_iff in Hn as [Hk Hn].
  rewrite Nat.eqb_refl. f_equal. rewrite <- IH by (auto; lia).
  apply map_ext_in. intros k' Hk'. destruct (Nat.eqb_spec k' k); [subst; contradiction | done].
Qed.

Lemma map_fst_series_map (f : cell -> cell) (s : series) :
  map fst (series_map f s) = map fst s.
Proof. unfold series_map. rewrite map_map. apply map_ext. by intros []. Qed.

Lemma ensure_index_self (df : frame) : ensure_index df (findex df) = df.
Proof. apply ensure_index_id. destruct (findex df); [right|left]; congruence. Qed.

(** [lote[c] = f(lote[c])] on a filtered frame is the filter of the
    frame whose column [c] was mapped. *)
Lemma setitem_series_take_rows (m : list bool) (df : frame) c v (f : cell -> cell) :
  List.NoDup (findex df) -> length v = nrows df -> col_lookup (fcols df) c = Some v ->
  setitem_series (take_rows m df) c
    (series_map f (combine (findex (take_rows m df)) (mask_filter m v)))
  = take_rows m (mkFrame (findex df) (set_column (fcols df) c (map f v))).
Proof.
  intros Hnd Hl Hc. unfold setitem_series.
  assert (HK : length (findex (take_rows m df)) = length (mask_filter m v))
    by (simpl; symmetry; by apply mask_filter_length_eq).
  rewrite map_fst_series_map, map_fst_combine, ensure_index_self by done.
  rewrite reindex_self by (simpl; auto using mask_filter_NoDup).
  unfold take_rows; simpl. by rewrite set_column_masked, mask_filter_map.
Qed.

Lemma row_get_row_at (df : frame) p c d :
  row_get (row_at df p) c d =
  match col_lookup (fcols df) c with Some v => nth p v None | None => d end.
Proof.
  unfold row_at. induction (fcols df) as [|[c' v] cs IH]; simpl; auto.
  by destruct (String.eqb c c').
Qed.

(** Reading the resolved column by position on a RangeIndex. *)
Lemma nth_reindex_seq (s : series) k p :
  p < k -> nth p (reindex s (seq 0 k)) None = label_lookup s p.
Proof.
  intros Hp. unfold reindex. rewrite (nth_map_lt _ _ _ 0) by (rewrite length_seq; lia).
  by rewrite seq_nth.
Qed.

Lemma label_lookup_masked_map (f : cell -> cell) (m : list bool) n (v : list cell) l :
  length v = n ->
  label_lookup (series_map f (combine (mask_filter m (seq 0 n)) (mask_filter m v))) l =
  if (l <? n) && nth l m false then f (nth l v None) else None.
Proof.
  intros Hl. rewrite label_lookup_series_map, label_lookup_masked by done.
  rewrite map_fst_combine by (symmetry; apply mask_filter_length_eq; by rewrite length_seq).
  destruct (existsb (Nat.eqb l) (mask_filter m (seq 0 n))) eqn:E;
    destruct ((l <? n) && nth l m false) eqn:E'; auto; exfalso.
  - apply existsb_exists in E as (x & Hx & ->%Nat.eqb_eq).
    apply mask_filter_seq_In in Hx as [H1 H2].
    apply Nat.ltb_lt in H1. rewrite H1, H2 in E'. discriminate.
  - apply andb_true_iff in E' as [H1%Nat.ltb_lt H2].
    assert (Hx : In l (mask_filter m (seq 0 n))) by (apply mask_filter_seq_In; auto).
    assert (existsb (Nat.eqb l) (mask_filter m (seq 0 n)) = true)
      by (apply existsb_exists; exists l; split; auto; apply Nat.eqb_refl).
    congruence.
Qed.

Lemma wf_col_length (df : frame) c v :
  frame_wf df -> col_lookup (fcols df) c = Some v -> length v = nrows df.
Proof.
  unfold frame_wf. induction (fcols df) as [|[c' w] cs IH]; simpl; [discriminate|].
  intros Hwf. inversion Hwf; subst. destruct (String.eqb c c'); [intros [= <-]; done | auto].
Qed.

Lemma series_mask_combine (p : cell -> bool) (idx : list nat) (v : list cell) :
  length idx = length v -> series_mask p (combine idx v) = map p v.
Proof. revert v; induction idx as [|l idx IH]; intros [|x v] H; simpl in *; f_equal; auto; lia. Qed.

Lemma ensure_index_seq k cs (labels : list nat) :
  length labels = k -> ensure_index (mkFrame (seq 0 k) cs) labels = mkFrame (seq 0 k) cs.
Proof. intros <-. apply ensure_index_id. destruct labels; simpl; [right | left]; congruence. Qed.

Lemma ensure_index_empty k : ensure_index empty_frame (seq 0 k) = mkFrame (seq 0 k) [].
Proof. by destruct k. Qed.

Lemma nrows_mkFrame (idx : list nat) cs : nrows (mkFrame idx cs) = length idx.
Proof. reflexivity. Qed.

#[export] Hint Rewrite nrows_mkFrame length_seq : deposito_rw.

Lemma set_column_id (cs : list (string * list cell)) c v :
  col_lookup cs c = Some v -> set_column cs c v = cs.
Proof.
  induction cs as [|[d w] cs IH]; simpl; [discriminate|].
  destruct (String.eqb c d); [intros [= ->]; done | intros H; by rewrite IH].
Qed.

Lemma has_column_take_rows (m : list bool) (df : frame) c :
  has_column (take_rows m df) c = has_column df c.
Proof. unfold has_column; simpl. rewrite col_lookup_masked. by destruct (col_lookup _ c). Qed.

(** Replacing a column of a frame built field by field. *)
Lemma set_column_map {A} (name : A -> string) (g : A -> list cell) (xs : list A) c w :
  List.NoDup (map name xs) -> In c (map name xs) ->
  set_column (map (fun x => (name x, g x)) xs) c w
  = map (fun x => (name x, if String.eqb c (name x) then w else g x)) xs.
Proof.
  induction xs as [|x xs IH]; simpl; [tauto|]. intros Hnd Hin.
  apply List.NoDup_cons_iff in Hnd as [Hx Hnd].
  destruct (String.eqb_spec c (name x)) as [->|Hne].
  - f_equal. symmetry. apply map_ext_in. intros y Hy.
    destruct (String.eqb_spec (name x) (name y)) as [E|]; [|done].
    exfalso. apply Hx. rewrite E. by apply in_map.
  - f_equal. apply IH; auto. destruct Hin; [congruence | done].
Qed.

Lemma mask_filter_map_map {A B} (g : A -> bool) (F : A -> B) (xs : list A) :
  mask_filter (map g xs) (map F xs) = map F (List.filter g xs).
Proof. rewrite mask_filter_map. f_equal. apply mask_filter_self. Qed.

Lemma nth_replicate_lt {A} k (x d : A) p : p < k -> nth p (replicate k x) d = x.
Proof. revert p; induction k as [|k IH]; intros [|p] Hp; simpl; try lia; auto with lia. Qed.

Lemma set_column_wf (cs : list (string * list cell)) c v n :
  Forall (fun cv => length (snd cv) = n) cs -> length v = n ->
  Forall (fun cv => length (snd cv) = n) (set_column cs c v).
Proof.
  intros Hcs Hv. induction Hcs as [|[d w] cs Hw Hcs IH]; simpl; [by constructor|].
  destruct (String.eqb c d); constructor; auto.
Qed.

(** Any row-wise view of [df[mask]] is the mask of the same view of [df]. *)
Lemma map_rows_take_rows {B} (F : row -> B) (m : list bool) (df : frame) :
  frame_wf df -> findex df = seq 0 (nrows df) ->
  map (fun p => F (row_at (take_rows m df) p)) (seq 0 (nrows (take_rows m df)))
  = mask_filter m (map (fun p => F (row_at df p)) (seq 0 (nrows df))).
Proof.
  intros Hwf Hidx. rewrite <- (map_map (row_at _) F), rows_take_rows by done.
  by rewrite !mask_filter_map, map_map.
Qed.

Lemma row_at_map {A} (name : A -> string) (g : A -> list cell) (xs : list A) idx p :
  row_at (mkFrame idx (map (fun x => (name x, g x)) xs)) p = map (fun x => (name x, nth p (g x) None)) xs.
Proof. unfold row_at; simpl. rewrite map_map. by apply map_ext. Qed.

Lemma col_lookup_map {A} (name : A -> string) (g : A -> list cell) (xs : list A) x :
  List.NoDup (map name xs) -> In x xs -> col_lookup (map (fun y => (name y, g y)) xs) (name x) = Some (g x).
Proof.
  induction xs as [|y xs IH]; simpl; [tauto|]. intros Hnd [->|Hin]; [by rewrite String.eqb_refl|].
  apply List.NoDup_cons_iff in Hnd as [Hy Hnd].
  destruct (String.eqb_spec (name x) (name y)) as [E|]; [|auto].
  exfalso. apply Hy. rewrite <- E. by apply in_map.
Qed.

(** Filtering rows keeps the column names, in order. *)
Lemma map_fst_take_rows (m : list bool) (df : frame) :
  map fst (fcols (take_rows m df)) = map fst (fcols df).
Proof. simpl. rewrite map_map. apply map_ext. by intros [c v]. Qed.

(** Assigning an existing column keeps the column names, in order. *)
Lemma map_fst_set_column (cs : list (string * list cell)) c v :
  In c (map fst cs) -> map fst (set_column cs c v) = map fst cs.
Proof.
  induction cs as [|[d w] cs IH]; simpl; [tauto|]. intros Hin.
  destruct (String.eqb_spec c d) as [->|Hne]; simpl; [done|].
  rewrite IH; [done|]. destruct Hin as [->|Hin]; [congruence | exact Hin].
Qed.
