(* ===== verification/Schema.v ===== *)
(** * The output layout: [datos_formato_cliente]

    [procesar_archivo] builds, on each call, a table of twelve field
    descriptions (lines 68-81 of [src/app.py]) and turns it into a
    DataFrame (line 84) that it walks in order (line 100).  A field
    with a [default] is constant over the output rows; the FECHA
    field's default is the run's date.  The code pads with [Enteros]
    (line 103), not with [Total]; the two agree on every field
    ([enteros_total] below), so each field is [Total] characters wide
    when its value fits. *)

From Stdlib Require Import List NArith Lia String.
From stdpp Require Import base list strings.
From S2P Require Import Prelude PyStr.
Import ListNotations.

(** ['Tipo']: 'N' numeric or 'A' alphanumeric. *)
Inductive tipo_campo := TipoN | TipoA.

Record campo_formato := mkCampo {
  orden : nat;
  campo : string;
  enteros : nat;
  decimales : nat;
  total : nat;
  tipo : tipo_campo;
  default : option pystr
}.

Definition datos_formato_cliente (fecha_seleccionada : pystr) : list campo_formato := [
  mkCampo 1 "TIPO DE CONVENIO" 3 0 3 TipoN (Some (lit "013"));
  mkCampo 2 "SUCURSAL" 5 0 5 TipoN None;
  mkCampo 3 "MONEDA" 2 0 2 TipoN (Some (lit "01"));
  mkCampo 4 "SISTEMA" 1 0 1 TipoN (Some (lit "3"));
  mkCampo 5 "CUENTA" 9 0 9 TipoN None;
  mkCampo 6 "IMPORTE" 18 2 18 TipoN None;
  mkCampo 7 "FECHA" 8 0 8 TipoN (Some fecha_seleccionada);
  mkCampo 8 "NRO CONVENIO CON LA EMPRESA" 5 0 5 TipoN (Some (lit "01465"));
  mkCampo 9 "SOLICITUD" 6 0 6 TipoN None;
  mkCampo 10 "CBU" 22 0 22 TipoN None;
  mkCampo 11 "CUOTA" 2 0 2 TipoN (Some (lit "00"));
  mkCampo 12 "CUIL" 22 0 22 TipoA None
].

(** The column names in the order the result frame receives them. *)
Definition nombres_campos : list string :=
  map campo (datos_formato_cliente []).

(** The nominal line width: the sum of [Total]. *)
Definition ancho_linea : nat := sum_list_with total (datos_formato_cliente []).

(** The fields read from the uploaded sheet (those with no default);
    the code computes this list as [campos] (line 87) and never uses
    it. *)
Definition campos (fecha : pystr) : list string :=
  map campo (List.filter (fun f => match default f with None => true | Some _ => false end)
                         (datos_formato_cliente fecha)).

(** ** Facts of the table that the other files use *)

Lemma datos_formato_cliente_fields (fecha : pystr) :
  map (fun f => (orden f, campo f, enteros f, total f)) (datos_formato_cliente fecha)
  = map (fun f => (orden f, campo f, enteros f, total f)) (datos_formato_cliente []).
Proof. reflexivity. Qed.

Lemma enteros_total (fecha : pystr) :
  Forall (fun f => enteros f = total f) (datos_formato_cliente fecha).
Proof. repeat constructor. Qed.

Lemma ancho_linea_103 : ancho_linea = 103.
Proof. reflexivity. Qed.

Lemma nombres_NoDup (fecha : pystr) : List.NoDup (map campo (datos_formato_cliente fecha)).
Proof. simpl. repeat constructor; simpl; intuition discriminate. Qed.

Lemma datos_formato_cliente_cons (fecha : pystr) :
  datos_formato_cliente fecha
  = mkCampo 1 "TIPO DE CONVENIO" 3 0 3 TipoN (Some (lit "013")) :: tl (datos_formato_cliente fecha).
Proof. reflexivity. Qed.
