(* ===== verification/Procesar.v ===== *)
(** * [procesar_archivo]: from the uploaded frame to the [.hab] text

    [src/app.py], lines 66-146, stage by stage:
    - [filtrar_cuota]      line 90-91   [lote = lote[lote['CUOTA'] != '3']]
    - [sufijo_importe]     line 94-95   [lote['IMPORTE'] = ... + '00']
    - [resolver_campo(s)]  line 98-109  the loop over the layout table
    - [regla_cuil]         line 112-133 the CUIL prefix loop
    - [filtrar_solicitud]  line 136     [resultado[...notna()]]
    - [contenido_hab]      line 139-141 one line per result row
    - [serializar]         line 144     CRLF join plus a final CRLF
    and [procesar_archivo] composes them in the code's order. *)

From Stdlib Require Import List NArith Lia String.
From stdpp Require Import base list strings.
From S2P Require Import Prelude PyStr Frame Schema.
Import ListNotations.

(** [lote['CUOTA'] != '3'] on one cell: NaN differs from ['3']. *)
Definition cuota_distinta_de_3 (c : cell) : bool :=
  match c with
  | Some s => negb (bool_decide (s = lit "3"))
  | None => true
  end.

Definition filtrar_cuota (lote_df : frame) : res frame :=
  let* cuota := getitem lote_df "CUOTA" in
  Ok (take_rows (series_mask cuota_distinta_de_3 cuota) lote_df).

(** [lote['IMPORTE'].astype(str) + '00'] on one cell. *)
Definition importe_con_ceros (c : cell) : cell := Some (py_str c ++ lit "00").

Definition sufijo_importe (lote : frame) : res frame :=
  if has_column lote "IMPORTE" then
    let* s := getitem lote "IMPORTE" in
    Ok (setitem_series lote "IMPORTE" (series_map importe_con_ceros s))
  else Ok lote.

(** One iteration of the loop of lines 100-109. *)
Definition resolver_campo (lote resultado : frame) (f : campo_formato) : res frame :=
  match default f with
  | Some d =>
      setitem_list resultado (campo f) (replicate (nrows lote) (Some (zfill d (enteros f))))
  | None =>
      if has_column lote (campo f) then
        let* s := getitem lote (campo f) in
        Ok (setitem_series resultado (campo f)
              (series_map (fun x => Some (zfill (py_str x) (enteros f))) s))
      else Ok resultado
  end.

Fixpoint resolver_campos (lote resultado : frame) (fmt : list campo_formato) : res frame :=
  match fmt with
  | [] => Ok resultado
  | f :: fmt' =>
      let* resultado' := resolver_campo lote resultado f in
      resolver_campos lote resultado' fmt'
  end.

(** The prefix of line 123: ['2'] when CUIL_APODERADO is NaN, None or
    empty, ['1'] otherwise. *)
Definition prefijo (cuil_apoderado : cell) : pystr :=
  match cuil_apoderado with
  | None => lit "2"
  | Some s => if truthy s then lit "1" else lit "2"
  end.

(** Lines 126-133: the prefixed CUIL zero-filled to 22, or [''] when
    the original CUIL is empty or only whitespace. *)
Definition cuil_resuelto (cuil_original prefijo : pystr) : pystr :=
  if truthy cuil_original && truthy (strip cuil_original)
  then zfill (prefijo ++ cuil_original) 22
  else [].

(** One iteration of the loop of lines 114-133, for the result label
    [idx]: the source row is taken by POSITION [idx] in [lote]. *)
Definition regla_cuil_fila (lote resultado : frame) (idx : nat) : res frame :=
  let* lote_row := iloc lote idx in
  let cuil_apoderado := row_get lote_row "CUIL_APODERADO" None in
  let cuil_original := py_str (row_get lote_row "CUIL" (Some [])) in
  let p := prefijo cuil_apoderado in
  Ok (at_set resultado idx "CUIL" (Some (cuil_resuelto cuil_original p))).

Fixpoint regla_cuil_loop (lote resultado : frame) (idxs : list nat) : res frame :=
  match idxs with
  | [] => Ok resultado
  | idx :: idxs' =>
      let* resultado' := regla_cuil_fila lote resultado idx in
      regla_cuil_loop lote resultado' idxs'
  end.

Definition regla_cuil (lote resultado : frame) : res frame :=
  if has_column resultado "CUIL" then regla_cuil_loop lote resultado (findex resultado)
  else Ok resultado.

Definition filtrar_solicitud (resultado : frame) : res frame :=
  let* s := getitem resultado "SOLICITUD" in
  Ok (take_rows (series_mask notna s) resultado).

(** [''.join(row.astype(str).values)] *)
Definition linea (r : row) : pystr := concat (map (fun '(_, v) => py_str v) r).

Definition contenido_hab (resultado : frame) : list pystr :=
  map (fun '(_, r) => linea r) (iterrows resultado).

Definition serializar (lineas : list pystr) : pystr := join crlf lineas ++ crlf.

Definition procesar_archivo (lote_df : frame) (fecha_seleccionada : pystr)
  : res (frame * pystr) :=
  let fmt := datos_formato_cliente fecha_seleccionada in
  let* lote := filtrar_cuota lote_df in
  let* lote := sufijo_importe lote in
  let* resultado := resolver_campos lote empty_frame fmt in
  let* resultado := regla_cuil lote resultado in
  let* resultado := filtrar_solicitud resultado in
  Ok (resultado, serializar (contenido_hab resultado)).

(** ** The required columns (lines 208-209, checked before the call) *)

Definition columnas_requeridas : list string :=
  ["SUCURSAL"; "CUENTA"; "IMPORTE"; "SOLICITUD"; "CBU"; "CUOTA"; "CUIL"; "CUIL_APODERADO"].

Definition columnas_faltantes (df : frame) : list string :=
  List.filter (fun c => negb (has_column df c)) columnas_requeridas.

(** ** The input read by position, and the rows the CUOTA filter keeps *)

Definition celda (df : frame) (c : string) (p : nat) : cell :=
  match col_lookup (fcols df) c with Some v => nth p v None | None => None end.

Definition mascara_cuota (df : frame) : list bool :=
  map (fun p => cuota_distinta_de_3 (celda df "CUOTA" p)) (seq 0 (nrows df)).

(** The labels that survive line 91, in order. *)
Definition conservadas (df : frame) : list nat := mask_filter (mascara_cuota df) (seq 0 (nrows df)).

(** The frame of line 95: IMPORTE with ['00'] appended. *)
Definition con_importe (df : frame) : frame :=
  match col_lookup (fcols df) "IMPORTE" with
  | Some v => mkFrame (findex df) (set_column (fcols df) "IMPORTE" (map importe_con_ceros v))
  | None => df
  end.

(** The column that one iteration of lines 100-109 adds, on a result
    frame of [k] rows. *)
Definition columna_resuelta (lote : frame) (k : nat) (f : campo_formato) : list cell :=
  match default f with
  | Some d => replicate k (Some (zfill d (enteros f)))
  | None =>
      match getitem lote (campo f) with
      | Ok s => reindex (series_map (fun x => Some (zfill (py_str x) (enteros f))) s) (seq 0 k)
      | Err _ => []
      end
  end.

(** Whether the loop of lines 100-109 assigns the column of [f]: it
    has a default, or its column is in [lote] (line 108). *)
Definition presente (lote : frame) (f : campo_formato) : bool :=
  match default f with Some _ => true | None => has_column lote (campo f) end.

(** The value of the CUIL column that the loop of lines 114-133 writes
    at result label [i]: computed from the row at POSITION [i]. *)
Definition cuil_de (lote : frame) (i : nat) : cell :=
  let r := row_at lote i in
  Some (cuil_resuelto (py_str (row_get r "CUIL" (Some []))) (prefijo (row_get r "CUIL_APODERADO" None))).

(** ** What the code emits, read off the input frame

    [valor_campo df p q f] is the text of field [f] on a line whose
    data come from source row [p] and whose CUIL comes from source row
    [q]; [lineas_emitidas] lists the lines [procesar_archivo] writes:
    for each result label [p] below the number [k] of rows kept by the
    CUOTA filter, a line exists only if row [p] itself was kept (its
    label is found by the alignment of line 109), with the data of row
    [p] and the CUIL of the [p]-th kept row (line 116).  The intended
    output pairs each kept row with itself; the two agree exactly when
    the kept rows are a prefix of the input. *)
Definition valor_campo (df : frame) (p q : nat) (f : campo_formato) : pystr :=
  if String.eqb "CUIL" (campo f) then
    cuil_resuelto (py_str (celda df "CUIL" q)) (prefijo (celda df "CUIL_APODERADO" q))
  else
    match default f with
    | Some d => zfill d (enteros f)
    | None => zfill (py_str (celda (con_importe df) (campo f) p)) (enteros f)
    end.

Definition linea_hab (fecha : pystr) (df : frame) (p q : nat) : pystr :=
  concat (map (valor_campo df p q) (datos_formato_cliente fecha)).

Definition lineas_emitidas (df : frame) (fecha : pystr) : list pystr :=
  map (fun p => linea_hab fecha df p (nth p (conservadas df) 0))
      (List.filter (fun p => nth p (mascara_cuota df) false) (seq 0 (length (conservadas df)))).

(** The intermediate frames of a run on [df], as the stage lemmas
    below compute them: [lote_de] after lines 91-95, [resultado_de]
    after the CUIL loop, [mascara_solicitud] the mask of line 136. *)
Definition lote_de (df : frame) : frame := take_rows (mascara_cuota df) (con_importe df).

Definition campo_cuil : campo_formato := mkCampo 12 "CUIL" 22 0 22 TipoA None.
Definition campo_solicitud : campo_formato := mkCampo 9 "SOLICITUD" 6 0 6 TipoN None.

Definition resultado_de (df : frame) (fecha : pystr) : frame :=
  let k := length (conservadas df) in
  mkFrame (seq 0 k)
    (set_column (map (fun f => (campo f, columna_resuelta (lote_de df) k f)) (datos_formato_cliente fecha))
       "CUIL" (map (cuil_de (lote_de df)) (seq 0 k))).

Definition mascara_solicitud (df : frame) : list bool :=
  let k := length (conservadas df) in
  series_mask notna (combine (seq 0 k) (columna_resuelta (lote_de df) k campo_solicitud)).

(** ** An example sheet: three rows, the second with CUOTA = 3 *)

Definition fila_hoja (sucursal cuenta importe solicitud cbu cuota cuil cuil_apoderado : string)
  : list cell :=
  map (fun s => if String.eqb s "" then None else Some (lit s))
      [sucursal; cuenta; importe; solicitud; cbu; cuota; cuil; cuil_apoderado].

Definition hoja_ejemplo : frame :=
  frame_of_rows columnas_requeridas
    [fila_hoja "12" "345" "1500.50" "777" "0123" "1" "20123456789" "";
     fila_hoja "99" "888" "10" "555" "0456" "3" "27111111111" "20987654321";
     fila_hoja "77" "666" "20" "" "0789" "2" "23222222222" "20987654321"].

(** A sheet with CUOTA and no SOLICITUD column. *)
Definition hoja_sin_solicitud : frame := frame_of_rows ["CUOTA"] [[Some (lit "1")]].

(** ** Stage lemmas *)

Section Etapas.
Variable df : frame.
Hypothesis Hwf : frame_wf df.
Hypothesis Hidx : findex df = seq 0 (nrows df).

Lemma filtrar_cuota_ok v :
    col_lookup (fcols df) "CUOTA" = Some v ->
    filtrar_cuota df = Ok (take_rows (mascara_cuota df) df).
  Proof.
    intros Hc. unfold filtrar_cuota, getitem. rewrite Hc. simpl.
    pose proof (wf_col_length _ _ _ Hwf Hc) as Hl.
    rewrite series_mask_combine by (rewrite Hidx, length_seq; lia).
    unfold mascara_cuota, celda. rewrite Hc, <- Hl.
    by rewrite (map_nth_seq_length cuota_distinta_de_3 v None).
  Qed.

Lemma sufijo_importe_ok (m : list bool) v :
    col_lookup (fcols df) "IMPORTE" = Some v ->
    sufijo_importe (take_rows m df) = Ok (take_rows m (con_importe df)).
  Proof.
    intros Hc. unfold sufijo_importe, has_column, getitem, con_importe. simpl.
    rewrite col_lookup_masked, Hc. simpl. f_equal.
    apply (setitem_series_take_rows m df "IMPORTE" v importe_con_ceros).
    - rewrite Hidx. apply seq_NoDup.
    - eapply wf_col_length; eauto.
    - done.
  Qed.
End Etapas.



(** ** The loop over the layout table (lines 100-109) *)

Section Resolver.
Variable lote : frame.
Variable k : nat.
Hypothesis Hk : nrows lote = k.
Hypothesis Hwf : frame_wf lote.

Lemma resolver_campo_step (acc : list (string * list cell)) f :
    col_lookup acc (campo f) = None ->
    resolver_campo lote (mkFrame (seq 0 k) acc) f
    = Ok (mkFrame (seq 0 k)
            (acc ++ if presente lote f then [(campo f, columna_resuelta lote k f)] else [])).
  Proof.
    intros Hacc. unfold resolver_campo, columna_resuelta, presente.
    destruct (default f) as [d|] eqn:Hd.
    - unfold setitem_list. rewrite length_replicate, Hk, ensure_index_seq; [|apply length_seq].
      rewrite nrows_mkFrame, length_seq, Nat.eqb_refl. by rewrite set_column_absent.
    - unfold has_column, getitem in *.
      destruct (col_lookup (fcols lote) (campo f)) as [v|] eqn:Hc; [|by rewrite app_nil_r].
      simpl. unfold setitem_series. rewrite map_fst_series_map, map_fst_combine
        by (symmetry; exact (wf_col_length _ _ _ Hwf Hc)).
      rewrite ensure_index_seq by done. simpl. by rewrite set_column_absent.
  Qed.

  (** The loop adds, in order, the column of every field that has a
      default or whose column the input has; the others are skipped. *)
Lemma resolver_campos_spec (fmt : list campo_formato) (acc : list (string * list cell)) :
    Forall (fun f => col_lookup acc (campo f) = None) fmt ->
    List.NoDup (map campo fmt) ->
    resolver_campos lote (mkFrame (seq 0 k) acc) fmt
    = Ok (mkFrame (seq 0 k) (acc ++ map (fun f => (campo f, columna_resuelta lote k f))
                                     (List.filter (presente lote) fmt))).
  Proof.
    revert acc; induction fmt as [|f fmt IH]; intros acc Hacc Hnd; simpl.
    - by rewrite app_nil_r.
    - apply Forall_cons in Hacc as [Ha Hacc].
      apply List.NoDup_cons_iff in Hnd as [Hf Hnd].
      rewrite resolver_campo_step by done. simpl. rewrite IH; auto.
      + destruct (presente lote f); simpl; by rewrite <- app_assoc.
      + apply Forall_forall. intros g Hg. rewrite col_lookup_app_r.
        * destruct (presente lote f); [|done]. simpl.
          destruct (String.eqb_spec (campo g) (campo f)) as [E|]; [|done].
          exfalso. apply Hf. rewrite <- E. apply in_map. by apply list_elem_of_In.
        * by apply (proj1 (Forall_forall _ _) Hacc).
  Qed.

  (** From the empty [pd.DataFrame()]: the first field has a default,
      so its list assignment gives the frame a RangeIndex of [k]. *)
Lemma resolver_campos_empty (fmt : list campo_formato) f0 d :
    default f0 = Some d ->
    List.NoDup (map campo (f0 :: fmt)) ->
    resolver_campos lote empty_frame (f0 :: fmt)
    = Ok (mkFrame (seq 0 k) (map (fun f => (campo f, columna_resuelta lote k f))
                               (List.filter (presente lote) (f0 :: fmt)))).
  Proof.
    intros Hd Hnd.
    assert (E : resolver_campo lote empty_frame f0 = resolver_campo lote (mkFrame (seq 0 k) []) f0).
    { unfold resolver_campo, setitem_list. rewrite Hd, !length_replicate, Hk.
      rewrite ensure_index_empty, ensure_index_seq; [done | apply length_seq]. }
    change (resolver_campos lote empty_frame (f0 :: fmt))
      with (let* r := resolver_campo lote empty_frame f0 in resolver_campos lote r fmt).
    rewrite E. rewrite <- (app_nil_l (map _ (List.filter _ (f0 :: fmt)))).
    rewrite <- (resolver_campos_spec (f0 :: fmt) []); auto.
    by apply Forall_forall.
  Qed.

Lemma filtrar_presentes (fmt : list campo_formato) :
    Forall (fun f => default f = None -> has_column lote (campo f) = true) fmt ->
    List.filter (presente lote) fmt = fmt.
  Proof.
    intros Hall. apply filter_all. intros f Hf. unfold presente.
    destruct (default f) eqn:Hd; [done|].
    apply (proj1 (Forall_forall _ _) Hall); [by apply list_elem_of_In | done].
  Qed.
End Resolver.

(** ** The CUIL loop (lines 112-133) *)

Section Cuil.
Variable lote : frame.
Variable k : nat.
Hypothesis Hk : nrows lote = k.

Lemma regla_cuil_fila_ok (cs : list (string * list cell)) col i :
    i < k -> col_lookup cs "CUIL" = Some col ->
    regla_cuil_fila lote (mkFrame (seq 0 k) cs) i
    = Ok (mkFrame (seq 0 k) (set_column cs "CUIL" (<[i := cuil_de lote i]> col))).
  Proof.
    intros Hi Hc. unfold regla_cuil_fila, iloc. rewrite Hk.
    destruct (Nat.ltb_spec i k); [|lia]. simpl. by rewrite (at_set_seq k cs i "CUIL" col).
  Qed.

Lemma regla_cuil_loop_spec (idxs : list nat) (cs : list (string * list cell)) col :
    Forall (fun i => i < k) idxs -> col_lookup cs "CUIL" = Some col ->
    regla_cuil_loop lote (mkFrame (seq 0 k) cs) idxs
    = Ok (mkFrame (seq 0 k)
            (set_column cs "CUIL" (foldl (fun acc i => <[i := cuil_de lote i]> acc) col idxs))).
  Proof.
    revert cs col; induction idxs as [|i idxs IH]; intros cs col Hi Hc; simpl.
    - by rewrite set_column_id.
    - apply Forall_cons in Hi as [Hi Hidxs]. rewrite (regla_cuil_fila_ok cs col i) by done. simpl.
      rewrite (IH _ (<[i := cuil_de lote i]> col)); auto using col_lookup_set_column_eq.
      by rewrite set_column_set_column.
  Qed.

(** The CUIL loop of lines 114-133 as one column assignment. *)
Theorem regla_cuil_columna (cs : list (string * list cell)) col :
    col_lookup cs "CUIL" = Some col -> length col = k ->
    regla_cuil lote (mkFrame (seq 0 k) cs)
    = Ok (mkFrame (seq 0 k) (set_column cs "CUIL" (map (cuil_de lote) (seq 0 k)))).
  Proof.
    intros Hc Hl. unfold regla_cuil, has_column. simpl. rewrite Hc.
    rewrite (regla_cuil_loop_spec _ _ col); auto.
    - assert (E : foldl (fun acc i => <[i := cuil_de lote i]> acc) col (seq 0 k)
                  = map (cuil_de lote) (seq 0 k)) by (rewrite <- Hl; apply foldl_insert_all).
      by rewrite E.
    - apply Forall_forall. intros i Hi%list_elem_of_In%in_seq. lia.
  Qed.
End Cuil.

(** C5: the CUIL loop of lines 114-133 on a result frame with a
    RangeIndex of [k] rows succeeds, keeps the index and every other
    column, and leaves in the CUIL column, at each label [i], the value
    computed from the source row at POSITION [i] of [lote] ([iloc]),
    whatever label that row carries. *)
Theorem regla_cuil_efecto (lote : frame) k (cs : list (string * list cell)) col :
  nrows lote = k -> col_lookup cs "CUIL" = Some col -> length col = k ->
  exists r, regla_cuil lote (mkFrame (seq 0 k) cs) = Ok r
    /\ findex r = seq 0 k
    /\ col_lookup (fcols r) "CUIL" = Some (map (cuil_de lote) (seq 0 k))
    /\ (forall c, c <> "CUIL"%string -> col_lookup (fcols r) c = col_lookup cs c).
Proof.
  intros Hk Hc Hl. rewrite (regla_cuil_columna lote k Hk cs col Hc Hl).
  eexists. split; [reflexivity|]. cbn [findex fcols].
  split; [done|]. split; [apply col_lookup_set_column_eq|].
  intros c Hne. by apply col_lookup_set_column_ne.
Qed.

Lemma regla_cuil_efecto_witness :
  exists r, regla_cuil hoja_ejemplo (mkFrame (seq 0 3) [("CUIL"%string, [None; None; None])]) = Ok r
    /\ findex r = seq 0 3
    /\ col_lookup (fcols r) "CUIL" = Some (map (cuil_de hoja_ejemplo) (seq 0 3))
    /\ (forall c, c <> "CUIL"%string -> col_lookup (fcols r) c = col_lookup [("CUIL"%string, [None; None; None])] c).
Proof. apply (regla_cuil_efecto hoja_ejemplo 3 _ [None; None; None]); reflexivity. Defined.

(** ** The frame after line 95 *)

Section ConImporte.
Variable df : frame.
Hypothesis Hwf : frame_wf df.

Lemma con_importe_index : findex (con_importe df) = findex df.
  Proof. unfold con_importe. by destruct (col_lookup (fcols df) "IMPORTE"). Qed.

Lemma con_importe_wf : frame_wf (con_importe df).
  Proof.
    unfold con_importe. destruct (col_lookup (fcols df) "IMPORTE") as [v|] eqn:Hc; [|done].
    apply set_column_wf; [done|]. rewrite length_map. by apply (wf_col_length _ _ _ Hwf Hc).
  Qed.

Lemma col_lookup_con_importe_ne c :
    c <> "IMPORTE"%string -> col_lookup (fcols (con_importe df)) c = col_lookup (fcols df) c.
  Proof.
    intros Hne. unfold con_importe. destruct (col_lookup (fcols df) "IMPORTE"); [|done].
    by apply col_lookup_set_column_ne.
  Qed.

Lemma has_column_con_importe c : has_column (con_importe df) c = has_column df c.
  Proof.
    unfold has_column. destruct (String.eqb_spec c "IMPORTE") as [->|Hne].
    - unfold con_importe. destruct (col_lookup (fcols df) "IMPORTE") eqn:E; [|by rewrite E].
      simpl. by rewrite col_lookup_set_column_eq.
    - by rewrite col_lookup_con_importe_ne.
  Qed.

Lemma celda_con_importe_ne c p :
    c <> "IMPORTE"%string -> celda (con_importe df) c p = celda df c p.
  Proof. intros Hne. unfold celda. by rewrite col_lookup_con_importe_ne. Qed.

Lemma celda_con_importe_eq p :
    has_column df "IMPORTE" = true -> p < nrows df ->
    celda (con_importe df) "IMPORTE" p = importe_con_ceros (celda df "IMPORTE" p).
  Proof.
    unfold has_column, celda, con_importe. destruct (col_lookup (fcols df) "IMPORTE") as [v|] eqn:Hc; [|discriminate].
    intros _ Hp. simpl. rewrite col_lookup_set_column_eq.
    apply nth_map_lt. by rewrite (wf_col_length _ _ _ Hwf Hc).
  Qed.
End ConImporte.

Lemma faltantes_nil_has (df : frame) c :
  columnas_faltantes df = [] -> In c columnas_requeridas -> has_column df c = true.
Proof.
  unfold columnas_faltantes. intros Hnil Hin.
  destruct (has_column df c) eqn:E; [done|].
  assert (Hf : In c (List.filter (fun c => negb (has_column df c)) columnas_requeridas))
    by (apply filter_In; rewrite E; auto).
  by rewrite Hnil in Hf.
Qed.

(** ** The result frame read at a kept position *)

Lemma campos_leidos_requeridos (fecha : pystr) :
  Forall (fun f => default f = None -> In (campo f) columnas_requeridas) (datos_formato_cliente fecha).
Proof.
  unfold datos_formato_cliente. repeat apply Forall_cons_2; try apply Forall_nil_2;
    simpl; intros; try discriminate; tauto.
Qed.

Lemma columna_resuelta_length (lote : frame) k f :
  (default f = None -> has_column lote (campo f) = true) -> length (columna_resuelta lote k f) = k.
Proof.
  unfold columna_resuelta, has_column, getitem. destruct (default f); [by rewrite length_replicate|].
  intros H. specialize (H eq_refl). destruct (col_lookup (fcols lote) (campo f)); [|discriminate].
  unfold reindex. by rewrite length_map, length_seq.
Qed.

Lemma contenido_hab_length (r : frame) : length (contenido_hab r) = nrows r.
Proof. unfold contenido_hab, iterrows. by rewrite !length_map, length_seq. Qed.

Section Final.
Variable df : frame.
Hypothesis Hwf : frame_wf df.
Hypothesis Hidx : findex df = seq 0 (nrows df).
Hypothesis Hcols : columnas_faltantes df = [].

Lemma lote_index : findex (lote_de df) = conservadas df.
  Proof. simpl. by rewrite con_importe_index, Hidx. Qed.

Lemma conservadas_le : length (conservadas df) <= nrows df.
  Proof.
    unfold conservadas. pose proof (mask_filter_length_le (mascara_cuota df) (seq 0 (nrows df))).
    rewrite length_seq in *. lia.
  Qed.

Lemma lote_nrows : nrows (lote_de df) = length (conservadas df).
  Proof. unfold nrows at 1. by rewrite lote_index. Qed.

Lemma lote_wf : frame_wf (lote_de df).
  Proof. apply take_rows_wf, con_importe_wf, Hwf. Qed.

Lemma lote_has c : In c columnas_requeridas ->
    has_column (lote_de df) c = true.
  Proof. unfold lote_de in *. intros. rewrite has_column_take_rows, has_column_con_importe. by apply faltantes_nil_has. Qed.

Lemma col_con_importe_length c v :
    col_lookup (fcols (con_importe df)) c = Some v -> length v = nrows df.
  Proof.
    intros Hc. rewrite (wf_col_length _ _ _ (con_importe_wf df Hwf) Hc).
    unfold nrows. by rewrite con_importe_index.
  Qed.

Lemma nth_columna_leida f p :
    default f = None -> In (campo f) columnas_requeridas -> p < length (conservadas df) ->
    nth p (columna_resuelta (lote_de df) (length (conservadas df)) f) None
    = if nth p (mascara_cuota df) false
      then Some (zfill (py_str (celda (con_importe df) (campo f) p)) (enteros f)) else None.
  Proof.
    intros Hd Hin Hp. pose proof (lote_has _ Hin) as Hh. pose proof conservadas_le.
    unfold columna_resuelta, getitem, has_column, celda in *. rewrite Hd.
    simpl in *. rewrite col_lookup_masked in *.
    destruct (col_lookup (fcols (con_importe df)) (campo f)) as [v|] eqn:Hc; [|discriminate].
    simpl. rewrite nth_reindex_seq by done. rewrite con_importe_index, Hidx.
    rewrite <- (col_con_importe_length _ _ Hc), label_lookup_masked_map by done.
    rewrite (col_con_importe_length _ _ Hc). destruct (Nat.ltb_spec p (nrows df)); [done|lia].
  Qed.

Lemma nth_columna_defecto f d p :
    default f = Some d -> p < length (conservadas df) ->
    nth p (columna_resuelta (lote_de df) (length (conservadas df)) f) None
    = Some (zfill d (enteros f)).
  Proof. intros Hd Hp. unfold columna_resuelta. rewrite Hd. by apply nth_replicate_lt. Qed.

Lemma celda_kept c v p :
    col_lookup (fcols (con_importe df)) c = Some v -> p < length (conservadas df) ->
    nth p (mask_filter (mascara_cuota df) v) None = celda (con_importe df) c (nth p (conservadas df) 0).
  Proof.
    intros Hc Hp. unfold celda. rewrite Hc. pose proof (col_con_importe_length _ _ Hc) as Hl.
    rewrite nth_mask_filter; rewrite Hl; done.
  Qed.

Lemma cuil_de_kept p :
    p < length (conservadas df) ->
    cuil_de (lote_de df) p
    = Some (cuil_resuelto (py_str (celda df "CUIL" (nth p (conservadas df) 0)))
                          (prefijo (celda df "CUIL_APODERADO" (nth p (conservadas df) 0)))).
  Proof.
    intros Hp. unfold cuil_de. rewrite !row_get_row_at. simpl. rewrite !col_lookup_masked.
    pose proof (lote_has "CUIL" ltac:(simpl; tauto)) as H1.
    pose proof (lote_has "CUIL_APODERADO" ltac:(simpl; tauto)) as H2.
    unfold has_column in H1, H2. simpl in H1, H2. rewrite col_lookup_masked in H1, H2.
    destruct (col_lookup (fcols (con_importe df)) "CUIL") as [vc|] eqn:Ec; [|discriminate].
    destruct (col_lookup (fcols (con_importe df)) "CUIL_APODERADO") as [va|] eqn:Ea; [|discriminate].
    simpl. rewrite (celda_kept _ _ _ Ec Hp), (celda_kept _ _ _ Ea Hp).
    by rewrite !celda_con_importe_ne.
  Qed.

Lemma lote_campos_leidos (fecha : pystr) :
    Forall (fun f => default f = None -> has_column (lote_de df) (campo f) = true)
      (datos_formato_cliente fecha).
  Proof.
    eapply Forall_impl; [apply campos_leidos_requeridos|]. simpl. intros f H Hd. by apply lote_has, H.
  Qed.

Lemma valor_campo_kept (fecha : pystr) p f :
    In f (datos_formato_cliente fecha) -> p < length (conservadas df) ->
    nth p (mascara_cuota df) false = true ->
    py_str (nth p (if String.eqb "CUIL" (campo f)
                   then map (cuil_de (lote_de df)) (seq 0 (length (conservadas df)))
                   else columna_resuelta (lote_de df) (length (conservadas df)) f) None)
    = valor_campo df p (nth p (conservadas df) 0) f.
  Proof.
    intros Hf Hp Hm. unfold valor_campo. destruct (String.eqb "CUIL" (campo f)).
    - rewrite (nth_map_lt _ _ _ 0) by (rewrite length_seq; lia).
      rewrite seq_nth, Nat.add_0_l, cuil_de_kept by lia. reflexivity.
    - destruct (default f) as [d|] eqn:Hd.
      + by rewrite (nth_columna_defecto f d).
      + rewrite nth_columna_leida, Hm; [done..| |done].
        apply (proj1 (Forall_forall _ _) (campos_leidos_requeridos fecha)); auto.
        by apply list_elem_of_In.
  Qed.
End Final.

(** ** The text [procesar_archivo] returns *)

Section Run.
Variable df : frame.
Variable fecha : pystr.
Hypothesis Hwf : frame_wf df.
Hypothesis Hidx : findex df = seq 0 (nrows df).
Hypothesis Hcols : columnas_faltantes df = [].

Lemma columnas_resueltas_length f :
    In f (datos_formato_cliente fecha) ->
    length (columna_resuelta (lote_de df) (length (conservadas df)) f) = length (conservadas df).
  Proof.
    intros Hf. apply columna_resuelta_length.
    apply (proj1 (Forall_forall _ _) (lote_campos_leidos df Hcols fecha)). by apply list_elem_of_In.
  Qed.

Lemma col_lookup_resueltas f :
    In f (datos_formato_cliente fecha) ->
    col_lookup (map (fun f => (campo f, columna_resuelta (lote_de df) (length (conservadas df)) f))
                  (datos_formato_cliente fecha)) (campo f)
    = Some (columna_resuelta (lote_de df) (length (conservadas df)) f).
  Proof. intros Hf. apply col_lookup_map; [apply nombres_NoDup | done]. Qed.

Lemma cuil_en_formato : In campo_cuil (datos_formato_cliente fecha).
  Proof. simpl; tauto. Qed.

Lemma solicitud_en_formato : In campo_solicitud (datos_formato_cliente fecha).
  Proof. simpl; tauto. Qed.

  (** The stages compose: each returns the frame named above. *)
Lemma procesar_archivo_etapas :
    procesar_archivo df fecha
    = Ok (take_rows (mascara_solicitud df) (resultado_de df fecha),
          serializar (contenido_hab (take_rows (mascara_solicitud df) (resultado_de df fecha)))).
  Proof.
    pose proof (faltantes_nil_has df "CUOTA" Hcols ltac:(simpl; tauto)) as HQ.
    pose proof (faltantes_nil_has df "IMPORTE" Hcols ltac:(simpl; tauto)) as HI.
    unfold has_column in HQ, HI.
    destruct (col_lookup (fcols df) "CUOTA") as [vq|] eqn:Eq; [|discriminate].
    destruct (col_lookup (fcols df) "IMPORTE") as [vi|] eqn:Ei; [|discriminate].
    unfold procesar_archivo.
    rewrite (filtrar_cuota_ok df Hwf Hidx vq Eq), res_bind_ok.
    rewrite (sufijo_importe_ok df Hwf Hidx _ vi Ei), res_bind_ok. fold (lote_de df).
    rewrite datos_formato_cliente_cons at 1.
    rewrite (resolver_campos_empty (lote_de df) _ (lote_nrows df Hidx) (lote_wf df Hwf) _ _ (lit "013"));
      [| done | apply nombres_NoDup].
    rewrite <- datos_formato_cliente_cons, res_bind_ok.
    rewrite (filtrar_presentes (lote_de df) _ (lote_campos_leidos df Hcols fecha)).
    rewrite (regla_cuil_columna (lote_de df) _ (lote_nrows df Hidx) _ _ (col_lookup_resueltas _ cuil_en_formato)
               (columnas_resueltas_length _ cuil_en_formato)), res_bind_ok.
    unfold filtrar_solicitud, getitem. cbn [fcols findex].
    rewrite col_lookup_set_column_ne by discriminate.
    pose proof (col_lookup_resueltas _ solicitud_en_formato) as E.
    cbn [campo campo_solicitud] in E. by rewrite E.
  Qed.

Lemma resultado_de_wf : frame_wf (resultado_de df fecha).
  Proof.
    unfold resultado_de, frame_wf. rewrite nrows_mkFrame, length_seq.
    apply set_column_wf; [| by rewrite length_map, length_seq].
    apply Forall_forall. intros [c v] Hcv%list_elem_of_In.
    apply in_map_iff in Hcv as (f & [= <- <-] & Hf). by apply columnas_resueltas_length.
  Qed.

Lemma linea_resultado_de p :
    p < length (conservadas df) -> nth p (mascara_cuota df) false = true ->
    linea (row_at (resultado_de df fecha) p) = linea_hab fecha df p (nth p (conservadas df) 0).
  Proof.
    intros Hp Hm. unfold resultado_de.
    rewrite (set_column_map campo _ (datos_formato_cliente fecha) "CUIL");
      [| exact (nombres_NoDup fecha) | exact (in_map campo _ _ cuil_en_formato)].
    rewrite row_at_map. unfold linea, linea_hab. rewrite map_map. f_equal.
    apply map_ext_in. intros f Hf. by apply (valor_campo_kept df Hwf Hidx Hcols fecha).
  Qed.

Lemma mascara_solicitud_eq :
    mascara_solicitud df = map (fun p => nth p (mascara_cuota df) false) (seq 0 (length (conservadas df))).
  Proof.
    pose proof (columnas_resueltas_length _ solicitud_en_formato) as Hl.
    unfold mascara_solicitud. rewrite series_mask_combine by (by rewrite length_seq).
    rewrite <- (map_nth_seq_length notna _ None), Hl.
    apply map_ext_in. intros p Hp%in_seq.
    rewrite (nth_columna_leida df Hwf Hidx Hcols campo_solicitud p eq_refl ltac:(simpl; tauto) ltac:(lia)).
    by destruct (nth p (mascara_cuota df) false).
  Qed.

  (** Line 139-141 on the filtered result: the emitted lines. *)
Lemma contenido_resultado :
    contenido_hab (take_rows (mascara_solicitud df) (resultado_de df fecha)) = lineas_emitidas df fecha.
  Proof.
    unfold contenido_hab. rewrite (contenido_rows linea).
    rewrite (map_rows_take_rows linea) by (apply resultado_de_wf || (unfold resultado_de; by rewrite nrows_mkFrame, length_seq)).
    unfold resultado_de at 2. rewrite nrows_mkFrame, length_seq, mascara_solicitud_eq, mask_filter_map_map.
    apply map_ext_in. intros p [Hp%in_seq Hm]%filter_In. apply linea_resultado_de; auto; lia.
  Qed.
(** The stages and the emitted lines together. *)
Lemma procesar_archivo_resultado :
  procesar_archivo df fecha
  = Ok (take_rows (mascara_solicitud df) (resultado_de df fecha), serializar (lineas_emitidas df fecha)).
Proof. by rewrite procesar_archivo_etapas, contenido_resultado. Qed.
End Run.

(** C1: on a frame as [pd.read_excel] returns it (well formed, with a
    RangeIndex) that has the eight required columns, [procesar_archivo]
    succeeds, and the file it returns is [lineas_emitidas]: one line per
    result label [p] below the number of rows that survived the CUOTA
    filter, present only when source row [p] survived, made of the data
    of row [p] and the CUIL of the [p]-th surviving row, the lines joined
    and terminated by CRLF; the result table has one row per line. *)
Theorem procesar_archivo_lineas (df : frame) (fecha : pystr) :
  frame_wf df -> findex df = seq 0 (nrows df) -> columnas_faltantes df = [] ->
  exists resultado,
    procesar_archivo df fecha = Ok (resultado, serializar (lineas_emitidas df fecha))
    /\ nrows resultado = length (lineas_emitidas df fecha).
Proof.
  intros Hwf Hidx Hcols. rewrite procesar_archivo_resultado by done.
  eexists. split; [reflexivity|].
  by rewrite <- (contenido_resultado df fecha), contenido_hab_length.
Qed.

Lemma procesar_archivo_lineas_witness :
  exists resultado,
    procesar_archivo hoja_ejemplo (lit "20261109")
    = Ok (resultado, serializar (lineas_emitidas hoja_ejemplo (lit "20261109")))
    /\ nrows resultado = length (lineas_emitidas hoja_ejemplo (lit "20261109")).
Proof.
  apply procesar_archivo_lineas; [unfold frame_wf; simpl; repeat constructor | reflexivity | vm_compute; reflexivity].
Defined.

(** The twelve fields of an emitted line, in layout order. *)
Lemma linea_hab_campos (fecha : pystr) (df : frame) p q :
  linea_hab fecha df p q = concat [
    zfill (lit "013") 3;
    zfill (py_str (celda (con_importe df) "SUCURSAL" p)) 5;
    zfill (lit "01") 2;
    zfill (lit "3") 1;
    zfill (py_str (celda (con_importe df) "CUENTA" p)) 9;
    zfill (py_str (celda (con_importe df) "IMPORTE" p)) 18;
    zfill fecha 8;
    zfill (lit "01465") 5;
    zfill (py_str (celda (con_importe df) "SOLICITUD" p)) 6;
    zfill (py_str (celda (con_importe df) "CBU" p)) 22;
    zfill (lit "00") 2;
    cuil_resuelto (py_str (celda df "CUIL" q)) (prefijo (celda df "CUIL_APODERADO" q))].
Proof. reflexivity. Qed.

(** C18: the CUIL rule of lines 123-133.  An empty or all-blank CUIL
    gives the empty string (not padded); any other CUIL is prefixed with
    ['1'] when CUIL_APODERADO is a non-empty string and with ['2'] when
    it is NaN or empty, then zero-filled to 22. *)
Theorem cuil_resuelto_regla (cuil_original : pystr) (cuil_apoderado : cell) :
  cuil_resuelto cuil_original (prefijo cuil_apoderado)
  = if forallb py_isspace cuil_original then []
    else zfill ((match cuil_apoderado with Some (_ :: _) => lit "1" | _ => lit "2" end)
                ++ cuil_original) 22.
Proof.
  unfold cuil_resuelto. rewrite truthy_strip.
  destruct (forallb py_isspace cuil_original); [done|]. simpl.
  by destruct cuil_apoderado as [[|c s]|].
Qed.

(** ** Which inputs make [procesar_archivo] raise *)

Lemma has_column_campos (idx : list nat) (g : campo_formato -> list cell) fs c :
  has_column (mkFrame idx (map (fun f => (campo f, g f)) fs)) c
  = existsb (fun f => String.eqb c (campo f)) fs.
Proof.
  unfold has_column; simpl. induction fs as [|f fs IH]; simpl; [done|].
  by destruct (String.eqb c (campo f)).
Qed.

Section Errores.
Variable df : frame.
Variable fecha : pystr.
Hypothesis Hwf : frame_wf df.
Hypothesis Hidx : findex df = seq 0 (nrows df).

Lemma sufijo_importe_take (m : list bool) :
  sufijo_importe (take_rows m df) = Ok (take_rows m (con_importe df)).
Proof.
  destruct (col_lookup (fcols df) "IMPORTE") as [v|] eqn:Hc; [exact (sufijo_importe_ok df Hwf Hidx m v Hc)|].
  unfold sufijo_importe, con_importe. rewrite has_column_take_rows. unfold has_column. by rewrite Hc.
Qed.

(** The columns the loop of lines 100-109 gives the result frame. *)
Lemma columnas_resultado_wf :
  frame_wf (mkFrame (seq 0 (length (conservadas df)))
    (map (fun f => (campo f, columna_resuelta (lote_de df) (length (conservadas df)) f))
         (List.filter (presente (lote_de df)) (datos_formato_cliente fecha)))).
Proof.
  unfold frame_wf. rewrite nrows_mkFrame, length_seq. apply Forall_forall.
  intros [c v] Hcv%list_elem_of_In. apply in_map_iff in Hcv as (f & [= <- <-] & Hf).
  apply filter_In in Hf as [_ Hp]. apply columna_resuelta_length. unfold presente in Hp.
  intros Hd. by rewrite Hd in Hp.
Qed.

(** With a CUOTA column, every stage before line 136 succeeds, and the
    frame line 136 reads has SOLICITUD exactly when the input has. *)
Lemma procesar_hasta_solicitud vq :
  col_lookup (fcols df) "CUOTA" = Some vq ->
  exists R, procesar_archivo df fecha
            = (let* r := filtrar_solicitud R in Ok (r, serializar (contenido_hab r)))
    /\ has_column R "SOLICITUD" = has_column df "SOLICITUD".
Proof.
  intros Eq.
  assert (E : resolver_campos (lote_de df) empty_frame (datos_formato_cliente fecha)
    = Ok (mkFrame (seq 0 (length (conservadas df)))
            (map (fun f => (campo f, columna_resuelta (lote_de df) (length (conservadas df)) f))
                 (List.filter (presente (lote_de df)) (datos_formato_cliente fecha))))).
  { rewrite datos_formato_cliente_cons at 1.
    rewrite (resolver_campos_empty (lote_de df) _ (lote_nrows df Hidx) (lote_wf df Hwf) _ _ (lit "013"));
      [| done | apply nombres_NoDup].
    by rewrite <- datos_formato_cliente_cons. }
  unfold procesar_archivo.
  rewrite (filtrar_cuota_ok df Hwf Hidx vq Eq), res_bind_ok, sufijo_importe_take, res_bind_ok.
  fold (lote_de df). rewrite E, res_bind_ok.
  pose proof columnas_resultado_wf as Hw.
  set (cs := map _ (List.filter _ _)) in *.
  assert (HS : has_column (mkFrame (seq 0 (length (conservadas df))) cs) "SOLICITUD"
               = has_column df "SOLICITUD").
  { unfold cs. rewrite has_column_campos.
    transitivity (has_column (lote_de df) "SOLICITUD").
    - unfold presente. simpl. repeat destruct (has_column (lote_de df) _); reflexivity.
    - unfold lote_de. by rewrite has_column_take_rows, has_column_con_importe. }
  destruct (col_lookup cs "CUIL") as [col|] eqn:Ec.
  - pose proof (wf_col_length _ "CUIL" col Hw Ec) as Hl. rewrite nrows_mkFrame, length_seq in Hl.
    rewrite (regla_cuil_columna (lote_de df) _ (lote_nrows df Hidx) cs col Ec Hl), res_bind_ok.
    eexists. split; [reflexivity|]. rewrite <- HS. unfold has_column. cbn [fcols].
    by rewrite col_lookup_set_column_ne.
  - assert (Hr : regla_cuil (lote_de df) (mkFrame (seq 0 (length (conservadas df))) cs)
                 = Ok (mkFrame (seq 0 (length (conservadas df))) cs))
      by (unfold regla_cuil, has_column; cbn [fcols]; by rewrite Ec).
    rewrite Hr, res_bind_ok. eexists. split; [reflexivity | exact HS].
Qed.
End Errores.
(** C4: on a frame read from a sheet (columns as long as the RangeIndex),
    [procesar_archivo] raises exactly in two cases: [KeyError 'CUOTA']
    when the CUOTA column is missing (line 91), and [KeyError
    'SOLICITUD'] when CUOTA is there and SOLICITUD is not (line 136).
    Every other missing column is skipped silently (line 108); no
    [ValueError] or [IndexError] is raised. *)
Theorem procesar_archivo_error (df : frame) (fecha : pystr) (e : pyerr) :
  frame_wf df -> findex df = seq 0 (nrows df) ->
  procesar_archivo df fecha = Err e <->
  (has_column df "CUOTA" = false /\ e = KeyError "CUOTA") \/
  (has_column df "CUOTA" = true /\ has_column df "SOLICITUD" = false /\ e = KeyError "SOLICITUD").
Proof.
  intros Hwf Hidx. unfold has_column at 1 2. destruct (col_lookup (fcols df) "CUOTA") as [vq|] eqn:Eq.
  - destruct (procesar_hasta_solicitud df fecha Hwf Hidx vq Eq) as (R & -> & HS).
    rewrite <- HS. unfold filtrar_solicitud, getitem, has_column.
    destruct (col_lookup (fcols R) "SOLICITUD"); simpl; split; try discriminate.
    + intros [[? _]|[_ [? _]]]; discriminate.
    + intros [= <-]. auto.
    + intros [[? _]|[_ [_ ->]]]; [discriminate | reflexivity].
  - unfold procesar_archivo, filtrar_cuota, getitem. rewrite Eq. simpl. split.
    + intros [= <-]. auto.
    + intros [[_ ->]|[? _]]; [reflexivity | discriminate].
Qed.

Lemma procesar_archivo_error_witness :
  frame_wf hoja_sin_solicitud /\ findex hoja_sin_solicitud = seq 0 (nrows hoja_sin_solicitud) /\
  procesar_archivo hoja_sin_solicitud (lit "20261109") = Err (KeyError "SOLICITUD").
Proof.
  assert (Hw : frame_wf hoja_sin_solicitud) by (unfold frame_wf; simpl; repeat constructor).
  assert (Hi : findex hoja_sin_solicitud = seq 0 (nrows hoja_sin_solicitud)) by reflexivity.
  split; [exact Hw | split; [exact Hi|]].
  apply (procesar_archivo_error hoja_sin_solicitud (lit "20261109") _ Hw Hi).
  right. split; [reflexivity | split; reflexivity].
Defined.

(** C10: the table [procesar_archivo] returns for display (spec 6): a
    well-formed frame (each column as long as the index, without
    repeated labels) whose columns are the twelve layout fields in
    layout order. *)
Theorem procesar_archivo_tabla (df : frame) (fecha : pystr) (resultado : frame) (contenido : pystr) :
  frame_wf df -> findex df = seq 0 (nrows df) -> columnas_faltantes df = [] ->
  procesar_archivo df fecha = Ok (resultado, contenido) ->
  frame_wf resultado /\ List.NoDup (findex resultado) /\ map fst (fcols resultado) = nombres_campos.
Proof.
  intros Hwf Hidx Hcols Hp. rewrite procesar_archivo_resultado in Hp by done.
  injection Hp as <- _. split; [|split].
  - apply take_rows_wf, resultado_de_wf; assumption.
  - apply mask_filter_NoDup, seq_NoDup.
  - rewrite map_fst_take_rows. unfold resultado_de. cbn [fcols].
    rewrite map_fst_set_column; rewrite map_map; [reflexivity | simpl; tauto].
Qed.

Lemma procesar_archivo_tabla_witness :
  procesar_archivo hoja_ejemplo (lit "20261109")
    = Ok (take_rows (mascara_solicitud hoja_ejemplo) (resultado_de hoja_ejemplo (lit "20261109")),
          serializar (lineas_emitidas hoja_ejemplo (lit "20261109"))) /\
  frame_wf (take_rows (mascara_solicitud hoja_ejemplo) (resultado_de hoja_ejemplo (lit "20261109"))) /\
  List.NoDup (findex (take_rows (mascara_solicitud hoja_ejemplo) (resultado_de hoja_ejemplo (lit "20261109")))) /\
  map fst (fcols (take_rows (mascara_solicitud hoja_ejemplo) (resultado_de hoja_ejemplo (lit "20261109"))))
    = nombres_campos.
Proof.
  assert (H : procesar_archivo hoja_ejemplo (lit "20261109")
    = Ok (take_rows (mascara_solicitud hoja_ejemplo) (resultado_de hoja_ejemplo (lit "20261109")),
          serializar (lineas_emitidas hoja_ejemplo (lit "20261109")))) by (vm_compute; reflexivity).
  split; [exact H|].
  apply (procesar_archivo_tabla hoja_ejemplo (lit "20261109") _ _
           ltac:(unfold frame_wf; simpl; repeat constructor) eq_refl ltac:(vm_compute; reflexivity) H).
Defined.
