(* ===== verification/RowSpec.v ===== *)
(** * The per-row contract of the encoder and the refinement theorem

    Spec sections 4.2-4.5 and 9 describe the engine as one row-to-row
    function: every source row that is eligible (CUOTA is not ["3"] and
    SOLICITUD is present) becomes one line whose twelve fields are the
    constants, the zero-filled source values, the IMPORTE with ["00"]
    appended, the run date, and the CUIL with its prefix.  This file
    states that contract on a record of the eight source columns
    ([fila], [linea_spec], [archivo_spec]) and proves when
    [procesar_archivo] implements it: exactly when the rows with
    CUOTA = 3 all come after the others and no eligible row lacks a
    SOLICITUD ([procesar_refina_spec]).  Outside those conditions the
    characterisation [Procesar.procesar_archivo_lineas] applies.  On
    any sheet whose values fit their fields ([cabe]), every record the
    code writes has the width of the layout ([procesar_archivo_ancho]). *)

From Stdlib Require Import List NArith Lia String.
From stdpp Require Import base list strings.
From S2P Require Import Prelude PyStr Frame Schema Procesar.
Import ListNotations.

(** A source row: the eight columns of the sheet, each a string or NaN. *)
Record fila := mkFila {
  sucursal : cell;
  cuenta : cell;
  importe : cell;
  solicitud : cell;
  cbu : cell;
  cuota : cell;
  cuil : cell;
  cuil_apoderado : cell
}.

Definition celdas_fila (r : fila) : list cell :=
  [sucursal r; cuenta r; importe r; solicitud r; cbu r; cuota r; cuil r; cuil_apoderado r].

(** The frame [pd.read_excel] returns for these rows (line 201). *)
Definition hoja (rs : list fila) : frame := frame_of_rows columnas_requeridas (map celdas_fila rs).

(** Spec 4.2: a row is deposited when its CUOTA is not ["3"] and it has
    a SOLICITUD. *)
Definition elegible (r : fila) : bool := cuota_distinta_de_3 (cuota r) && notna (solicitud r).

(** The line built from the data of row [r] and the CUIL of row [c]. *)
Definition linea_con_cuil (fecha : pystr) (r c : fila) : pystr := concat [
  zfill (lit "013") 3;
  zfill (py_str (sucursal r)) 5;
  zfill (lit "01") 2;
  zfill (lit "3") 1;
  zfill (py_str (cuenta r)) 9;
  zfill (py_str (importe r) ++ lit "00") 18;
  zfill fecha 8;
  zfill (lit "01465") 5;
  zfill (py_str (solicitud r)) 6;
  zfill (py_str (cbu r)) 22;
  zfill (lit "00") 2;
  cuil_resuelto (py_str (cuil c)) (prefijo (cuil_apoderado c))].

(** Spec 4.3-4.5: the line of one row carries its own data and CUIL. *)
Definition linea_spec (fecha : pystr) (r : fila) : pystr := linea_con_cuil fecha r r.

(** Spec 4.6: the file of a batch. *)
Definition archivo_spec (fecha : pystr) (rs : list fila) : pystr :=
  serializar (map (linea_spec fecha) (List.filter elegible rs)).

Definition fila_vacia : fila := mkFila None None None None None None None None.

(** Example rows for the witnesses. *)
Definition fila_ejemplo (cuota_ cuil_apoderado_ : cell) : fila :=
  mkFila (Some (lit "12")) (Some (lit "345")) (Some (lit "1500.50")) (Some (lit "777"))
         (Some (lit "0123")) cuota_ (Some (lit "20123456789")) cuil_apoderado_.

(** Spec 4.3: every source value fits its field, the IMPORTE with its
    two added zeros and the CUIL with its prefix. *)
Definition cabe (r : fila) : bool :=
  (length (py_str (sucursal r)) <=? 5) && (length (py_str (cuenta r)) <=? 9) &&
  (length (py_str (importe r)) <=? 16) && (length (py_str (solicitud r)) <=? 6) &&
  (length (py_str (cbu r)) <=? 22) && (length (py_str (cuil r)) <=? 21).

(** ** The sheet read back by column *)

Lemma hoja_wf (rs : list fila) : frame_wf (hoja rs).
Proof.
  unfold frame_wf, hoja, frame_of_rows, nrows; simpl.
  repeat constructor; simpl; by rewrite !length_map, length_seq.
Qed.

Lemma hoja_index (rs : list fila) : findex (hoja rs) = seq 0 (nrows (hoja rs)).
Proof. unfold hoja, frame_of_rows, nrows; simpl. by rewrite length_seq, length_map. Qed.

Lemma hoja_columnas (rs : list fila) : columnas_faltantes (hoja rs) = [].
Proof. reflexivity. Qed.

Lemma nrows_hoja (rs : list fila) : nrows (hoja rs) = length rs.
Proof. unfold hoja, frame_of_rows, nrows; simpl. by rewrite length_seq, length_map. Qed.

(** Reading column [c] of the sheet at row [p] reads field [c] of row [p]. *)
Lemma celda_hoja (rs : list fila) p j c :
  nth_error columnas_requeridas j = Some c -> p < length rs ->
  celda (hoja rs) c p = nth j (celdas_fila (nth p rs fila_vacia)) None.
Proof.
  intros Hj Hp. unfold celda, hoja, frame_of_rows.
  do 8 (destruct j as [|j]; [injection Hj as <-; simpl; rewrite map_map;
                              by rewrite (nth_map_lt _ _ _ fila_vacia) |]).
  by destruct j.
Qed.

Lemma mascara_cuota_hoja (rs : list fila) :
  mascara_cuota (hoja rs) = map (fun r => cuota_distinta_de_3 (cuota r)) rs.
Proof.
  unfold mascara_cuota. rewrite nrows_hoja, <- (map_nth_seq_length _ rs fila_vacia).
  apply map_ext_in. intros p Hp%in_seq. by rewrite (celda_hoja rs p 5 "CUOTA") by (done || lia).
Qed.

(** A line of the code on the sheet: data of row [p], CUIL of row [q]. *)
Lemma linea_hab_hoja (fecha : pystr) (rs : list fila) p q :
  p < length rs -> q < length rs ->
  linea_hab fecha (hoja rs) p q = linea_con_cuil fecha (nth p rs fila_vacia) (nth q rs fila_vacia).
Proof.
  intros Hp Hq. rewrite linea_hab_campos. unfold linea_con_cuil.
  rewrite celda_con_importe_eq by (apply hoja_wf || reflexivity || (rewrite nrows_hoja; lia)).
  rewrite !celda_con_importe_ne by (apply hoja_wf || discriminate).
  by rewrite (celda_hoja rs p 0 "SUCURSAL"), (celda_hoja rs p 1 "CUENTA"), (celda_hoja rs p 2 "IMPORTE"),
    (celda_hoja rs p 3 "SOLICITUD"), (celda_hoja rs p 4 "CBU"), (celda_hoja rs q 6 "CUIL"),
    (celda_hoja rs q 7 "CUIL_APODERADO") by (done || lia).
Qed.

Section Prefijo.
Variables (ok rest : list fila).
Hypothesis Hok : Forall (fun r => cuota_distinta_de_3 (cuota r) = true) ok.
Hypothesis Hrest : Forall (fun r => cuota_distinta_de_3 (cuota r) = false) rest.

Lemma conservadas_prefijo : conservadas (hoja (ok ++ rest)) = seq 0 (length ok).
Proof.
  unfold conservadas. rewrite mascara_cuota_hoja, nrows_hoja, map_app, length_app, seq_app.
  rewrite mask_filter_app by (by rewrite length_map, length_seq).
  rewrite mask_filter_all_true, (mask_filter_all_false _ (seq _ _)).
  - by rewrite app_nil_r.
  - by apply Forall_map.
  - by rewrite length_map, length_seq.
  - by apply Forall_map.
Qed.

Lemma lineas_emitidas_prefijo (fecha : pystr) :
  lineas_emitidas (hoja (ok ++ rest)) fecha = map (linea_spec fecha) ok.
Proof.
  unfold lineas_emitidas. rewrite conservadas_prefijo, length_seq.
  rewrite filter_all.
  - rewrite <- (map_nth_seq_length (linea_spec fecha) ok fila_vacia).
    apply map_ext_in. intros p Hp%in_seq. rewrite seq_nth, Nat.add_0_l by lia.
    rewrite linea_hab_hoja by (rewrite length_app; lia). unfold linea_spec.
    by rewrite app_nth1 by lia.
  - intros p Hp%in_seq. rewrite mascara_cuota_hoja, map_app, app_nth1 by (rewrite length_map; lia).
    rewrite (nth_map_lt _ _ _ fila_vacia) by lia.
    apply (proj1 (Forall_forall _ _) Hok). apply list_elem_of_In, nth_In. lia.
Qed.
End Prefijo.

(** C2: refinement.  When every row with CUOTA = 3 comes after all the
    other rows, and every other row has a SOLICITUD, [procesar_archivo]
    returns the file of the per-row contract: one [linea_spec] line per
    eligible row, in input order, CRLF-joined and CRLF-terminated. *)
Theorem procesar_refina_spec (fecha : pystr) (ok rest : list fila) :
  Forall (fun r => elegible r = true) ok ->
  Forall (fun r => cuota_distinta_de_3 (cuota r) = false) rest ->
  exists resultado, procesar_archivo (hoja (ok ++ rest)) fecha = Ok (resultado, archivo_spec fecha (ok ++ rest)).
Proof.
  intros Hok Hrest.
  assert (Hok' : Forall (fun r => cuota_distinta_de_3 (cuota r) = true) ok)
    by (eapply Forall_impl; [exact Hok|]; intros r [? _]%andb_prop; done).
  rewrite (procesar_archivo_resultado _ _ (hoja_wf _) (hoja_index _) (hoja_columnas _)).
  eexists. rewrite lineas_emitidas_prefijo by done. unfold archivo_spec. do 3 f_equal.
  rewrite List.filter_app, filter_all, (filter_none _ rest); [by rewrite app_nil_r | |].
  - intros r Hr. unfold elegible.
    by rewrite (proj1 (Forall_forall _ _) Hrest r ltac:(by apply list_elem_of_In)).
  - intros r Hr. apply (proj1 (Forall_forall _ _) Hok). by apply list_elem_of_In.
Qed.

Lemma procesar_refina_spec_witness :
  exists resultado,
    procesar_archivo (hoja ([fila_ejemplo (Some (lit "1")) None; fila_ejemplo None (Some (lit "27"))]
                              ++ [fila_ejemplo (Some (lit "3")) None])) (lit "20261109")
    = Ok (resultado, archivo_spec (lit "20261109")
                       ([fila_ejemplo (Some (lit "1")) None; fila_ejemplo None (Some (lit "27"))]
                          ++ [fila_ejemplo (Some (lit "3")) None])).
Proof. apply procesar_refina_spec; repeat constructor. Defined.

(** C12: a missing SOLICITUD does not drop a row.  With the rows
    CUOTA = 3 placed last, every other row is emitted, including one
    whose SOLICITUD is missing: [str(NaN)] makes its field ["000nan"]
    (line 109), so the result cell is never NaN and the filter of line
    136 keeps it; spec 4.2 and 8 say such rows never appear. *)
Theorem procesar_emite_sin_solicitud (fecha : pystr) (ok rest : list fila) :
  Forall (fun r => cuota_distinta_de_3 (cuota r) = true) ok ->
  Forall (fun r => cuota_distinta_de_3 (cuota r) = false) rest ->
  exists resultado,
    procesar_archivo (hoja (ok ++ rest)) fecha = Ok (resultado, serializar (map (linea_spec fecha) ok)).
Proof.
  intros Hok Hrest.
  rewrite (procesar_archivo_resultado _ _ (hoja_wf _) (hoja_index _) (hoja_columnas _)).
  eexists. by rewrite lineas_emitidas_prefijo.
Qed.

Lemma procesar_emite_sin_solicitud_witness :
  exists resultado,
    procesar_archivo (hoja ([mkFila (Some (lit "12")) (Some (lit "345")) (Some (lit "10")) None
                                    (Some (lit "0123")) (Some (lit "1")) (Some (lit "20123456789")) None]
                              ++ [])) (lit "20261109")
    = Ok (resultado, serializar (map (linea_spec (lit "20261109"))
             [mkFila (Some (lit "12")) (Some (lit "345")) (Some (lit "10")) None
                     (Some (lit "0123")) (Some (lit "1")) (Some (lit "20123456789")) None])).
Proof. apply procesar_emite_sin_solicitud; repeat constructor. Defined.

Section Desalineado.
Variables (r0 : fila) (rs : list fila).
Hypothesis H0 : cuota_distinta_de_3 (cuota r0) = false.
Hypothesis Hrs : Forall (fun r => cuota_distinta_de_3 (cuota r) = true) rs.

Lemma mascara_desalineada : mascara_cuota (hoja (r0 :: rs)) = false :: replicate (length rs) true.
Proof.
  rewrite mascara_cuota_hoja. simpl. rewrite H0. f_equal.
  induction Hrs as [|r l Hr Hl IH]; simpl; [done|]. by rewrite Hr, IH.
Qed.

Lemma conservadas_desalineada : conservadas (hoja (r0 :: rs)) = seq 1 (length rs).
Proof.
  unfold conservadas. rewrite mascara_desalineada, nrows_hoja. simpl.
  rewrite mask_filter_seq_S, mask_filter_all_true, seq_shift; [done | by rewrite length_replicate, length_seq |].
  apply Forall_forall. intros b [-> _]%elem_of_replicate. done.
Qed.

Lemma lineas_emitidas_desalineada (fecha : pystr) :
  lineas_emitidas (hoja (r0 :: rs)) fecha
  = map (fun j => linea_con_cuil fecha (nth j rs fila_vacia) (nth (S j) rs fila_vacia))
        (seq 0 (length rs - 1)).
Proof.
  unfold lineas_emitidas. rewrite conservadas_desalineada, length_seq, mascara_desalineada.
  destruct (length rs) as [|n] eqn:En; [done|]. simpl. rewrite Nat.sub_0_r.
  rewrite filter_all.
  - rewrite <- (seq_shift n 0), map_map. apply map_ext_in. intros j Hj%in_seq.
    rewrite seq_nth by lia. rewrite linea_hab_hoja by (simpl; lia). done.
  - intros p Hp%in_seq. destruct p as [|p]; [lia|]. simpl.
    destruct p as [|p]; [done | apply nth_replicate_lt; lia].
Qed.
End Desalineado.

(** C3: a row with CUOTA = 3 in first position shifts the CUIL column.
    The result keeps labels [1..n] of the surviving rows but is built on
    the labels [0..n-1] (line 109) while the CUIL is read by position
    (line 116): the [j]-th emitted line carries the data of the [j]-th
    surviving row and the CUIL of the [(j+1)]-th, and the data of the
    last surviving row is not emitted at all. *)
Theorem procesar_desalineado (fecha : pystr) (r0 : fila) (rs : list fila) :
  cuota_distinta_de_3 (cuota r0) = false ->
  Forall (fun r => cuota_distinta_de_3 (cuota r) = true) rs ->
  exists resultado,
    procesar_archivo (hoja (r0 :: rs)) fecha
    = Ok (resultado, serializar (map (fun j => linea_con_cuil fecha (nth j rs fila_vacia) (nth (S j) rs fila_vacia))
                                    (seq 0 (length rs - 1)))).
Proof.
  intros H0 Hrs.
  rewrite (procesar_archivo_resultado _ _ (hoja_wf _) (hoja_index _) (hoja_columnas _)).
  eexists. by rewrite lineas_emitidas_desalineada.
Qed.

Lemma procesar_desalineado_witness :
  exists resultado,
    procesar_archivo (hoja (fila_ejemplo (Some (lit "3")) None
                             :: [fila_ejemplo (Some (lit "1")) None; fila_ejemplo None (Some (lit "27"))]))
      (lit "20261109")
    = Ok (resultado, serializar
           (map (fun j => linea_con_cuil (lit "20261109")
                            (nth j [fila_ejemplo (Some (lit "1")) None; fila_ejemplo None (Some (lit "27"))] fila_vacia)
                            (nth (S j) [fila_ejemplo (Some (lit "1")) None; fila_ejemplo None (Some (lit "27"))] fila_vacia))
                (seq 0 (length [fila_ejemplo (Some (lit "1")) None; fila_ejemplo None (Some (lit "27"))] - 1)))).
Proof. apply procesar_desalineado; [reflexivity | repeat constructor]. Defined.

(** ** The width of a line *)

Lemma linea_con_cuil_length (fecha : pystr) (r c : fila) :
  length (linea_con_cuil fecha r c) =
  3 + Nat.max 5 (length (py_str (sucursal r))) + 2 + 1 + Nat.max 9 (length (py_str (cuenta r)))
  + Nat.max 18 (length (py_str (importe r)) + 2) + Nat.max 8 (length fecha) + 5
  + Nat.max 6 (length (py_str (solicitud r))) + Nat.max 22 (length (py_str (cbu r))) + 2
  + length (cuil_resuelto (py_str (cuil c)) (prefijo (cuil_apoderado c))).
Proof.
  unfold linea_con_cuil. cbn [concat]. rewrite !length_app, !zfill_length, !length_app, !lit_length.
  simpl. lia.
Qed.

Lemma cuil_resuelto_length (s p : pystr) :
  length (cuil_resuelto s p) = if forallb py_isspace s then 0 else Nat.max 22 (length (p ++ s)).
Proof.
  unfold cuil_resuelto. rewrite truthy_strip. destruct (forallb py_isspace s); [done|]. apply zfill_length.
Qed.

(** Each line [procesar_archivo] writes on a sheet is the line of the
    data of some source row [p] and the CUIL of some source row [q]. *)
Lemma lineas_hoja (fecha : pystr) (rs : list fila) l :
  In l (lineas_emitidas (hoja rs) fecha) -> exists p q, p < length rs /\ q < length rs /\
    l = linea_con_cuil fecha (nth p rs fila_vacia) (nth q rs fila_vacia).
Proof.
  unfold lineas_emitidas. intros (p & <- & [Hp%in_seq _]%filter_In)%in_map_iff.
  assert (Hk : length (conservadas (hoja rs)) <= length rs).
  { pose proof (mask_filter_length_le (mascara_cuota (hoja rs)) (seq 0 (nrows (hoja rs)))) as H.
    unfold conservadas. rewrite length_seq, nrows_hoja in H. by rewrite nrows_hoja. }
  assert (Hq : nth p (conservadas (hoja rs)) 0 < length rs).
  { assert (H : In (nth p (conservadas (hoja rs)) 0) (conservadas (hoja rs))) by (apply nth_In; lia).
    apply mask_filter_seq_bound in H. rewrite nrows_hoja in H. lia. }
  exists p, (nth p (conservadas (hoja rs)) 0). split; [lia | split; [exact Hq | apply linea_hab_hoja; lia]].
Qed.

(** What [procesar_archivo] returns on a sheet: the lines above,
    CRLF-joined, and one result row per line. *)
Lemma salida_hoja (fecha : pystr) (rs : list fila) resultado contenido :
  procesar_archivo (hoja rs) fecha = Ok (resultado, contenido) ->
  contenido = serializar (lineas_emitidas (hoja rs) fecha) /\
  nrows resultado = length (lineas_emitidas (hoja rs) fecha).
Proof.
  rewrite (procesar_archivo_resultado _ _ (hoja_wf _) (hoja_index _) (hoja_columnas _)).
  intros [= <- <-]. split; [done|].
  by rewrite <- (contenido_resultado (hoja rs) fecha (hoja_wf _) (hoja_index _) (hoja_columnas _)),
    contenido_hab_length.
Qed.

Lemma cabe_campos (r : fila) :
  cabe r = true -> length (py_str (sucursal r)) <= 5 /\ length (py_str (cuenta r)) <= 9 /\
  length (py_str (importe r)) <= 16 /\ length (py_str (solicitud r)) <= 6 /\
  length (py_str (cbu r)) <= 22 /\ length (py_str (cuil r)) <= 21.
Proof. unfold cabe. rewrite !andb_true_iff, !Nat.leb_le. tauto. Qed.

(** A line built from values that fit is [ancho_linea] = 103 wide, or
    22 shorter when the CUIL it carries is blank. *)
Lemma linea_con_cuil_ancho (fecha : pystr) (r c : fila) :
  length fecha <= 8 -> cabe r = true -> cabe c = true ->
  length (linea_con_cuil fecha r c) = ancho_linea \/ length (linea_con_cuil fecha r c) = ancho_linea - 22.
Proof.
  intros Hf (? & ? & ? & ? & ? & _)%cabe_campos (_ & _ & _ & _ & _ & Hc)%cabe_campos.
  rewrite linea_con_cuil_length, cuil_resuelto_length, ancho_linea_103.
  destruct (forallb py_isspace (py_str (cuil c))); [right; lia|left].
  rewrite length_app. destruct (cuil_apoderado c) as [[|]|]; simpl; lia.
Qed.


