(* ===== verification/Instrucciones.v ===== *)
(** * The rules the page announces (sidebar, lines 35-61)

    The sidebar tells the user which rules the generator applies
    (lines 55-58): a ['2'] put before the CUIL when CUIL_APODERADO is
    null and a ['1'] when it has a value, rows with CUOTA = ['3'] left
    out, two zeros appended to IMPORTE.  This file writes the CUIL
    sentence as a definition on a source row ([fila]) and proves how
    the code relates to it: the CUIL field follows the announced
    prefix exactly when the CUIL is not blank and CUIL_APODERADO is
    not the empty string.  The CUOTA and IMPORTE sentences are the
    code's [cuota_distinta_de_3] and [importe_con_ceros] (Procesar.v),
    and the column list of lines 45-53 is [columnas_requeridas]. *)

From Stdlib Require Import List NArith Lia String.
From stdpp Require Import base list strings.
From S2P Require Import Prelude PyStr Frame Schema Procesar RowSpec.
Import ListNotations.

(** Lines 55-56: ['2'] when CUIL_APODERADO is null, ['1'] when it has a
    value; null is NaN, the only null cell of the sheet. *)
Definition prefijo_instrucciones (cuil_apoderado : cell) : pystr :=
  if notna cuil_apoderado then lit "1" else lit "2".

(** The CUIL the sidebar announces: the prefix as its first character. *)
Definition cuil_instrucciones (r : fila) : pystr :=
  prefijo_instrucciones (cuil_apoderado r) ++ py_str (cuil r).


(** ** Lemmas *)

Lemma prefijo_digito (a : cell) : prefijo a = lit "1" \/ prefijo a = lit "2".
Proof. destruct a as [[|c s]|]; simpl; auto. Qed.

Lemma prefijo_instrucciones_digito (a : cell) :
  prefijo_instrucciones a = lit "1" \/ prefijo_instrucciones a = lit "2".
Proof. destruct a; simpl; auto. Qed.

Lemma prefijo_instrucciones_iff (a : cell) : prefijo a = prefijo_instrucciones a <-> a <> Some [].
Proof.
  destruct a as [[|c s]|]; simpl; split; intros H;
    (reflexivity || discriminate || (vm_compute in H; discriminate H) || (exfalso; by apply H)).
Qed.

(** A one-digit prefix is not a sign, so [zfill] pads in front of it,
    and two zero-filled strings that differ only in that digit differ. *)
Lemma zfill_digito_iff (p p' s : pystr) :
  (p = lit "1" \/ p = lit "2") -> (p' = lit "1" \/ p' = lit "2") ->
  zfill (p ++ s) 22 = zfill (p' ++ s) 22 <-> p = p'.
Proof.
  intros Hp Hp'. assert (Hl : length p = length p') by (destruct Hp, Hp'; subst; reflexivity).
  rewrite !zfill_unsigned by (destruct Hp as [->| ->], Hp' as [->| ->]; intros c [= <-]; reflexivity).
  rewrite !length_app, Hl. split; [|by intros ->].
  intros H%app_inv_head. by apply app_inv_tail in H.
Qed.

Lemma zfill_22_no_vacio (s : pystr) : zfill s 22 <> [].
Proof. intros H. apply (f_equal length) in H. rewrite zfill_length in H. simpl in H. lia. Qed.

(** ** Theorems *)

(** C19: the CUIL field the code writes (lines 123-133) is the CUIL
    with the prefix the sidebar announces (lines 55-56), zero-filled to
    22, exactly when the CUIL is not blank and CUIL_APODERADO is not
    the empty string: an empty CUIL_APODERADO gets ['2'] where the
    sidebar says ['1'], and a blank CUIL gets no prefix at all. *)
Theorem instrucciones_cuil (r : fila) :
  cuil_resuelto (py_str (cuil r)) (prefijo (cuil_apoderado r)) = zfill (cuil_instrucciones r) 22
  <-> forallb py_isspace (py_str (cuil r)) = false /\ cuil_apoderado r <> Some [].
Proof.
  unfold cuil_resuelto, cuil_instrucciones. rewrite truthy_strip.
  destruct (forallb py_isspace (py_str (cuil r))); simpl.
  - split; [intros H; exfalso; exact (zfill_22_no_vacio _ (eq_sym H)) | intros [[=] _]].
  - rewrite zfill_digito_iff by (apply prefijo_digito || apply prefijo_instrucciones_digito).
    rewrite prefijo_instrucciones_iff. tauto.
Qed.

(** The two divergences on the example row: an empty CUIL_APODERADO
    and a blank CUIL. *)
Example instrucciones_cuil_divergencias :
  cuil_resuelto (py_str (cuil (fila_ejemplo None (Some []))))
    (prefijo (cuil_apoderado (fila_ejemplo None (Some []))))
  <> zfill (cuil_instrucciones (fila_ejemplo None (Some []))) 22 /\
  cuil_resuelto (lit " ") (prefijo None) = [].
Proof. split; [vm_compute; discriminate | reflexivity]. Qed.
