(* ===== verification/Registro.v ===== *)
(** * Reading the [.hab] file back: records and fields

    The bank's settlement process reads the text [procesar_archivo]
    returns (line 144) as CRLF-terminated records, and each record by
    position, [Total] characters per field in layout order (spec 4.5,
    4.6).  This file models that reader ([lineas_de], [cortar]) and
    proves the round trip on the code's own output: on a sheet whose
    values fit their fields, the text is a sequence of CRLF-terminated
    records, one per result row, and each record cut at the layout's
    [Total] widths gives back the twelve padded field strings of a
    source row (with the CUIL of the row line 116 reads).  It also
    shows what the reader gets from a batch where every row has
    CUOTA = 3: the code writes a lone CRLF (line 144), one empty
    record. *)

From Stdlib Require Import List NArith Lia String.
From stdpp Require Import base list strings.
From S2P Require Import Prelude PyStr Frame Schema Procesar RowSpec.
Import ListNotations.

(** ** The reader *)

(** Split a text at each CRLF; [acc] is the current record, reversed.
    A final record without its CRLF is kept. *)
Fixpoint lineas_acc (acc : pystr) (s : pystr) : list pystr :=
  match s with
  | [] => match acc with [] => [] | _ => [rev acc] end
  | c :: r =>
      if (c =? 13)%N then
        match r with
        | d :: r' => if (d =? 10)%N then rev acc :: lineas_acc [] r' else lineas_acc (c :: acc) r
        | [] => lineas_acc (c :: acc) r
        end
      else lineas_acc (c :: acc) r
  end.

Definition lineas_de (s : pystr) : list pystr := lineas_acc [] s.

(** Cut a record into fields of the given widths, left to right. *)
Fixpoint cortar (anchos : list nat) (l : pystr) : list pystr :=
  match anchos with
  | [] => []
  | w :: ws => firstn w l :: cortar ws (skipn w l)
  end.

Definition anchos_formato : list nat := map total (datos_formato_cliente []).

(** The twelve field strings of a line with the data of row [r] and
    the CUIL of row [c] (spec 4.3-4.4). *)
Definition campos_con_cuil (fecha : pystr) (r c : fila) : list pystr := [
  zfill (lit "013") 3;
  zfill (py_str (sucursal r)) 5;
  zfill (lit "01") 2;
  zfill (lit "3") 1;
  zfill (py_str (cuenta r)) 9;
  zfill (py_str (importe r) ++ lit "00") 18;
  zfill fecha 8;
  zfill (lit "01465") 5;
  zfill (py_str (solicitud r)) 6;
  zfill (py_str (cbu r)) 22;
  zfill (lit "00") 2;
  cuil_resuelto (py_str (cuil c)) (prefijo (cuil_apoderado c))].

(** ** Lemmas *)

(** [sep.join(ls) + sep] terminates every line with [sep] when there is
    at least one line. *)
Lemma serializar_terminadas (ls : list pystr) :
  ls <> [] -> serializar ls = concat (map (fun l => l ++ crlf) ls).
Proof.
  intros Hne. destruct ls as [|l ls]; [done|]. clear Hne. unfold serializar.
  revert l; induction ls as [|l' ls IH]; intros l; [simpl; by rewrite app_nil_r|].
  change (join crlf (l :: l' :: ls)) with (l ++ crlf ++ join crlf (l' :: ls)).
  rewrite <- !app_assoc, IH. simpl. by rewrite <- !app_assoc.
Qed.

Lemma cortar_concat (ws : list nat) (fs : list pystr) w f :
  Forall2 (fun w f => length f = w) ws fs -> length f <= w ->
  cortar (ws ++ [w]) (concat (fs ++ [f])) = fs ++ [f].
Proof.
  intros H Hf. induction H as [|w' f' ws fs Hl _ IH]; simpl.
  - rewrite app_nil_r, List.firstn_all2 by lia. reflexivity.
  - rewrite <- Hl, firstn_app, firstn_all, Nat.sub_diag, firstn_O, app_nil_r. f_equal.
    by rewrite skipn_app, skipn_all, Nat.sub_diag, skipn_O.
Qed.

Lemma zfill_ancho (s : pystr) w : length s <= w -> length (zfill s w) = w.
Proof. intros H. rewrite zfill_length. lia. Qed.

Lemma linea_con_cuil_campos (fecha : pystr) (r c : fila) :
  linea_con_cuil fecha r c = concat (campos_con_cuil fecha r c).
Proof. reflexivity. Qed.

Lemma cuil_resuelto_cabe (s : pystr) (a : cell) :
  length s <= 21 -> length (cuil_resuelto s (prefijo a)) <= 22.
Proof.
  intros Hs. rewrite cuil_resuelto_length. destruct (forallb py_isspace s); [lia|].
  rewrite length_app. destruct a as [[|]|]; simpl; lia.
Qed.

(** ** Theorems *)

(** A line of values that fit cuts back into its twelve fields. *)
Lemma cortar_linea (fecha : pystr) (r c : fila) :
  length fecha <= 8 -> cabe r = true -> cabe c = true ->
  cortar anchos_formato (linea_con_cuil fecha r c) = campos_con_cuil fecha r c.
Proof.
  intros Hf (Hs & Hc & Hi & Ho & Hb & _)%cabe_campos (_ & _ & _ & _ & _ & Hu)%cabe_campos.
  rewrite linea_con_cuil_campos.
  change anchos_formato with ([3; 5; 2; 1; 9; 18; 8; 5; 6; 22; 2] ++ [22]).
  change (campos_con_cuil fecha r c)
    with (firstn 11 (campos_con_cuil fecha r c) ++ [cuil_resuelto (py_str (cuil c)) (prefijo (cuil_apoderado c))]).
  apply cortar_concat; [|by apply cuil_resuelto_cabe].
  repeat constructor; apply zfill_ancho; rewrite ?length_app, ?lit_length; cbn [String.length]; lia.
Qed.

(** C14: round trip of the records the code writes.  On a sheet whose
    values fit their fields and an 8-character date, when at least one
    row is written, the text [procesar_archivo] returns is a sequence of
    records each terminated by CRLF (line 144), one per result row, and
    each record, cut at the [Total] widths of the layout, gives back the
    twelve zero-filled field strings of spec 4.3-4.4 for the data of a
    source row [p] and the CUIL of a source row [q] (the row line 116
    reads, C3). *)
Theorem registros_del_archivo (fecha : pystr) (rs : list fila) resultado contenido :
  length fecha <= 8 -> Forall (fun r => cabe r = true) rs ->
  procesar_archivo (hoja rs) fecha = Ok (resultado, contenido) -> nrows resultado <> 0 ->
  exists ls, contenido = concat (map (fun l => l ++ crlf) ls) /\ length ls = nrows resultado /\
    Forall (fun l => exists p q, p < length rs /\ q < length rs /\
       cortar anchos_formato l = campos_con_cuil fecha (nth p rs fila_vacia) (nth q rs fila_vacia)) ls.
Proof.
  intros Hf Hc (-> & Hn)%salida_hoja Hne. eexists. split; [|split; [done|]].
  - apply serializar_terminadas. intros He. rewrite He in Hn. done.
  - apply List.Forall_forall. intros l (p & q & Hp & Hq & ->)%lineas_hoja.
    exists p, q. split; [done | split; [done|]].
    apply cortar_linea; [done | |]; apply (proj1 (List.Forall_forall _ _) Hc), nth_In; done.
Qed.

Lemma registros_del_archivo_witness :
  Forall (fun r => cabe r = true)
    [fila_ejemplo (Some (lit "3")) None; fila_ejemplo (Some (lit "1")) None; fila_ejemplo None (Some (lit "27"))] /\
  nrows (take_rows (mascara_solicitud (hoja
      [fila_ejemplo (Some (lit "3")) None; fila_ejemplo (Some (lit "1")) None; fila_ejemplo None (Some (lit "27"))]))
      (resultado_de (hoja
      [fila_ejemplo (Some (lit "3")) None; fila_ejemplo (Some (lit "1")) None; fila_ejemplo None (Some (lit "27"))])
      (lit "20261109"))) <> 0 /\
  exists ls, serializar (lineas_emitidas (hoja
      [fila_ejemplo (Some (lit "3")) None; fila_ejemplo (Some (lit "1")) None; fila_ejemplo None (Some (lit "27"))])
      (lit "20261109")) = concat (map (fun l => l ++ crlf) ls) /\
    length ls = nrows (take_rows (mascara_solicitud (hoja
      [fila_ejemplo (Some (lit "3")) None; fila_ejemplo (Some (lit "1")) None; fila_ejemplo None (Some (lit "27"))]))
      (resultado_de (hoja
      [fila_ejemplo (Some (lit "3")) None; fila_ejemplo (Some (lit "1")) None; fila_ejemplo None (Some (lit "27"))])
      (lit "20261109"))) /\
    Forall (fun l => exists p q, p < 3 /\ q < 3 /\
       cortar anchos_formato l = campos_con_cuil (lit "20261109")
         (nth p [fila_ejemplo (Some (lit "3")) None; fila_ejemplo (Some (lit "1")) None; fila_ejemplo None (Some (lit "27"))] fila_vacia)
         (nth q [fila_ejemplo (Some (lit "3")) None; fila_ejemplo (Some (lit "1")) None; fila_ejemplo None (Some (lit "27"))] fila_vacia)) ls.
Proof.
  assert (Hc : Forall (fun r => cabe r = true)
    [fila_ejemplo (Some (lit "3")) None; fila_ejemplo (Some (lit "1")) None; fila_ejemplo None (Some (lit "27"))])
    by (repeat constructor).
  assert (Hn : nrows (take_rows (mascara_solicitud (hoja
      [fila_ejemplo (Some (lit "3")) None; fila_ejemplo (Some (lit "1")) None; fila_ejemplo None (Some (lit "27"))]))
      (resultado_de (hoja
      [fila_ejemplo (Some (lit "3")) None; fila_ejemplo (Some (lit "1")) None; fila_ejemplo None (Some (lit "27"))])
      (lit "20261109"))) <> 0) by (vm_compute; discriminate).
  split; [exact Hc | split; [exact Hn|]].
  apply (registros_del_archivo (lit "20261109") _ _ _ ltac:(vm_compute; lia) Hc); [|exact Hn].
  rewrite (procesar_archivo_resultado _ _ (hoja_wf _) (hoja_index _) (hoja_columnas _)). reflexivity.
Defined.

(** C20: a batch where every row has CUOTA = 3 (an empty sheet
    included) gives the text ["\r\n"] (line 144 appends CRLF to the
    empty join), which the reader takes as one empty record; spec 4.6
    does not say what an empty batch produces. *)
Theorem procesar_lote_vacio (fecha : pystr) (rs : list fila) :
  Forall (fun r => cuota_distinta_de_3 (cuota r) = false) rs ->
  exists resultado, procesar_archivo (hoja rs) fecha = Ok (resultado, crlf) /\ lineas_de crlf = [[]].
Proof.
  intros H. rewrite (procesar_archivo_resultado (hoja rs) fecha (hoja_wf rs) (hoja_index rs) (hoja_columnas rs)).
  pose proof (lineas_emitidas_prefijo [] rs (List.Forall_nil _) H fecha) as E. simpl in E.
  rewrite E. eexists. split; reflexivity.
Qed.

Lemma procesar_lote_vacio_witness :
  Forall (fun r => cuota_distinta_de_3 (cuota r) = false) [fila_ejemplo (Some (lit "3")) None] /\
  exists resultado, procesar_archivo (hoja [fila_ejemplo (Some (lit "3")) None]) (lit "20261109")
    = Ok (resultado, crlf) /\ lineas_de crlf = [[]].
Proof.
  assert (H : Forall (fun r => cuota_distinta_de_3 (cuota r) = false) [fila_ejemplo (Some (lit "3")) None])
    by (repeat constructor).
  split; [exact H | exact (procesar_lote_vacio (lit "20261109") _ H)].
Defined.
