(* ===== verification/Download.v ===== *)
(** * The download link: [get_download_link] (lines 149-153)

    [get_download_link content filename] encodes the text of the [.hab]
    file in latin-1 ([content.encode('latin-1')], which raises
    [UnicodeEncodeError] at the first code point above 255), encodes
    the bytes in base64 ([base64.b64encode], RFC 4648 alphabet with
    [=] padding), decodes the base64 bytes back to a [str] (ASCII, so
    code points are unchanged) and builds an HTML anchor whose [href]
    is a [data:] URL and whose [download] attribute is the file name.

    The theorems show: the call fails exactly at the first code point
    that is not latin-1; when it succeeds, the payload of the link is a
    base64 text that decodes back to the content, of length
    [4 * ceil(n/3)] for [n] bytes; the payload never contains a quote,
    so the [href] attribute ends where the payload does. *)

From Stdlib Require Import List NArith ZArith Lia Zify String.
From Stdlib Require Strings.Byte.
From stdpp Require Import base list strings.
From S2P Require Import Prelude PyStr.
Import ListNotations.
Local Open Scope N_scope.

(** ** [str.encode('latin-1')] *)

(** Encoding from position [i]: a code point below 256 is one byte,
    any other raises [UnicodeEncodeError] with its position. *)
Fixpoint encode_latin1_desde (i : nat) (s : pystr) : res (list Byte.byte) :=
  match s with
  | [] => Ok []
  | c :: r =>
      match Byte.of_N c with
      | Some b => let* bs := encode_latin1_desde (S i) r in Ok (b :: bs)
      | None => Err (UnicodeEncodeError i)
      end
  end.

Definition encode_latin1 (s : pystr) : res (list Byte.byte) := encode_latin1_desde 0 s.

(** ** [base64.b64encode] *)

(** The sextet [v < 64] as a character of the RFC 4648 alphabet
    [A-Z a-z 0-9 + /]. *)
Definition b64_alfabeto (v : N) : N :=
  if v <? 26 then 65 + v
  else if v <? 52 then 71 + v
  else if v <? 62 then v - 4
  else if v =? 62 then 43 else 47.

Definition ch_igual : N := 61.

(** Bits [k .. k+5] of the 24-bit group [n], as a character. *)
Definition sexteto (n k : N) : N := b64_alfabeto (N.land (N.shiftr n k) 63).

(** Three bytes make four characters; a final group of one or two
    bytes is padded with [=]. *)
Fixpoint b64encode (bs : list Byte.byte) : pystr :=
  match bs with
  | a :: b :: c :: rest =>
      let n := Byte.to_N a * 65536 + Byte.to_N b * 256 + Byte.to_N c in
      [sexteto n 18; sexteto n 12; sexteto n 6; sexteto n 0] ++ b64encode rest
  | [a; b] =>
      let n := Byte.to_N a * 65536 + Byte.to_N b * 256 in
      [sexteto n 18; sexteto n 12; sexteto n 6; ch_igual]
  | [a] =>
      let n := Byte.to_N a * 65536 in
      [sexteto n 18; sexteto n 12; ch_igual; ch_igual]
  | [] => []
  end.

(** ** The anchor: the f-string of line 152 *)

Definition comilla : pystr := [34].

Definition enlace (b64 filename : pystr) : pystr :=
  lit "<a href=" ++ comilla ++ lit "data:file/txt;base64," ++ b64 ++ comilla ++
  lit " download=" ++ comilla ++ filename ++ comilla ++
  lit " class=" ++ comilla ++ lit "download-link" ++ comilla ++
  lit ">Descargar archivo " ++ filename ++ lit "</a>".

(** [b64encode(content.encode('latin-1')).decode()]: the ASCII decode
    of the base64 bytes keeps every code point. *)
Definition get_download_link (content filename : pystr) : res pystr :=
  let* bs := encode_latin1 content in
  Ok (enlace (b64encode bs) filename).

(** ** The reader of the payload: a base64 decoder

    The consumer of the link (the browser) decodes the payload.  The
    decoder below reads groups of four characters; [=] may only pad the
    last group. *)

Definition b64_valor (ch : N) : option N :=
  if (65 <=? ch) && (ch <=? 90) then Some (ch - 65)
  else if (97 <=? ch) && (ch <=? 122) then Some (ch - 71)
  else if (48 <=? ch) && (ch <=? 57) then Some (ch + 4)
  else if ch =? 43 then Some 62
  else if ch =? 47 then Some 63
  else None.

Definition vacia {A} (l : list A) : bool := match l with [] => true | _ => false end.

Definition grupo (v0 v1 v2 v3 : N) : N := v0 * 262144 + v1 * 4096 + v2 * 64 + v3.

Definition bytes_de (n : N) : list N := [n / 65536 mod 256; n / 256 mod 256; n mod 256].

Fixpoint b64decode (s : pystr) : option (list N) :=
  match s with
  | [] => Some []
  | c0 :: c1 :: c2 :: c3 :: rest =>
      match b64_valor c0, b64_valor c1, b64_valor c2, b64_valor c3 with
      | Some v0, Some v1, Some v2, Some v3 =>
          option_map (fun r => bytes_de (grupo v0 v1 v2 v3) ++ r) (b64decode rest)
      | Some v0, Some v1, Some v2, None =>
          if (c3 =? ch_igual) && vacia rest
          then Some (firstn 2 (bytes_de (grupo v0 v1 v2 0))) else None
      | Some v0, Some v1, None, None =>
          if (c2 =? ch_igual) && (c3 =? ch_igual) && vacia rest
          then Some (firstn 1 (bytes_de (grupo v0 v1 0 0))) else None
      | _, _, _, _ => None
      end
  | _ => None
  end.

(** The browser's reading of the link: the text after
    the anchor opening and the [data:file/txt;base64,] scheme, up to
    the next quote, decoded. *)
Fixpoint hasta_comilla (s : pystr) : pystr :=
  match s with
  | [] => []
  | c :: r => if c =? 34 then [] else c :: hasta_comilla r
  end.

Fixpoint quitar_prefijo (p s : pystr) : option pystr :=
  match p, s with
  | [], _ => Some s
  | x :: p', y :: s' => if x =? y then quitar_prefijo p' s' else None
  | _ :: _, [] => None
  end.

Definition prefijo_href : pystr := lit "<a href=" ++ comilla ++ lit "data:file/txt;base64,".

Definition carga_util (h : pystr) : option (list N) :=
  match quitar_prefijo prefijo_href h with
  | Some r => b64decode (hasta_comilla r)
  | None => None
  end.

(** The browser's reading of the [download] attribute: after the
    [href] value, the text between the next pair of quotes. *)
Fixpoint tras_comilla (s : pystr) : pystr :=
  match s with
  | [] => []
  | c :: r => if c =? 34 then r else tras_comilla r
  end.

Definition atributo_download (h : pystr) : option pystr :=
  match quitar_prefijo prefijo_href h with
  | Some r => option_map hasta_comilla (quitar_prefijo (lit " download=" ++ comilla) (tras_comilla r))
  | None => None
  end.

(** ** Lemmas: latin-1 *)

Lemma byte_to_N_inj (x y : Byte.byte) : Byte.to_N x = Byte.to_N y -> x = y.
Proof. intros H. pose proof (Byte.of_to_N x) as Hx. rewrite H, Byte.of_to_N in Hx. congruence. Qed.

Lemma map_to_N_inj (l1 l2 : list Byte.byte) : map Byte.to_N l1 = map Byte.to_N l2 -> l1 = l2.
Proof.
  revert l2; induction l1 as [|x l1 IH]; intros [|y l2] H; simpl in H; try discriminate; auto.
  injection H as Hxy Hl. f_equal; auto using byte_to_N_inj.
Qed.

Lemma encode_latin1_desde_ok i s bs :
  encode_latin1_desde i s = Ok bs <-> Forall (fun c => c < 256) s /\ map Byte.to_N bs = s.
Proof.
  revert i bs; induction s as [|c s IH]; intros i bs; simpl.
  - split; [intros [= <-]; auto | intros [_ H]; destruct bs; simpl in *; congruence].
  - destruct (Byte.of_N c) as [b|] eqn:Hb.
    + apply Byte.to_of_N in Hb. destruct (encode_latin1_desde (S i) s) as [bs'|e] eqn:He; simpl.
      * apply IH in He as [Hf Hm]. pose proof (Byte.to_N_bounded b).
        split; [intros [= <-]; simpl; split; [constructor; [lia | exact Hf] | congruence]|].
        intros [_ Hm']. destruct bs as [|b' bs]; simpl in Hm'; [discriminate|].
        injection Hm' as Hb' Hs. f_equal. f_equal; [apply byte_to_N_inj | apply map_to_N_inj]; congruence.
      * split; [discriminate|]. intros [Hf Hm]. apply Forall_cons in Hf as [_ Hf].
        destruct bs as [|b' bs]; simpl in Hm; [discriminate|]. injection Hm as _ Hm.
        assert (encode_latin1_desde (S i) s = Ok bs) by (apply IH; auto). congruence.
    + apply Byte.of_N_None_iff in Hb. split; [discriminate|].
      intros [Hf _]. apply Forall_cons in Hf as [Hc _]. lia.
Qed.

Lemma encode_latin1_desde_err i s e :
  encode_latin1_desde i s = Err e <->
  exists j, e = UnicodeEncodeError (i + j) /\ (j < length s)%nat /\ 256 <= nth j s 0 /\
            forall k, (k < j)%nat -> nth k s 0 < 256.
Proof.
  revert i e; induction s as [|c s IH]; intros i e; simpl.
  - split; [discriminate | intros (j & _ & Hj & _); simpl in Hj; lia].
  - destruct (Byte.of_N c) as [b|] eqn:Hb.
    + apply Byte.to_of_N in Hb. pose proof (Byte.to_N_bounded b).
      destruct (encode_latin1_desde (S i) s) as [bs'|e'] eqn:He; simpl.
      * split; [discriminate|]. intros (j & -> & Hj & Hc & Hk).
        destruct j as [|j]; simpl in Hc; [lia|].
        assert (Hl : encode_latin1_desde (S i) s = Err (UnicodeEncodeError (S i + j))).
        { apply (proj2 (IH (S i) _)). exists j. repeat split; try lia. intros k Hk'. apply (Hk (S k)). lia. }
        congruence.
      * split.
        -- intros [= <-]. apply IH in He as (j & -> & Hj & Hc & Hk).
           exists (S j). repeat split; [f_equal; lia | simpl; lia | exact Hc |].
           intros [|k] Hk'; simpl; [lia | apply Hk; lia].
        -- intros (j & -> & Hj & Hc & Hk). destruct j as [|j]; simpl in Hc; [lia|].
           assert (Hl : encode_latin1_desde (S i) s = Err (UnicodeEncodeError (S i + j))).
           { apply (proj2 (IH (S i) _)). exists j. repeat split; try lia. intros k Hk'. apply (Hk (S k)). lia. }
           rewrite He in Hl. injection Hl as ->. f_equal. f_equal. lia.
    + apply Byte.of_N_None_iff in Hb. split.
      * intros [= <-]. exists 0%nat. repeat split; [f_equal; lia | simpl; lia | simpl; lia | lia].
      * intros (j & -> & Hj & Hc & Hk). destruct j as [|j]; [f_equal; f_equal; lia|].
        specialize (Hk 0%nat ltac:(lia)). simpl in Hk. lia.
Qed.

(** ** Lemmas: base64 *)

(** The recursion scheme of [b64encode]: groups of three bytes. *)
Lemma trios_ind (P : list Byte.byte -> Prop) :
  P [] -> (forall a, P [a]) -> (forall a b, P [a; b]) ->
  (forall a b c r, P r -> P (a :: b :: c :: r)) -> forall l, P l.
Proof.
  intros H0 H1 H2 H3. fix IH 1. intros [|a [|b [|c r]]].
  - exact H0.
  - exact (H1 a).
  - exact (H2 a b).
  - exact (H3 a b c r (IH r)).
Qed.


Lemma b64_valor_alfabeto v : v < 64 -> b64_valor (b64_alfabeto v) = Some v.
Proof.
  intros Hv. unfold b64_alfabeto.
  destruct (N.ltb_spec v 26); [|destruct (N.ltb_spec v 52); [|destruct (N.ltb_spec v 62);
    [|destruct (N.eqb_spec v 62)]]]; unfold b64_valor;
  repeat (match goal with
  | |- context [?a <=? ?b] => destruct (N.leb_spec a b)
  | |- context [?a =? ?b] => destruct (N.eqb_spec a b)
  end; simpl); first [lia | f_equal; lia].
Qed.

Lemma b64_valor_igual : b64_valor ch_igual = None.
Proof. reflexivity. Qed.

Lemma land_63 x : N.land x 63 = x mod 64.
Proof. change 63 with (N.ones 6). rewrite N.land_ones. reflexivity. Qed.

Lemma sexteto_valor n k : b64_valor (sexteto n k) = Some (n / 2 ^ k mod 64).
Proof.
  unfold sexteto. rewrite land_63, N.shiftr_div_pow2.
  apply b64_valor_alfabeto, N.mod_lt. discriminate.
Qed.

Lemma grupo_tres a b c : a < 256 -> b < 256 -> c < 256 ->
  let n := a * 65536 + b * 256 + c in
  bytes_de (grupo (n / 2 ^ 18 mod 64) (n / 2 ^ 12 mod 64) (n / 2 ^ 6 mod 64) (n / 2 ^ 0 mod 64))
  = [a; b; c].
Proof.
  intros Ha Hb Hc n. subst n. unfold bytes_de, grupo.
  change (2 ^ 18) with 262144. change (2 ^ 12) with 4096. change (2 ^ 6) with 64. change (2 ^ 0) with 1.
  repeat f_equal; lia_divmod.
Qed.

Lemma grupo_dos a b : a < 256 -> b < 256 ->
  let n := a * 65536 + b * 256 in
  firstn 2 (bytes_de (grupo (n / 2 ^ 18 mod 64) (n / 2 ^ 12 mod 64) (n / 2 ^ 6 mod 64) 0)) = [a; b].
Proof.
  intros Ha Hb n. subst n. unfold bytes_de, grupo. simpl firstn.
  change (2 ^ 18) with 262144. change (2 ^ 12) with 4096. change (2 ^ 6) with 64.
  repeat f_equal; lia_divmod.
Qed.

Lemma grupo_uno a : a < 256 ->
  let n := a * 65536 in
  firstn 1 (bytes_de (grupo (n / 2 ^ 18 mod 64) (n / 2 ^ 12 mod 64) 0 0)) = [a].
Proof.
  intros Ha n. subst n. unfold bytes_de, grupo. simpl firstn.
  change (2 ^ 18) with 262144. change (2 ^ 12) with 4096.
  repeat f_equal; lia_divmod.
Qed.

Lemma b64decode_b64encode bs : b64decode (b64encode bs) = Some (map Byte.to_N bs).
Proof.
  induction bs as [|a|a b|a b c r IH] using trios_ind; [reflexivity| | |];
    cbn [b64encode app b64decode]; rewrite ?sexteto_valor, ?b64_valor_igual;
    pose proof (Byte.to_N_bounded a).
  - cbn [vacia andb]. rewrite N.eqb_refl. cbn [andb]. rewrite grupo_uno by lia. reflexivity.
  - pose proof (Byte.to_N_bounded b). rewrite N.eqb_refl. cbn [andb vacia].
    rewrite grupo_dos by lia. reflexivity.
  - pose proof (Byte.to_N_bounded b). pose proof (Byte.to_N_bounded c).
    rewrite IH. cbn [option_map]. rewrite grupo_tres by lia. reflexivity.
Qed.

Lemma length_b64encode bs : length (b64encode bs) = (4 * ((length bs + 2) / 3))%nat.
Proof.
  induction bs as [|a|a b|a b c r IH] using trios_ind; try reflexivity.
  cbn [b64encode length app]. rewrite IH.
  replace (S (S (S (length r))) + 2)%nat with (1 * 3 + (length r + 2))%nat by lia.
  rewrite Nat.div_add_l by lia. lia.
Qed.

(** Every character of a base64 text is of the alphabet or [=]. *)
Lemma b64encode_caracteres bs c :
  In c (b64encode bs) -> b64_valor c <> None \/ c = ch_igual.
Proof.
  assert (Hs : forall n k, b64_valor (sexteto n k) <> None) by (intros; rewrite sexteto_valor; discriminate).
  induction bs as [|a|a b|a b c' r IH] using trios_ind; cbn [b64encode In app];
    intros Hin; try contradiction;
    repeat (destruct Hin as [<-|Hin]; [auto|]); first [contradiction | auto].
Qed.

Lemma b64encode_sin_comilla bs : ~ In 34 (b64encode bs).
Proof. intros Hin. apply b64encode_caracteres in Hin as [H|H]; [apply H; reflexivity | discriminate]. Qed.

Lemma quitar_prefijo_app p s : quitar_prefijo p (p ++ s) = Some s.
Proof. induction p as [|x p IH]; simpl; [reflexivity|]. rewrite N.eqb_refl. exact IH. Qed.

Lemma hasta_comilla_app p s : ~ In 34 p -> hasta_comilla (p ++ 34 :: s) = p.
Proof.
  induction p as [|x p IH]; intros Hn; simpl; [reflexivity|].
  destruct (N.eqb_spec x 34) as [->|Hx]; [simpl in Hn; tauto|].
  rewrite IH; [reflexivity|]. simpl in Hn. tauto.
Qed.

Lemma encode_latin1_total s :
  Forall (fun c => c < 256) s -> exists bs, encode_latin1 s = Ok bs /\ map Byte.to_N bs = s.
Proof.
  intros Hf. unfold encode_latin1. destruct (encode_latin1_desde 0 s) as [bs|e] eqn:He.
  - exists bs. split; [reflexivity|]. apply encode_latin1_desde_ok in He. tauto.
  - apply encode_latin1_desde_err in He as (j & _ & Hj & Hc & _).
    rewrite List.Forall_forall in Hf. specialize (Hf (nth j s 0) (nth_In s 0 Hj)). lia.
Qed.

(** The anchor starts with the [href] prefix, then the payload and a quote. *)
Lemma enlace_forma p f :
  enlace p f = prefijo_href ++ p ++ 34 :: lit " download=" ++ comilla ++ f ++ comilla ++
    lit " class=" ++ comilla ++ lit "download-link" ++ comilla ++
    lit ">Descargar archivo " ++ f ++ lit "</a>".
Proof. reflexivity. Qed.

Lemma tras_comilla_app p s : ~ In 34 p -> tras_comilla (p ++ 34 :: s) = s.
Proof.
  induction p as [|x p IH]; intros Hn; simpl; [reflexivity|].
  destruct (N.eqb_spec x 34) as [->|Hx]; [simpl in Hn; tauto|]. apply IH. simpl in Hn. tauto.
Qed.

Lemma hasta_comilla_corta f s : hasta_comilla (f ++ 34 :: s) = hasta_comilla f.
Proof.
  induction f as [|x f IH]; simpl; [reflexivity|].
  destruct (x =? 34); [reflexivity | by rewrite IH].
Qed.

(** ** Theorems *)

(** C15: [get_download_link] raises exactly when the content has a code
    point above 255, and the error names the first such position. *)
Theorem get_download_link_error (content filename : pystr) (e : pyerr) :
  get_download_link content filename = Err e <->
  exists j, e = UnicodeEncodeError j /\ (j < length content)%nat /\
            256 <= nth j content 0 /\ forall k, (k < j)%nat -> nth k content 0 < 256.
Proof.
  unfold get_download_link, encode_latin1.
  transitivity (encode_latin1_desde 0 content = Err e); [|apply encode_latin1_desde_err].
  destruct (encode_latin1_desde 0 content); simpl; split; congruence.
Qed.

(** C11: for a latin-1 content, [get_download_link] succeeds, the link
    read up to the quote that closes [href] carries a base64 payload
    that decodes to the content, and the payload has [4 * ceil(n/3)]
    characters for [n] characters of content. *)
Theorem get_download_link_carga (content filename : pystr) :
  Forall (fun c => c < 256) content ->
  exists h p, get_download_link content filename = Ok h /\ carga_util h = Some content /\
    b64decode p = Some content /\ h = enlace p filename /\
    length p = (4 * ((length content + 2) / 3))%nat.
Proof.
  intros Hf. destruct (encode_latin1_total content Hf) as (bs & He & Hm).
  exists (enlace (b64encode bs) filename), (b64encode bs).
  unfold get_download_link. rewrite He. simpl.
  rewrite b64decode_b64encode, Hm, length_b64encode, <- Hm, length_map. repeat split; try reflexivity.
  unfold carga_util. rewrite enlace_forma, quitar_prefijo_app, hasta_comilla_app
    by apply b64encode_sin_comilla.
  rewrite b64decode_b64encode, Hm. reflexivity.
Qed.

Lemma get_download_link_carga_witness :
  Forall (fun c => c < 256) (lit "013") /\
  exists h p, get_download_link (lit "013") (lit "deposito.hab") = Ok h /\
    carga_util h = Some (lit "013") /\ b64decode p = Some (lit "013") /\
    h = enlace p (lit "deposito.hab") /\ length p = (4 * ((length (lit "013") + 2) / 3))%nat.
Proof.
  split; [repeat constructor; vm_compute; reflexivity|].
  apply get_download_link_carga. repeat constructor; vm_compute; reflexivity.
Defined.

(** C22: the file name goes into the anchor unescaped (line 152): the
    browser takes as the [download] name the part of the name before
    its first double quote, so a name holding a quote is not the name
    the file is saved under (and the rest leaks into the markup). *)
Theorem get_download_link_nombre (content filename h : pystr) :
  get_download_link content filename = Ok h -> atributo_download h = Some (hasta_comilla filename).
Proof.
  unfold get_download_link. destruct (encode_latin1 content) as [bs|e]; simpl; [|discriminate].
  intros [= <-]. unfold atributo_download.
  rewrite enlace_forma, quitar_prefijo_app, tras_comilla_app by apply b64encode_sin_comilla.
  rewrite app_assoc, quitar_prefijo_app. simpl. unfold comilla. by rewrite hasta_comilla_corta.
Qed.

Lemma get_download_link_nombre_witness :
  get_download_link (lit "013") (lit "a" ++ comilla ++ lit "b.hab") = Ok (enlace (lit "MDEz") (lit "a" ++ comilla ++ lit "b.hab")) /\
  atributo_download (enlace (lit "MDEz") (lit "a" ++ comilla ++ lit "b.hab")) = Some (lit "a").
Proof.
  assert (H : get_download_link (lit "013") (lit "a" ++ comilla ++ lit "b.hab")
              = Ok (enlace (lit "MDEz") (lit "a" ++ comilla ++ lit "b.hab"))) by (vm_compute; reflexivity).
  split; [exact H|]. rewrite (get_download_link_nombre _ _ _ H). reflexivity.
Defined.
