(* ===== verification/Session.v ===== *)
(** * The Streamlit page: session state across reruns (lines 155-275)

    Streamlit re-executes the whole script on every interaction.  What
    survives a rerun is [st.session_state] (initialised once, lines
    155-169) and the value of each widget; a widget's [on_change]
    callback runs before the rerun when its value changed.  Both the
    file uploader and the date picker call [reiniciar_procesamiento]
    (lines 172-175).

    [sesion] is [st.session_state] plus the uploader's current file;
    [entrada] is what the user set on the page before a rerun (file,
    date, whether "Procesar datos" was clicked, the text of the file
    name box); [ejecutar leer s w] is one rerun: the callbacks, then
    the script body from line 178 to 275, returning the new state and
    the messages the page shows, in order.  The Excel reader
    ([pd.read_excel], line 201) is a parameter [leer] of the section.

    The theorems show, for every state reachable from the initial one:
    the file name always ends in [.hab]; a link is only shown for the
    processing of the file and date currently on the page, and its
    payload decodes to that [.hab] content; after a change of file or
    date without a click nothing processed is shown.  Two concrete runs
    exhibit what the page reports for the example sheet (the summary
    does not add up) and for content outside latin-1 (reported as an
    Excel read error, with the processed flag kept). *)

From Stdlib Require Import List NArith Lia String.
From stdpp Require Import base list strings decidable.
From S2P Require Import Prelude PyStr Frame Schema Procesar RowSpec Download.
Import ListNotations.

(** The date is kept as [fecha.strftime('%Y%m%d')]: the code uses the
    date only through that format (lines 192, 226, 231). *)
Record sesion (A : Type) := mkSesion {
  lote_df : option frame;
  fecha : pystr;
  resultado_df : option frame;
  contenido_hab_s : option pystr;
  nombre_archivo : pystr;
  procesado : bool;
  error : option pyerr;
  archivo_cargado : option A
}.
Arguments mkSesion {A}.
Arguments lote_df {A}. Arguments fecha {A}. Arguments resultado_df {A}.
Arguments contenido_hab_s {A}. Arguments nombre_archivo {A}. Arguments procesado {A}.
Arguments error {A}. Arguments archivo_cargado {A}.

Record entrada (A : Type) := mkEntrada {
  archivo : option A;
  fecha_elegida : pystr;
  boton_procesar : bool;
  nombre_escrito : pystr
}.
Arguments mkEntrada {A}.
Arguments archivo {A}. Arguments fecha_elegida {A}.
Arguments boton_procesar {A}. Arguments nombre_escrito {A}.

(** Two uploads are told apart by content in the concrete runs below. *)
#[export] Instance frame_eq_dec : EqDecision frame.
Proof.
  intros [i1 c1] [i2 c2]. destruct (decide (i1 = i2)) as [->|Hi];
    [destruct (decide (c1 = c2)) as [->|Hc]|]; [left; reflexivity | right; congruence | right; congruence].
Defined.

#[export] Instance pyerr_eq_dec : EqDecision pyerr.
Proof. solve_decision. Defined.

(** What the page shows, in order. *)
Inductive aviso :=
| ErrorLectura (e : pyerr)
| ColumnasFaltantes (cols : list string)
| CargaExitosa (n : nat)
| ErrorProceso (e : pyerr)
| ProcesoExitoso (n : nat)
| Resumen (total excluidos procesados apoderado_nulo apoderado_no_nulo : nat)
| Enlace (href : pystr).

#[export] Instance aviso_eq_dec : EqDecision aviso.
Proof. solve_decision. Defined.

(** ** Lines 155-169: the state on the first run; [hoy] is
    [datetime.now()] formatted. *)
Definition estado_inicial {A} (hoy : pystr) : sesion A :=
  mkSesion None hoy None None (lit "deposito.hab") false None None.

(** Lines 172-175. *)
Definition reiniciar_procesamiento {A} (s : sesion A) : sesion A :=
  mkSesion (lote_df s) (fecha s) None None (nombre_archivo s) false (error s) (archivo_cargado s).

(** [s.endswith(suf)]. *)
Definition termina_en (s suf : pystr) : bool :=
  (length suf <=? length s)%nat && bool_decide (drop (length s - length suf) s = suf).

(** Lines 256-260: a name typed in the box replaces the stored one,
    with [.hab] appended when it does not end so. *)
Definition renombrar {A} (s : sesion A) (nuevo : pystr) : sesion A :=
  if bool_decide (nuevo = nombre_archivo s) then s
  else mkSesion (lote_df s) (fecha s) (resultado_df s) (contenido_hab_s s)
         (if termina_en nuevo (lit ".hab") then nuevo else nuevo ++ lit ".hab")
         (procesado s) (error s) (archivo_cargado s).

(** Lines 248-252: the summary.  [df['CUOTA'] == '3'] is false on NaN,
    and [isna] counts the NaN cells of CUIL_APODERADO. *)
Definition contar {B} (p : B -> bool) (l : list B) : nat := length (List.filter p l).

Definition es_tres (c : cell) : bool := bool_decide (c = Some (lit "3")).

Definition columna (df : frame) (c : string) : list cell :=
  match col_lookup (fcols df) c with Some v => v | None => [] end.

Definition resumen (lote resultado : frame) : aviso :=
  let total := nrows lote in
  let nulos := contar (fun c => negb (notna c)) (columna lote "CUIL_APODERADO") in
  Resumen total (contar es_tres (columna lote "CUOTA"))
    (nrows resultado) nulos (total - nulos).

(** Lines 222-237: the click on "Procesar datos", on the frame just
    stored in [lote_df] and the date of the page. *)
Definition procesar_boton {A} (s : sesion A) (df : frame) (f : pystr) : sesion A * list aviso :=
  match procesar_archivo df f with
  | Ok (r, c) =>
      (mkSesion (lote_df s) (fecha s) (Some r) (Some c) (lit "deposito_" ++ f ++ lit ".hab")
                true None (archivo_cargado s), [])
  | Err e =>
      (mkSesion (lote_df s) (fecha s) (resultado_df s) (contenido_hab_s s) (nombre_archivo s)
                (procesado s) (Some e) (archivo_cargado s), [ErrorProceso e])
  end.

(** Lines 240-272: the results shown once the data are processed.  An
    exception of [get_download_link], or the [TypeError] of [len(None)]
    when a field is still [None], reaches the handler of lines
    273-274. *)
Definition mostrar_resultados {A} (s : sesion A) (nuevo : pystr) : sesion A * list aviso :=
  match lote_df s, resultado_df s, contenido_hab_s s with
  | Some lote, Some r, Some c =>
      let s' := renombrar s nuevo in
      let avisos := [ProcesoExitoso (nrows r); resumen lote r] in
      match get_download_link c (nombre_archivo s') with
      | Ok h => (s', avisos ++ [Enlace h])
      | Err e => (s', avisos ++ [ErrorLectura e])
      end
  | _, _, _ => (s, [ErrorLectura TypeError])
  end.

Section Pagina.
Context {A : Type} `{EqDecision A} (leer : A -> res frame).

(** One rerun: the [on_change] callbacks of the uploader and the date
    picker (each calls [reiniciar_procesamiento] when its value
    changed), line 191 ([st.session_state.fecha = fecha]), then the
    body under [if uploaded_file is not None] (lines 198-274). *)
Definition ejecutar (s : sesion A) (w : entrada A) : sesion A * list aviso :=
  let s0 := if bool_decide (archivo w = archivo_cargado s /\ fecha_elegida w = fecha s)
            then s else reiniciar_procesamiento s in
  let s1 := mkSesion (lote_df s0) (fecha_elegida w) (resultado_df s0) (contenido_hab_s s0)
              (nombre_archivo s0) (procesado s0) (error s0) (archivo w) in
  match archivo w with
  | None => (s1, [])
  | Some a =>
      match leer a with
      | Err e => (s1, [ErrorLectura e])
      | Ok df =>
          if bool_decide (columnas_faltantes df = []) then
            let s2 := mkSesion (Some df) (fecha s1) (resultado_df s1) (contenido_hab_s s1)
                        (nombre_archivo s1) (procesado s1) (error s1) (archivo_cargado s1) in
            let '(s3, av1) := if boton_procesar w then procesar_boton s2 df (fecha s1) else (s2, []) in
            if procesado s3 && bool_decide (error s3 = None) then
              let '(s4, av2) := mostrar_resultados s3 (nombre_escrito w) in
              (s4, CargaExitosa (nrows df) :: av1 ++ av2)
            else (s3, CargaExitosa (nrows df) :: av1)
          else (s1, [ColumnasFaltantes (columnas_faltantes df)])
      end
  end.

(** The states the page can be in. *)
Inductive alcanzable (hoy : pystr) : sesion A -> Prop :=
| alc_inicio : alcanzable hoy (estado_inicial hoy)
| alc_paso s w : alcanzable hoy s -> alcanzable hoy (fst (ejecutar s w)).

(** The processed data are those of the file and date on the page. *)
Definition coherente (s : sesion A) : Prop :=
  procesado s = true -> exists a l r c,
    archivo_cargado s = Some a /\ leer a = Ok l /\ lote_df s = Some l /\
    resultado_df s = Some r /\ contenido_hab_s s = Some c /\
    procesar_archivo l (fecha s) = Ok (r, c) /\ error s = None.

End Pagina.

(** ** Concrete runs: the first run of the page on a sheet, with
    "Procesar datos" clicked and the proposed file name kept. *)

Definition hoy_ejemplo : pystr := lit "20261109".

Definition entrada_ejemplo (df : frame) : entrada frame :=
  mkEntrada (Some df) hoy_ejemplo true (lit "deposito_20261109.hab").

Definition corrida (df : frame) : sesion frame * list aviso :=
  ejecutar Ok (estado_inicial hoy_ejemplo) (entrada_ejemplo df).

(** The link the page shows on [hoja_ejemplo]. *)
Definition enlace_ejemplo : pystr :=
  match List.last (snd (corrida hoja_ejemplo)) (CargaExitosa 0) with Enlace h => h | _ => [] end.

(** A sheet whose CBU holds an en dash (U+2013), which latin-1 lacks. *)
Definition hoja_no_latin1 : frame :=
  hoja [mkFila (Some (lit "12")) (Some (lit "345")) (Some (lit "10")) (Some (lit "777"))
               (Some (lit "01" ++ [8211%N])) (Some (lit "1")) (Some (lit "20123456789")) None].

(** A sheet whose first row has CUOTA = 3, every row with a SOLICITUD. *)
Definition hoja_cuota_primero : frame :=
  hoja [fila_ejemplo (Some (lit "3")) None; fila_ejemplo (Some (lit "1")) None;
        fila_ejemplo None (Some (lit "27"))].

(** ** Lemmas *)

Lemma get_download_link_Ok c f h :
  get_download_link c f = Ok h -> carga_util h = Some c.
Proof.
  unfold get_download_link. destruct (encode_latin1 c) as [bs|e] eqn:He; simpl; [|discriminate].
  intros [= <-]. apply encode_latin1_desde_ok in He as [_ Hm].
  unfold carga_util. rewrite enlace_forma, quitar_prefijo_app, hasta_comilla_app
    by apply b64encode_sin_comilla.
  rewrite b64decode_b64encode, Hm. reflexivity.
Qed.

Lemma procesar_boton_sin_enlace {A} (s : sesion A) df f h :
  ~ In (Enlace h) (snd (procesar_boton s df f)).
Proof. unfold procesar_boton. destruct (procesar_archivo df f) as [[r c]|e]; simpl; intuition discriminate. Qed.

Lemma mostrar_enlace {A} (s : sesion A) n h :
  In (Enlace h) (snd (mostrar_resultados s n)) ->
  exists c, contenido_hab_s s = Some c /\ get_download_link c (nombre_archivo (renombrar s n)) = Ok h.
Proof.
  unfold mostrar_resultados.
  destruct (lote_df s), (resultado_df s), (contenido_hab_s s) as [c|]; simpl; try (intros [Hx|Hx]; [discriminate | contradiction]).
  destruct (get_download_link c _) as [h'|e] eqn:E; simpl; intuition try discriminate.
  exists c. split; congruence.
Qed.

(** Membership in a computed list, decided by evaluation. *)
Lemma In_por_calculo {B} `{EqDecision B} (x : B) (l : list B) : bool_decide (x ∈ l) = true -> In x l.
Proof. intros H. apply list_elem_of_In. exact (bool_decide_eq_true_1 _ H). Qed.

Lemma latin1_de_bool (c : pystr) : forallb (fun x => (x <? 256)%N) c = true -> Forall (fun x => x < 256)%N c.
Proof.
  intros H. apply List.Forall_forall. intros x Hx.
  apply (proj1 (forallb_forall _ _) H) in Hx. by apply N.ltb_lt.
Qed.

Lemma cuota_distinta_es_tres (c : cell) : cuota_distinta_de_3 c = negb (es_tres c).
Proof. unfold cuota_distinta_de_3, es_tres. destruct c as [s|]; [|done]. by repeat case_bool_decide; simplify_eq. Qed.

Lemma mask_filter_contar {B} (p : cell -> bool) (v : list cell) (xs : list B) :
  length v = length xs -> length (mask_filter (map p v) xs) = contar p v.
Proof.
  unfold contar. revert xs; induction v as [|c v IH]; intros [|x xs] Hl; simpl in *; try lia.
  destruct (p c); simpl; rewrite (IH xs) by lia; lia.
Qed.

Lemma contar_complemento (p : cell -> bool) (v : list cell) :
  contar p v + contar (fun c => negb (p c)) v = length v.
Proof. unfold contar. induction v as [|c v IH]; simpl; [done|]. destruct (p c); simpl; lia. Qed.

(** The mask of line 91 read off the CUOTA column. *)
Lemma mascara_cuota_columna (df : frame) v :
  col_lookup (fcols df) "CUOTA" = Some v -> length v = nrows df ->
  mascara_cuota df = map (fun c => negb (es_tres c)) v.
Proof.
  intros Hc Hl. unfold mascara_cuota, celda. rewrite Hc, <- Hl, (map_nth_seq_length cuota_distinta_de_3 v None).
  apply map_ext. apply cuota_distinta_es_tres.
Qed.

Lemma filter_map_S_length (h : nat -> bool) (l : list nat) :
  length (List.filter h (map S l)) = length (List.filter (fun p => h (S p)) l).
Proof. induction l as [|p l IH]; simpl; [done|]. destruct (h (S p)); simpl; lia. Qed.

(** The positions below [k] whose mask bit is set, counted. *)
Lemma contar_take {B} (g : B -> bool) (v : list B) k :
  length (List.filter (fun p => nth p (map g v) false) (seq 0 k)) = contar g (take k v).
Proof.
  unfold contar. revert k; induction v as [|x v IH]; intros k.
  - rewrite take_nil. simpl. induction (seq 0 k) as [|p ps IHp]; [done|]. by destruct p.
  - destruct k as [|k]; [done|]. cbn [seq take]. rewrite <- seq_shift.
    transitivity ((if g x then 1 else 0) + length (List.filter (fun p => nth p (map g v) false) (seq 0 k))).
    + cbn [List.filter nth map]. destruct (g x); cbn [length]; rewrite filter_map_S_length; reflexivity.
    + rewrite IH. cbn [List.filter]. by destruct (g x).
Qed.

Lemma termina_en_app s suf : termina_en (s ++ suf) suf = true.
Proof.
  unfold termina_en. rewrite length_app, Nat.add_sub, drop_app_length.
  apply andb_true_intro. split; [apply Nat.leb_le; lia | by apply bool_decide_eq_true].
Qed.

Lemma termina_en_hab_deposito f : termina_en (lit "deposito_" ++ f ++ lit ".hab") (lit ".hab") = true.
Proof. rewrite app_assoc. apply termina_en_app. Qed.

Lemma renombrar_termina {A} (s : sesion A) n :
  termina_en (nombre_archivo s) (lit ".hab") = true ->
  termina_en (nombre_archivo (renombrar s n)) (lit ".hab") = true.
Proof.
  unfold renombrar. case_bool_decide; [auto|]. simpl.
  destruct (termina_en n (lit ".hab")) eqn:E; auto using termina_en_app.
Qed.

Lemma procesar_boton_campos {A} (s : sesion A) df f :
  archivo_cargado (fst (procesar_boton s df f)) = archivo_cargado s /\
  fecha (fst (procesar_boton s df f)) = fecha s.
Proof. unfold procesar_boton. destruct (procesar_archivo df f) as [[r c]|e]; auto. Qed.

Lemma boton_s3 {A} (s2 : sesion A) df f (b : bool) s3 av1 :
  (if b then procesar_boton s2 df f else (s2, [])) = (s3, av1) ->
  (s3 = s2 /\ av1 = []) \/ (s3 = fst (procesar_boton s2 df f) /\ av1 = snd (procesar_boton s2 df f)).
Proof. destruct b; intros E; [right; rewrite E; auto | left; injection E as <- <-; auto]. Qed.

Section Invariantes.
Context {A : Type} `{EqDecision A} (leer : A -> res frame).

(** The fields a rerun leaves alone unless a branch below sets them. *)
Lemma ejecutar_casos (P : sesion A -> Prop) (s : sesion A) (w : entrada A) :
  (forall s', P s' -> P (reiniciar_procesamiento s')) ->
  (forall s' lote f arch, P s' -> P (mkSesion lote f (resultado_df s') (contenido_hab_s s')
                                    (nombre_archivo s') (procesado s') (error s') arch)) ->
  (forall s' df f, P s' -> P (fst (procesar_boton s' df f))) ->
  (forall s' n, P s' -> P (fst (mostrar_resultados s' n))) ->
  P s -> P (fst (ejecutar leer s w)).
Proof.
  intros Hr Hm Hp Hs HP. unfold ejecutar.
  set (s0 := if bool_decide _ then s else _).
  assert (H0 : P s0) by (unfold s0; case_bool_decide; auto).
  destruct (archivo w) as [a|]; [|apply Hm; exact H0].
  destruct (leer a) as [df|e]; [|apply Hm; exact H0].
  case_bool_decide; [|apply Hm; exact H0].
  destruct (if boton_procesar w then _ else _) as [s3 av1] eqn:E3.
  assert (H3 : P s3).
  { change s3 with (fst (s3, av1)). rewrite <- E3.
    destruct (boton_procesar w); [apply Hp|]; apply Hm, Hm, H0. }
  destruct (procesado s3 && _); [|exact H3].
  destruct (mostrar_resultados s3 _) as [s4 av2] eqn:E4.
  change s4 with (fst (s4, av2)). rewrite <- E4. apply Hs. exact H3.
Qed.

Lemma coherente_inicial hoy : coherente leer (estado_inicial hoy).
Proof. discriminate. Qed.

Lemma coherente_s1 (s0 : sesion A) (w : entrada A) :
  coherente leer s0 ->
  (procesado s0 = true -> archivo w = archivo_cargado s0 /\ fecha_elegida w = fecha s0) ->
  coherente leer (mkSesion (lote_df s0) (fecha_elegida w) (resultado_df s0) (contenido_hab_s s0)
                     (nombre_archivo s0) (procesado s0) (error s0) (archivo w)).
Proof. intros Hc Hw Hp. simpl in Hp. destruct (Hw Hp) as [-> ->]. exact (Hc Hp). Qed.

Lemma coherente_s2 (s1 : sesion A) a df :
  coherente leer s1 -> archivo_cargado s1 = Some a -> leer a = Ok df ->
  coherente leer (mkSesion (Some df) (fecha s1) (resultado_df s1) (contenido_hab_s s1)
                     (nombre_archivo s1) (procesado s1) (error s1) (archivo_cargado s1)).
Proof.
  intros Hc Ha Hl Hp. destruct (Hc Hp) as (a' & l & r & c & Ha' & Hl' & _ & Hrest).
  rewrite Ha in Ha'. injection Ha' as <-. rewrite Hl in Hl'. injection Hl' as <-.
  exists a, df, r, c. simpl. auto.
Qed.

Lemma coherente_boton (s2 : sesion A) a df :
  coherente leer s2 -> archivo_cargado s2 = Some a -> leer a = Ok df -> lote_df s2 = Some df ->
  coherente leer (fst (procesar_boton s2 df (fecha s2))).
Proof.
  intros Hc Ha Hl Hd. unfold procesar_boton.
  destruct (procesar_archivo df (fecha s2)) as [[r c]|e] eqn:Hpa; simpl; intros Hp.
  - exists a, df, r, c. repeat split; auto.
  - destruct (Hc Hp) as (a' & l & r & c & _ & _ & Hd' & _ & _ & Hproc & _).
    rewrite Hd in Hd'. injection Hd' as <-. congruence.
Qed.

Lemma coherente_mostrar (s : sesion A) n :
  coherente leer s -> coherente leer (fst (mostrar_resultados s n)).
Proof.
  intros Hc. unfold mostrar_resultados.
  destruct (lote_df s), (resultado_df s), (contenido_hab_s s); simpl; auto.
  assert (Hr : coherente leer (renombrar s n)).
  { unfold renombrar. case_bool_decide; [exact Hc|]. exact Hc. }
  destruct (get_download_link _ _); exact Hr.
Qed.

Lemma ejecutar_coherente (s : sesion A) (w : entrada A) :
  coherente leer s -> coherente leer (fst (ejecutar leer s w)).
Proof.
  intros Hc. unfold ejecutar.
  set (s0 := if bool_decide _ then s else _).
  assert (Hc0 : coherente leer s0)
    by (unfold s0; case_bool_decide; [exact Hc | intros Hp; discriminate Hp]).
  assert (Hw0 : procesado s0 = true -> archivo w = archivo_cargado s0 /\ fecha_elegida w = fecha s0)
    by (unfold s0; case_bool_decide as Hd; [intros _; exact Hd | intros Hp; discriminate Hp]).
  pose proof (coherente_s1 s0 w Hc0 Hw0) as H1.
  destruct (archivo w) as [a|] eqn:Ha; [|exact H1].
  destruct (leer a) as [df|e] eqn:Hl; [|exact H1].
  case_bool_decide; [|exact H1].
  pose proof (coherente_s2 _ a df H1 eq_refl Hl) as H2.
  destruct (if boton_procesar w then _ else _) as [s3 av1] eqn:E3.
  assert (H3 : coherente leer s3).
  { change s3 with (fst (s3, av1)). rewrite <- E3.
    destruct (boton_procesar w); [exact (coherente_boton _ a df H2 eq_refl Hl eq_refl) | exact H2]. }
  destruct (procesado s3 && _); [|exact H3].
  destruct (mostrar_resultados s3 _) as [s4 av2] eqn:E4.
  change s4 with (fst (s4, av2)). rewrite <- E4. apply coherente_mostrar, H3.
Qed.

Lemma alcanzable_coherente hoy (s : sesion A) :
  alcanzable leer hoy s -> coherente leer s.
Proof.
  induction 1 as [|s w _ IH]; [apply coherente_inicial | apply ejecutar_coherente, IH].
Qed.

(** A link on the page comes from [mostrar_resultados] on a processed
    state of the current file and date. *)
Lemma ejecutar_enlace (s : sesion A) (w : entrada A) h :
  coherente leer s -> In (Enlace h) (snd (ejecutar leer s w)) ->
  exists s3, coherente leer s3 /\ procesado s3 = true /\ archivo_cargado s3 = archivo w /\
    fecha s3 = fecha_elegida w /\ In (Enlace h) (snd (mostrar_resultados s3 (nombre_escrito w))).
Proof.
  intros Hc. unfold ejecutar.
  set (s0 := if bool_decide _ then s else _).
  assert (Hc0 : coherente leer s0)
    by (unfold s0; case_bool_decide; [exact Hc | intros Hp; discriminate Hp]).
  assert (Hw0 : procesado s0 = true -> archivo w = archivo_cargado s0 /\ fecha_elegida w = fecha s0)
    by (unfold s0; case_bool_decide as Hd; [intros _; exact Hd | intros Hp; discriminate Hp]).
  pose proof (coherente_s1 s0 w Hc0 Hw0) as H1.
  destruct (archivo w) as [a|] eqn:Ha; [|simpl; tauto].
  destruct (leer a) as [df|e] eqn:Hl; [|simpl; intuition discriminate].
  case_bool_decide; [|simpl; intuition discriminate].
  pose proof (coherente_s2 _ a df H1 eq_refl Hl) as H2.
  destruct (if boton_procesar w then _ else _) as [s3 av1] eqn:E3.
  assert (H3 : coherente leer s3 /\ archivo_cargado s3 = Some a /\ fecha s3 = fecha_elegida w /\
               forall h, ~ In (Enlace h) av1).
  { destruct (boton_s3 _ _ _ _ _ _ E3) as [[-> ->]|[-> ->]].
    - simpl. repeat split; auto.
    - split; [exact (coherente_boton _ a df H2 eq_refl Hl eq_refl)|].
      rewrite (proj1 (procesar_boton_campos _ _ _)), (proj2 (procesar_boton_campos _ _ _)).
      repeat split. intros h'. apply procesar_boton_sin_enlace. }
  destruct H3 as (H3 & Ha3 & Hf3 & Hn1).
  destruct (procesado s3) eqn:Hp3; simpl; [|intros [Hx|Hx]; [discriminate | exfalso; eapply Hn1, Hx]].
  destruct (bool_decide (error s3 = None)); simpl; [|intros [Hx|Hx]; [discriminate | exfalso; eapply Hn1, Hx]].
  destruct (mostrar_resultados s3 _) as [s4 av2] eqn:E4. simpl.
  intros [Hx|Hx]; [discriminate|]. apply in_app_iff in Hx as [Hx|Hx]; [exfalso; eapply Hn1, Hx|].
  exists s3. rewrite E4. repeat split; auto.
Qed.
End Invariantes.

(** ** Theorems *)

(** C23: on a frame read from a sheet with a CUOTA column, the count
    the summary shows as excluded ([CUOTA == '3'], line 249) and the
    rows the filter of line 91 keeps ([CUOTA != '3']) add up to the
    total of line 248: NaN counts as kept, never as excluded. *)
Theorem resumen_excluidos (df resultado : frame) v :
  frame_wf df -> col_lookup (fcols df) "CUOTA" = Some v ->
  exists n m, resumen df resultado
    = Resumen (nrows df) (nrows df - length (conservadas df)) (nrows resultado) n m.
Proof.
  intros Hwf Hc. pose proof (wf_col_length _ _ _ Hwf Hc) as Hl.
  assert (Hk : length (conservadas df) = contar (fun c => negb (es_tres c)) v).
  { unfold conservadas, mascara_cuota, celda. rewrite Hc, <- Hl.
    rewrite (map_nth_seq_length cuota_distinta_de_3 v None), mask_filter_contar by (by rewrite length_seq).
    unfold contar. f_equal. apply filter_ext. intros c. apply cuota_distinta_es_tres. }
  pose proof (contar_complemento es_tres v) as Hsum.
  assert (Hv : columna df "CUOTA" = v) by (unfold columna; by rewrite Hc).
  eexists _, _. unfold resumen. rewrite Hv. f_equal. lia.
Qed.

(** C21: the processed count of the summary (line 250) falls short of
    the total minus the excluded rows by the number of CUOTA = 3 rows
    among the first (total - excluded) rows of the sheet.  Those rows
    shift the labels the result is built on (lines 106 and 109): the
    kept rows whose label is not below the number of kept rows get NaN
    in SOLICITUD and line 136 drops them.  The counts add up exactly
    when every CUOTA = 3 row comes after the rows that are kept. *)
Theorem resumen_procesados (df resultado : frame) (fecha contenido : pystr) :
  frame_wf df -> findex df = seq 0 (nrows df) -> columnas_faltantes df = [] ->
  procesar_archivo df fecha = Ok (resultado, contenido) ->
  exists n m, resumen df resultado
    = Resumen (nrows df) (contar es_tres (columna df "CUOTA"))
        (nrows df - contar es_tres (columna df "CUOTA")
         - contar es_tres (take (nrows df - contar es_tres (columna df "CUOTA")) (columna df "CUOTA"))) n m.
Proof.
  intros Hwf Hidx Hcols Hp.
  assert (Hhas : has_column df "CUOTA" = true) by (apply faltantes_nil_has; [done | simpl; tauto]).
  unfold has_column in Hhas. destruct (col_lookup (fcols df) "CUOTA") as [v|] eqn:Hc; [|discriminate].
  pose proof (wf_col_length _ _ _ Hwf Hc) as Hl.
  assert (Hv : columna df "CUOTA" = v) by (unfold columna; by rewrite Hc). rewrite Hv.
  rewrite procesar_archivo_resultado in Hp by done. injection Hp as <- _.
  assert (Hn : nrows (take_rows (mascara_solicitud df) (resultado_de df fecha)) = length (lineas_emitidas df fecha))
    by (rewrite <- (contenido_resultado df fecha Hwf Hidx Hcols); symmetry; apply contenido_hab_length).
  assert (Hk : length (conservadas df) = contar (fun c => negb (es_tres c)) v).
  { unfold conservadas. rewrite (mascara_cuota_columna df v Hc Hl).
    apply mask_filter_contar. by rewrite length_seq. }
  pose proof (contar_complemento es_tres v) as Hsum.
  assert (Ht : nrows df - contar es_tres v = length (conservadas df)) by lia. rewrite Ht.
  pose proof (contar_complemento es_tres (take (length (conservadas df)) v)) as Htake.
  rewrite length_take in Htake.
  eexists _, _. unfold resumen. rewrite Hv, Hn.
  unfold lineas_emitidas. rewrite length_map, (mascara_cuota_columna df v Hc Hl), contar_take.
  f_equal. lia.
Qed.

Section Pagina_teoremas.
Context {A : Type} `{EqDecision A} (leer : A -> res frame).

(** C7: in every state the page can reach, the stored file name ends
    in [.hab]: the initial name, the name set by processing and every
    rename keep the suffix (lines 164-165, 231-232, 256-260). *)
Theorem nombre_archivo_hab hoy (s : sesion A) :
  alcanzable leer hoy s -> termina_en (nombre_archivo s) (lit ".hab") = true.
Proof.
  induction 1 as [|s w _ IH]; [vm_compute; reflexivity|].
  apply ejecutar_casos; [intros s' Hs; exact Hs | intros s' lote f arch Hs; exact Hs | | | exact IH].
  - intros s' df f Hs. unfold procesar_boton.
    destruct (procesar_archivo df f) as [[r c]|e]; cbn [fst nombre_archivo]; auto using termina_en_hab_deposito.
  - intros s' n Hs. unfold mostrar_resultados.
    destruct (lote_df s'), (resultado_df s'), (contenido_hab_s s'); simpl; auto.
    destruct (get_download_link _ _); simpl; apply renombrar_termina; exact Hs.
Qed.

(** C6: in every reachable state, a download link shown by a rerun
    is the link of the [.hab] text that [procesar_archivo] produces
    for the file and the date on the page in that rerun: its payload
    decodes to that text. *)
Theorem enlace_del_archivo_actual hoy (s : sesion A) (w : entrada A) h :
  alcanzable leer hoy s -> In (Enlace h) (snd (ejecutar leer s w)) ->
  exists a l r c, archivo w = Some a /\ leer a = Ok l /\
    procesar_archivo l (fecha_elegida w) = Ok (r, c) /\ carga_util h = Some c.
Proof.
  intros Hr Hin.
  destruct (ejecutar_enlace leer s w h (alcanzable_coherente leer hoy s Hr) Hin)
    as (s3 & Hc & Hp & Ha & Hf & Hm).
  destruct (Hc Hp) as (a & l & r & c & Ha' & Hl & _ & _ & Hcont & Hproc & _).
  destruct (mostrar_enlace s3 _ h Hm) as (c' & Hc' & Hg).
  rewrite Hcont in Hc'. injection Hc' as <-.
  exists a, l, r, c. rewrite <- Ha, <- Hf. repeat split; auto.
  exact (get_download_link_Ok c _ _ Hg).
Qed.

(** C16: a change of file or of date without a click on "Procesar
    datos" clears the processed flag and shows no link: the
    [on_change] callbacks call [reiniciar_procesamiento] (lines
    172-175, 186, 190). *)
Theorem cambio_reinicia (s : sesion A) (w : entrada A) :
  archivo w <> archivo_cargado s \/ fecha_elegida w <> fecha s -> boton_procesar w = false ->
  procesado (fst (ejecutar leer s w)) = false /\ forall h, ~ In (Enlace h) (snd (ejecutar leer s w)).
Proof.
  intros Hd Hb. unfold ejecutar. rewrite bool_decide_false by tauto. rewrite Hb. simpl.
  destruct (archivo w) as [a|]; simpl; [|split; auto].
  destruct (leer a); simpl; [|intuition discriminate].
  case_bool_decide; simpl; [|intuition discriminate].
  split; [reflexivity|]. intros h [Hx|Hx]; [discriminate | exact Hx].
Qed.

(** C17: when the processed text has a code point outside latin-1, a
    click on "Procesar datos" stores the text and sets the processed
    flag, and the page then reports the [UnicodeEncodeError] of
    [get_download_link] as a failure to read the Excel file (lines
    273-274): encoding is not part of the processing the session records. *)
Theorem error_codificacion_como_lectura (s : sesion A) (w : entrada A) a df r c :
  archivo w = Some a -> leer a = Ok df -> columnas_faltantes df = [] ->
  boton_procesar w = true -> procesar_archivo df (fecha_elegida w) = Ok (r, c) ->
  ~ Forall (fun x => x < 256)%N c ->
  procesado (fst (ejecutar leer s w)) = true /\ contenido_hab_s (fst (ejecutar leer s w)) = Some c /\
  exists j, List.last (snd (ejecutar leer s w)) (CargaExitosa 0) = ErrorLectura (UnicodeEncodeError j).
Proof.
  intros Ha Hl Hf Hb Hp Hn. unfold ejecutar. rewrite Ha, Hl, bool_decide_true by exact Hf.
  rewrite Hb. unfold procesar_boton. cbn [fecha]. rewrite Hp. cbn -[get_download_link].
  destruct (get_download_link c _) as [h|e] eqn:Hg.
  - exfalso. unfold get_download_link in Hg. destruct (encode_latin1 c) as [bs|e] eqn:He; [|discriminate].
    apply encode_latin1_desde_ok in He as [Hall _]. exact (Hn Hall).
  - unfold get_download_link in Hg. destruct (encode_latin1 c) as [bs|e'] eqn:He; [discriminate|].
    injection Hg as <-. apply encode_latin1_desde_err in He as (j & -> & _).
    unfold renombrar. case_bool_decide; (split; [reflexivity | split; [reflexivity | exists j; reflexivity]]).
Qed.

(** C8: progress.  From any state, a rerun with a readable sheet that
    has the required columns, whose processing succeeds with a latin-1
    text, and a click on "Procesar datos" sets the processed flag and
    shows a link whose payload decodes to that text. *)
Theorem clic_muestra_enlace (s : sesion A) a f nuevo df r c :
  leer a = Ok df -> columnas_faltantes df = [] -> procesar_archivo df f = Ok (r, c) ->
  Forall (fun x => x < 256)%N c ->
  procesado (fst (ejecutar leer s (mkEntrada (Some a) f true nuevo))) = true /\
  exists h, In (Enlace h) (snd (ejecutar leer s (mkEntrada (Some a) f true nuevo))) /\
            carga_util h = Some c.
Proof.
  intros Hl Hf Hp Hc. unfold ejecutar. cbn [archivo boton_procesar fecha_elegida nombre_escrito].
  rewrite Hl, bool_decide_true by exact Hf. unfold procesar_boton. cbn [fecha]. rewrite Hp.
  cbn -[get_download_link renombrar].
  destruct (encode_latin1_total c Hc) as (bs & He & _).
  destruct (get_download_link c _) as [h|e] eqn:Hg.
  - split; [unfold renombrar; case_bool_decide; reflexivity|].
    exists h. split; [simpl; tauto | exact (get_download_link_Ok c _ h Hg)].
  - unfold get_download_link in Hg. rewrite He in Hg. discriminate.
Qed.
End Pagina_teoremas.

Lemma nombre_archivo_hab_witness :
  alcanzable Ok hoy_ejemplo (fst (corrida hoja_ejemplo)) /\
  termina_en (nombre_archivo (fst (corrida hoja_ejemplo))) (lit ".hab") = true.
Proof.
  assert (H : alcanzable Ok hoy_ejemplo (fst (corrida hoja_ejemplo))) by (apply alc_paso, alc_inicio).
  split; [exact H | exact (nombre_archivo_hab Ok hoy_ejemplo _ H)].
Defined.

Lemma enlace_del_archivo_actual_witness :
  In (Enlace enlace_ejemplo) (snd (corrida hoja_ejemplo)) /\
  exists a l r c, archivo (entrada_ejemplo hoja_ejemplo) = Some a /\ Ok a = Ok l /\
    procesar_archivo l hoy_ejemplo = Ok (r, c) /\ carga_util enlace_ejemplo = Some c.
Proof.
  assert (Hin : In (Enlace enlace_ejemplo) (snd (corrida hoja_ejemplo))).
  { apply In_por_calculo. vm_compute. reflexivity. }
  split; [exact Hin|].
  exact (enlace_del_archivo_actual Ok hoy_ejemplo _ _ _ (alc_inicio _ _) Hin).
Defined.

Lemma cambio_reinicia_witness :
  fecha_elegida (mkEntrada (Some hoja_ejemplo) (lit "20261110") false (lit "deposito_20261109.hab"))
    <> fecha (fst (corrida hoja_ejemplo)) /\
  procesado (fst (ejecutar Ok (fst (corrida hoja_ejemplo))
    (mkEntrada (Some hoja_ejemplo) (lit "20261110") false (lit "deposito_20261109.hab")))) = false /\
  forall h, ~ In (Enlace h) (snd (ejecutar Ok (fst (corrida hoja_ejemplo))
    (mkEntrada (Some hoja_ejemplo) (lit "20261110") false (lit "deposito_20261109.hab")))).
Proof.
  assert (Hd : fecha_elegida (mkEntrada (Some hoja_ejemplo) (lit "20261110") false (lit "deposito_20261109.hab"))
    <> fecha (fst (corrida hoja_ejemplo))) by (vm_compute; discriminate).
  split; [exact Hd|]. apply (cambio_reinicia Ok); [right; exact Hd | reflexivity].
Defined.

Lemma error_codificacion_como_lectura_witness :
  ~ Forall (fun x => x < 256)%N
      (serializar (lineas_emitidas hoja_no_latin1 hoy_ejemplo)) /\
  procesado (fst (corrida hoja_no_latin1)) = true /\
  contenido_hab_s (fst (corrida hoja_no_latin1)) = Some (serializar (lineas_emitidas hoja_no_latin1 hoy_ejemplo)) /\
  exists j, List.last (snd (corrida hoja_no_latin1)) (CargaExitosa 0) = ErrorLectura (UnicodeEncodeError j).
Proof.
  assert (Hn : ~ Forall (fun x => x < 256)%N (serializar (lineas_emitidas hoja_no_latin1 hoy_ejemplo))).
  { intros Hf. rewrite List.Forall_forall in Hf. specialize (Hf 8211%N).
    assert (Hi : In 8211%N (serializar (lineas_emitidas hoja_no_latin1 hoy_ejemplo))).
    { apply In_por_calculo. vm_compute. reflexivity. }
    specialize (Hf Hi). lia. }
  split; [exact Hn|].
  apply (error_codificacion_como_lectura Ok _ _ hoja_no_latin1 hoja_no_latin1
           (take_rows (mascara_solicitud hoja_no_latin1) (resultado_de hoja_no_latin1 hoy_ejemplo)));
    [reflexivity | reflexivity | vm_compute; reflexivity | reflexivity | vm_compute; reflexivity | exact Hn].
Defined.

Lemma clic_muestra_enlace_witness :
  procesar_archivo hoja_ejemplo hoy_ejemplo
    = Ok (take_rows (mascara_solicitud hoja_ejemplo) (resultado_de hoja_ejemplo hoy_ejemplo),
          serializar (lineas_emitidas hoja_ejemplo hoy_ejemplo)) /\
  procesado (fst (corrida hoja_ejemplo)) = true /\
  exists h, In (Enlace h) (snd (corrida hoja_ejemplo)) /\
            carga_util h = Some (serializar (lineas_emitidas hoja_ejemplo hoy_ejemplo)).
Proof.
  assert (Hp : procesar_archivo hoja_ejemplo hoy_ejemplo
    = Ok (take_rows (mascara_solicitud hoja_ejemplo) (resultado_de hoja_ejemplo hoy_ejemplo),
          serializar (lineas_emitidas hoja_ejemplo hoy_ejemplo))) by (vm_compute; reflexivity).
  split; [exact Hp|].
  exact (clic_muestra_enlace Ok (estado_inicial hoy_ejemplo) hoja_ejemplo hoy_ejemplo
           (lit "deposito_20261109.hab") hoja_ejemplo _ _ eq_refl ltac:(vm_compute; reflexivity) Hp
           ltac:(apply latin1_de_bool; vm_compute; reflexivity)).
Defined.

Lemma resumen_excluidos_witness :
  frame_wf hoja_ejemplo /\ col_lookup (fcols hoja_ejemplo) "CUOTA" = Some (columna hoja_ejemplo "CUOTA") /\
  exists n m, resumen hoja_ejemplo hoja_ejemplo
    = Resumen (nrows hoja_ejemplo) (nrows hoja_ejemplo - length (conservadas hoja_ejemplo)) (nrows hoja_ejemplo) n m.
Proof.
  assert (Hw : frame_wf hoja_ejemplo) by (unfold frame_wf; simpl; repeat constructor).
  assert (Hc : col_lookup (fcols hoja_ejemplo) "CUOTA" = Some (columna hoja_ejemplo "CUOTA")) by (vm_compute; reflexivity).
  split; [exact Hw | split; [exact Hc | exact (resumen_excluidos hoja_ejemplo hoja_ejemplo _ Hw Hc)]].
Defined.

Lemma resumen_procesados_witness :
  (exists n m, resumen hoja_cuota_primero
     (take_rows (mascara_solicitud hoja_cuota_primero) (resultado_de hoja_cuota_primero hoy_ejemplo))
   = Resumen (nrows hoja_cuota_primero) (contar es_tres (columna hoja_cuota_primero "CUOTA"))
       (nrows hoja_cuota_primero - contar es_tres (columna hoja_cuota_primero "CUOTA")
        - contar es_tres (take (nrows hoja_cuota_primero - contar es_tres (columna hoja_cuota_primero "CUOTA"))
                            (columna hoja_cuota_primero "CUOTA"))) n m) /\
  nrows hoja_cuota_primero = 3 /\ contar es_tres (columna hoja_cuota_primero "CUOTA") = 1 /\
  nrows hoja_cuota_primero - contar es_tres (columna hoja_cuota_primero "CUOTA")
    - contar es_tres (take (nrows hoja_cuota_primero - contar es_tres (columna hoja_cuota_primero "CUOTA"))
                        (columna hoja_cuota_primero "CUOTA")) = 1.
Proof.
  split; [|vm_compute; repeat split].
  apply (resumen_procesados _ _ hoy_ejemplo (serializar (lineas_emitidas hoja_cuota_primero hoy_ejemplo))
           (hoja_wf _) (hoja_index _) (hoja_columnas _)).
  apply (procesar_archivo_resultado _ _ (hoja_wf _) (hoja_index _) (hoja_columnas _)).
Defined.
