(* ===== verification/Rerun.v ===== *)
(** * Reruns without interaction: the page reaches a fixed point

    Streamlit runs the script again on every interaction with the
    page, and [st.button] (line 222) is true only on the run that
    follows the click.  This file shows that the session of
    Session.v does not keep changing across such reruns.  After any
    run, a rerun with the same file, date and name and no click
    leaves [st.session_state] exactly as it was ([ejecutar_estable]):
    the reset callbacks do not fire, [lote_df] is stored again with
    the same frame, and the rename of lines 256-260 is idempotent.
    The rerun shows what the first run showed, except the
    [st.error] of a failed processing (line 237): that message is
    shown on the click's run only.  Iterating gives the fixed point
    after any number of reruns ([reejecutar_punto_fijo]). *)

From Stdlib Require Import List NArith Lia String.
From stdpp Require Import base list strings decidable.
From S2P Require Import Prelude PyStr Frame Schema Procesar RowSpec Download Session.
Import ListNotations.

(** The widget values of the reruns after a click: [st.button] is
    false again (line 222). *)
Definition sin_clic {A} (w : entrada A) : entrada A :=
  mkEntrada (archivo w) (fecha_elegida w) false (nombre_escrito w).

(** The messages a rerun repeats: all but [ErrorProceso] (line 237). *)
Definition no_es_error_proceso (a : aviso) : bool :=
  match a with ErrorProceso _ => false | _ => true end.

(** [n + 1] reruns with the same widget values: the state after the
    last one and what it shows. *)
Fixpoint reejecutar {A} `{EqDecision A} (leer : A -> res frame) (n : nat) (s : sesion A) (w : entrada A)
  : sesion A * list aviso :=
  match n with
  | O => ejecutar leer s w
  | S m => reejecutar leer m (fst (ejecutar leer s w)) w
  end.

(** ** Lemmas *)

Lemma renombrar_mismo {A} (s : sesion A) n : n = nombre_archivo s -> renombrar s n = s.
Proof. intros H. unfold renombrar. by rewrite bool_decide_true. Qed.

(** Lines 256-260 run twice with the same text give the name of one run. *)
Lemma renombrar_idem {A} (s : sesion A) n : renombrar (renombrar s n) n = renombrar s n.
Proof.
  destruct (decide (n = nombre_archivo s)) as [H|H]; [rewrite (renombrar_mismo s n H); exact (renombrar_mismo s n H)|].
  assert (R : renombrar s n = mkSesion (lote_df s) (fecha s) (resultado_df s) (contenido_hab_s s)
         (if termina_en n (lit ".hab") then n else n ++ lit ".hab") (procesado s) (error s) (archivo_cargado s))
    by (unfold renombrar; rewrite bool_decide_false; [reflexivity | exact H]).
  rewrite R. destruct (termina_en n (lit ".hab")) eqn:E; [by apply renombrar_mismo|].
  unfold renombrar. rewrite bool_decide_false; cbn [nombre_archivo]; [by rewrite E|].
  intros Hn. apply (f_equal length) in Hn. rewrite length_app in Hn. cbn in Hn. lia.
Qed.

(** A rename changes the name only. *)
Lemma renombrar_estado {A} (s : sesion A) n :
  lote_df (renombrar s n) = lote_df s /\ resultado_df (renombrar s n) = resultado_df s /\
  contenido_hab_s (renombrar s n) = contenido_hab_s s /\ procesado (renombrar s n) = procesado s /\
  error (renombrar s n) = error s /\ archivo_cargado (renombrar s n) = archivo_cargado s /\
  fecha (renombrar s n) = fecha s.
Proof. unfold renombrar. by case_bool_decide. Qed.

Lemma mostrar_idem {A} (s : sesion A) n :
  mostrar_resultados (fst (mostrar_resultados s n)) n = mostrar_resultados s n.
Proof.
  destruct (renombrar_estado s n) as (Hl & Hr & Hc & _).
  unfold mostrar_resultados at 2 3.
  destruct (lote_df s) as [l|] eqn:El, (resultado_df s) as [r|] eqn:Er, (contenido_hab_s s) as [c|] eqn:Ec;
    cbn [fst]; try (unfold mostrar_resultados; rewrite ?El, ?Er, ?Ec; reflexivity).
  destruct (get_download_link c (nombre_archivo (renombrar s n))) eqn:G; cbn [fst];
    unfold mostrar_resultados; rewrite Hl, Hr, Hc, renombrar_idem, G; reflexivity.
Qed.

Lemma mostrar_estado {A} (s : sesion A) n :
  lote_df (fst (mostrar_resultados s n)) = lote_df s /\ procesado (fst (mostrar_resultados s n)) = procesado s /\
  error (fst (mostrar_resultados s n)) = error s /\ archivo_cargado (fst (mostrar_resultados s n)) = archivo_cargado s /\
  fecha (fst (mostrar_resultados s n)) = fecha s.
Proof.
  pose proof (renombrar_estado s n) as (H1 & _ & _ & H). unfold mostrar_resultados.
  destruct (lote_df s) eqn:E1, (resultado_df s), (contenido_hab_s s); cbn [fst]; rewrite <-?E1; try done.
  destruct (get_download_link _ _); cbn [fst]; rewrite E1; tauto.
Qed.

Lemma mostrar_avisos {A} (s : sesion A) n :
  List.filter no_es_error_proceso (snd (mostrar_resultados s n)) = snd (mostrar_resultados s n).
Proof.
  unfold mostrar_resultados. destruct (lote_df s), (resultado_df s), (contenido_hab_s s); try done.
  destruct (get_download_link _ _); reflexivity.
Qed.

Lemma procesar_boton_avisos {A} (s : sesion A) df f :
  List.filter no_es_error_proceso (snd (procesar_boton s df f)) = [].
Proof. unfold procesar_boton. by destruct (procesar_archivo df f) as [[r c]|e]. Qed.

Lemma sesion_eta {A} (t : sesion A) :
  mkSesion (lote_df t) (fecha t) (resultado_df t) (contenido_hab_s t) (nombre_archivo t)
    (procesado t) (error t) (archivo_cargado t) = t.
Proof. by destruct t. Qed.

Section Rerun.
Context {A : Type} `{EqDecision A} (leer : A -> res frame).


Lemma ejecutar_pantalla (s : sesion A) (w : entrada A) :
  archivo_cargado (fst (ejecutar leer s w)) = archivo w /\ fecha (fst (ejecutar leer s w)) = fecha_elegida w.
Proof.
  unfold ejecutar. set (s0 := if bool_decide _ then s else _).
  destruct (archivo w) as [a|] eqn:Ea; [|done].
  destruct (leer a) as [df|e]; [|done]. case_bool_decide; [|done].
  destruct (if boton_procesar w then _ else _) as [s3 av1] eqn:E3.
  assert (H3 : archivo_cargado s3 = Some a /\ fecha s3 = fecha_elegida w).
  { destruct (boton_s3 _ _ _ _ _ _ E3) as [[-> _]|[-> _]]; [done|].
    rewrite (proj1 (procesar_boton_campos _ _ _)), (proj2 (procesar_boton_campos _ _ _)). done. }
  destruct (procesado s3 && _); [|exact H3].
  destruct (mostrar_resultados s3 _) as [s4 av2] eqn:E4.
  pose proof (mostrar_estado s3 (nombre_escrito w)) as (_ & _ & _ & Ha4 & Hf4).
  rewrite E4 in Ha4, Hf4. cbn [fst] in *. rewrite Ha4, Hf4. exact H3.
Qed.

Lemma ejecutar_estable (s : sesion A) (w : entrada A) :
  ejecutar leer (fst (ejecutar leer s w)) (sin_clic w)
  = (fst (ejecutar leer s w), List.filter no_es_error_proceso (snd (ejecutar leer s w))).
Proof.
  destruct (ejecutar_pantalla s w) as [Ha Hf].
  destruct (ejecutar leer s w) as [t av] eqn:Ep. cbn [fst snd] in *.
  unfold ejecutar. cbn [sin_clic archivo fecha_elegida boton_procesar nombre_escrito].
  rewrite bool_decide_true by auto. rewrite <- Hf.
  unfold ejecutar in Ep.
  destruct (archivo w) as [a|] eqn:Ea; [|injection Ep as <- <-; rewrite <- Ha, sesion_eta; reflexivity].
  rewrite <- Ha, sesion_eta.
  destruct (leer a) as [df|e] eqn:El; [|injection Ep as <- <-; reflexivity].
  case_bool_decide as Hc; [|injection Ep as <- <-; reflexivity].
  destruct (if boton_procesar w then _ else _) as [s3 av1] eqn:E3.
  assert (Hl3 : lote_df s3 = Some df /\ List.filter no_es_error_proceso av1 = []).
  { destruct (boton_s3 _ _ _ _ _ _ E3) as [[-> ->]|[-> ->]]; [done|].
    split; [|apply procesar_boton_avisos]. unfold procesar_boton. by destruct (procesar_archivo _ _) as [[r c]|e']. }
  destruct Hl3 as [Hl3 Hav1].
  destruct (procesado s3 && bool_decide (error s3 = None)) eqn:Hp.
  - destruct (mostrar_resultados s3 (nombre_escrito w)) as [s4 av2] eqn:E4.
    injection Ep as <- <-.
    pose proof (mostrar_estado s3 (nombre_escrito w)) as (Hl4 & Hp4 & He4 & _).
    rewrite E4 in Hl4, Hp4, He4. cbn [fst] in Hl4, Hp4, He4.
    rewrite <- Hl3, <- Hl4, sesion_eta, Hp4, He4, Hp.
    pose proof (mostrar_idem s3 (nombre_escrito w)) as Hi. rewrite E4 in Hi. cbn [fst] in Hi. rewrite Hi.
    pose proof (mostrar_avisos s3 (nombre_escrito w)) as Hm. rewrite E4 in Hm. cbn [snd] in Hm.
    cbn. rewrite List.filter_app, Hav1, Hm. reflexivity.
  - injection Ep as <- <-. rewrite <- Hl3, sesion_eta, Hp. cbn. by rewrite Hav1.
Qed.

(** C9: termination of the rerun loop.  After any run of the page,
    every further rerun with the same file, date and name and no click
    leaves the session state unchanged and shows the same messages,
    minus the processing error of line 237: the page reaches its fixed
    point after one rerun, for any number [n + 1] of reruns. *)
Theorem reejecutar_punto_fijo (s : sesion A) (w : entrada A) (n : nat) :
  reejecutar leer n (fst (ejecutar leer s w)) (sin_clic w)
  = (fst (ejecutar leer s w), List.filter no_es_error_proceso (snd (ejecutar leer s w))).
Proof.
  induction n as [|n IH]; [apply ejecutar_estable|].
  cbn [reejecutar]. rewrite ejecutar_estable. exact IH.
Qed.
End Rerun.
